(** * SocialAnalytics: channel analytics pipeline and document lookup service

    A shallow embedding of [dataCollection/main_youtube.py],
    [dataCollection/test.py], [dataCollection/api.py] and
    [dataCollection/DB_data_api.py].  The two analytics scripts share the
    resolver, the lister and the classifier word for word; the aggregator
    is that of [test.py].

    Python [str] values are modelled as [string] (code points below 256),
    Python [int] as [Z], dictionaries with a fixed set of keys as records,
    optional keys and [None] as [option].  Calls to the video API and to
    the database are calls to an oracle; every call is appended to a log
    so that "no network call" and "no database access" can be stated. *)

From Stdlib Require Import ZArith List String Ascii Bool Arith Lia.
From Stdlib Require Import Sorted.
Import ListNotations.
Local Open Scope string_scope.

(** ** Python string primitives *)

Module PyStr.

(** [c.isdigit()] for a code point below 256: the ten ASCII digits. *)
Definition is_digit (c : ascii) : bool :=
  let n := nat_of_ascii c in ((48 <=? n) && (n <=? 57))%nat.

Definition digit_value (c : ascii) : Z := Z.of_nat (nat_of_ascii c) - 48.

Fixpoint int_acc (acc : Z) (s : string) : Z :=
  match s with
  | "" => acc
  | String c s' => int_acc (acc * 10 + digit_value c) s'
  end.

(** [int(s)] for a string of decimal digits. *)
Definition int (s : string) : Z := int_acc 0 s.

(** [bool(s)]: a string is truthy when it is not empty. *)
Definition truthy (s : string) : bool :=
  match s with "" => false | _ => true end.

(** [s[:-1]] *)
Fixpoint drop_last (s : string) : string :=
  match s with
  | "" => ""
  | String c "" => ""
  | String c s' => String c (drop_last s')
  end.

(** [s[n:]] *)
Fixpoint drop (n : nat) (s : string) : string :=
  match n, s with
  | O, _ => s
  | S _, "" => ""
  | S k, String _ s' => drop k s'
  end.

(** [s[:n]] *)
Fixpoint take (n : nat) (s : string) : string :=
  match n, s with
  | O, _ => ""
  | S _, "" => ""
  | S k, String c s' => String c (take k s')
  end.

(** [s.startswith(p)] *)
Fixpoint startswith (s p : string) {struct p} : bool :=
  match p with
  | "" => true
  | String a p' =>
      match s with
      | "" => false
      | String b s' => Ascii.eqb a b && startswith s' p'
      end
  end.

(** [sub in s] *)
Fixpoint contains (sub s : string) : bool :=
  startswith s sub ||
  match s with
  | "" => false
  | String _ s' => contains sub s'
  end.

(** [s.split(sep)] for a non-empty separator: occurrences are found left
    to right and do not overlap.  [skip] counts the characters of the
    current occurrence that are still to be passed over; the head of the
    result is the rest of the piece being read. *)
Fixpoint split_go (sep : string) (skip : nat) (s : string) {struct s}
  : list string :=
  match s with
  | "" => [""]
  | String c s' =>
      match skip with
      | S k => split_go sep k s'
      | O =>
          if startswith s sep
          then "" :: split_go sep (String.length sep - 1) s'
          else match split_go sep 0 s' with
               | p :: ps => String c p :: ps
               | [] => [String c ""]
               end
      end
  end.

Definition split (s sep : string) : list string := split_go sep 0 s.

(** [s1 < s2] on strings: lexicographic on code points. *)
Fixpoint ltb (s1 s2 : string) : bool :=
  match s1, s2 with
  | _, "" => false
  | "", String _ _ => true
  | String c1 t1, String c2 t2 =>
      let n1 := nat_of_ascii c1 in
      let n2 := nat_of_ascii c2 in
      if (n1 <? n2)%nat then true
      else if (n2 <? n1)%nat then false
      else ltb t1 t2
  end.

End PyStr.

(** ** Regular expressions: the fragment of [re] the classifier uses

    A backtracking matcher in continuation-passing style.  Quantifiers are
    greedy and alternatives are tried in the order Python tries them: the
    longer repetition first, the present option before the absent one.
    Capture groups record the text they consumed. *)

Module Re.

Inductive regex : Type :=
| Lit (c : ascii)
| Digit
| Cat (r1 r2 : regex)
| Plus (r : regex)
| Opt (r : regex)
| Group (n : nat) (r : regex).

(** The groups that took part in the match, most recent binding first. *)
Definition captures := list (nat * string).

Fixpoint group (n : nat) (m : captures) : option string :=
  match m with
  | [] => None
  | (k, t) :: m' => if Nat.eqb k n then Some t else group n m'
  end.

Definition cont := string -> captures -> option captures.
Definition matcher := string -> captures -> cont -> option captures.

(** The text consumed between the input [s] and its suffix [s']. *)
Definition consumed (s s' : string) : string :=
  PyStr.take (String.length s - String.length s') s.

Definition or_else (a : option captures) (b : option captures) :=
  match a with Some m => Some m | None => b end.

(** [r+]: one iteration, then as many more as possible before the
    continuation is tried. An iteration that consumes nothing is not
    repeated. *)
Fixpoint plus_loop (m : matcher) (fuel : nat) (s : string) (caps : captures)
  (k : cont) : option captures :=
  match fuel with
  | O => None
  | S fuel' =>
      m s caps (fun s' caps' =>
        or_else
          (if (String.length s' <? String.length s)%nat
           then plus_loop m fuel' s' caps' k else None)
          (k s' caps'))
  end.

Fixpoint bt (r : regex) : matcher :=
  fun s caps k =>
  match r with
  | Lit c =>
      match s with
      | String c' s' => if Ascii.eqb c c' then k s' caps else None
      | "" => None
      end
  | Digit =>
      match s with
      | String c' s' => if PyStr.is_digit c' then k s' caps else None
      | "" => None
      end
  | Cat r1 r2 => bt r1 s caps (fun s' caps' => bt r2 s' caps' k)
  | Plus r1 => plus_loop (bt r1) (S (String.length s)) s caps k
  | Opt r1 => or_else (bt r1 s caps k) (k s caps)
  | Group n r1 =>
      bt r1 s caps (fun s' caps' => k s' ((n, consumed s s') :: caps'))
  end.

(** [re.match(r, s)]: a match anchored at the start of [s]. *)
Definition re_match (r : regex) (s : string) : option captures :=
  bt r s [] (fun _ caps => Some caps).

(** [re.fullmatch(r, s)]: the match has to reach the end of [s]. *)
Definition at_end : cont :=
  fun s' caps => match s' with "" => Some caps | _ => None end.

Definition re_fullmatch (r : regex) (s : string) : option captures :=
  bt r s [] at_end.

End Re.

(** ** Video classifier ([_determine_video_type], [_is_short_duration]) *)

Import Re.

(** [r'PT(\d+H)?(\d+M)?(\d+S)?'] *)
Definition unit_group (n : nat) (u : ascii) : regex :=
  Opt (Group n (Cat (Plus Digit) (Lit u))).

Definition duration_pattern : regex :=
  Cat (Lit "P") (Cat (Lit "T")
    (Cat (unit_group 1 "H") (Cat (unit_group 2 "M") (unit_group 3 "S")))).

(** [int(match.group(n)[:-1]) if match.group(n) else 0] *)
Definition component (n : nat) (m : captures) : Z :=
  match group n m with
  | Some t => if PyStr.truthy t then PyStr.int (PyStr.drop_last t) else 0%Z
  | None => 0%Z
  end.

Definition total_seconds (m : captures) : Z :=
  (component 1 m * 3600 + component 2 m * 60 + component 3 m)%Z.

Definition _is_short_duration (duration : string) : bool :=
  match re_match duration_pattern duration with
  | Some m => (total_seconds m <=? 60)%Z
  | None => false
  end.

(** A JSON object of the API, as far as its truth value matters. *)
Definition Dict := list (string * string).

(** [bool(d)] for [d : Optional[Dict]]: [None] and [{}] are falsy. *)
Definition truthy_dict (d : option Dict) : bool :=
  match d with
  | Some (_ :: _) => true
  | _ => false
  end.

(** [x in xs] for [x : Optional[str]] and a list of strings. *)
Definition in_strings (x : option string) (xs : list string) : bool :=
  match x with
  | Some s => existsb (String.eqb s) xs
  | None => false
  end.

Definition _determine_video_type (duration : string)
  (live_details : option Dict) (broadcast_content : option string) : string :=
  if truthy_dict live_details
     || in_strings broadcast_content ["live"; "upcoming"]
  then "Live"
  else if _is_short_duration duration then "Short"
  else "Video".

(** *** Reading a duration without backtracking

    What the pattern amounts to on every input, used to state and prove
    the classifier's properties: after [PT], each unit is a maximal run of
    digits followed by the unit's letter, or it is absent. *)

Fixpoint drop_digits (s : string) : string :=
  match s with
  | String c s' => if PyStr.is_digit c then drop_digits s' else s
  | "" => ""
  end.

Fixpoint take_digits (s : string) : string :=
  match s with
  | String c s' => if PyStr.is_digit c then String c (take_digits s') else ""
  | "" => ""
  end.

(** [Some (digits, rest)] when [s] is [digits ++ u ++ rest] with [digits]
    a non-empty maximal run of digits. *)
Definition read_unit (u : ascii) (s : string) : option (string * string) :=
  match take_digits s, drop_digits s with
  | String _ _ as ds, String c rest =>
      if Ascii.eqb u c then Some (ds, rest) else None
  | _, _ => None
  end.

Definition read_value (u : ascii) (s : string) : Z * string :=
  match read_unit u s with
  | Some (ds, rest) => (PyStr.int ds, rest)
  | None => (0%Z, s)
  end.

(** Where a unit group ends up: the captured text is the digits and the
    letter, or the group takes no part. *)
Definition unit_step (n : nat) (u : ascii) (s : string) (caps : captures)
  : string * captures :=
  match read_unit u s with
  | Some (ds, rest) => (rest, (n, ds ++ String u "") :: caps)
  | None => (s, caps)
  end.

(** [re.match] on the duration pattern, without backtracking. *)
Definition match_duration (s : string) : option captures :=
  match s with
  | String "P" (String "T" r) =>
      let '(r1, c1) := unit_step 1 "H" r [] in
      let '(r2, c2) := unit_step 2 "M" r1 c1 in
      let '(_, c3) := unit_step 3 "S" r2 c2 in
      Some c3
  | _ => None
  end.

(** Seconds read from the text that follows [PT]. *)
Definition read_seconds (s : string) : Z :=
  let '(h, s1) := read_value "H" s in
  let '(m, s2) := read_value "M" s1 in
  let '(sec, _) := read_value "S" s2 in
  (h * 3600 + m * 60 + sec)%Z.

(** The restricted form [PT[nH][nM][nS]], each [n] a non-empty string of
    digits; an absent unit is [None]. *)
Definition is_number (d : string) : bool :=
  PyStr.truthy d && String.eqb (drop_digits d) "".

Definition number_opt (o : option string) : bool :=
  match o with Some d => is_number d | None => true end.

Definition render_unit (o : option string) (u : string) : string :=
  match o with Some d => d ++ u | None => "" end.

Definition duration_of (h m s : option string) : string :=
  "PT" ++ render_unit h "H" ++ render_unit m "M" ++ render_unit s "S".

Definition value_of (o : option string) : Z :=
  match o with Some d => PyStr.int d | None => 0%Z end.

Definition seconds_of (h m s : option string) : Z :=
  (value_of h * 3600 + value_of m * 60 + value_of s)%Z.

(** The strings [PT[nH][nM][nS]], spelled out. *)
Definition well_formed_duration (duration : string) : Prop :=
  exists h m s,
    number_opt h = true /\ number_opt m = true /\ number_opt s = true
    /\ duration = duration_of h m s.

(** A string has the restricted form when the whole of it matches. *)
Definition restricted_form (duration : string) : bool :=
  match re_fullmatch duration_pattern duration with
  | Some _ => true
  | None => false
  end.

(** The first rule of the policy: live-streaming details are present
    and not empty (an object with at least one field) or the
    broadcast-content status is [live] or [upcoming]. *)
Definition live_rule (live_details : option Dict)
  (broadcast_content : option string) : Prop :=
  (exists kv rest, live_details = Some (kv :: rest))
  \/ broadcast_content = Some "live"
  \/ broadcast_content = Some "upcoming".

(** ** Effects: exceptions, mutable state and external calls

    A computation reads and updates a state and ends with a value, with
    an exception that [try]/[except] can catch, or by running out of the
    fuel that bounds [while True] (which nothing catches).  State changes
    made before an exception is raised stay, as they do in Python. *)

Module Py.

Inductive Result (A : Type) : Type :=
| Ok (a : A)
| Raise (e : string)
| OutOfFuel.

Arguments Ok {A} a.
Arguments Raise {A} e.
Arguments OutOfFuel {A}.

Definition St (S A : Type) : Type := S -> Result A * S.

Definition ret {S A : Type} (a : A) : St S A := fun s => (Ok a, s).

Definition bind {S A B : Type} (m : St S A) (k : A -> St S B) : St S B :=
  fun s =>
    match m s with
    | (Ok a, s') => k a s'
    | (Raise e, s') => (Raise e, s')
    | (OutOfFuel, s') => (OutOfFuel, s')
    end.

Definition raise {S A : Type} (e : string) : St S A := fun s => (Raise e, s).

Definition out_of_fuel {S A : Type} : St S A := fun s => (OutOfFuel, s).

(** [try: m except Exception as e: h e] *)
Definition try_except {S A : Type} (m : St S A) (h : string -> St S A)
  : St S A :=
  fun s =>
    match m s with
    | (Raise e, s') => h e s'
    | r => r
    end.

(** [for x in l: body x] *)
Fixpoint for_each {S A : Type} (l : list A) (body : A -> St S unit)
  : St S unit :=
  match l with
  | [] => ret tt
  | x :: l' => bind (body x) (fun _ => for_each l' body)
  end.

(** [l[i]], raising [IndexError] out of range. *)
Definition subscript {S A : Type} (l : list A) (i : nat) : St S A :=
  match nth_error l i with
  | Some x => ret x
  | None => raise "list index out of range"
  end.

End Py.

Import Py.

Declare Scope py_scope.
Delimit Scope py_scope with py.
Notation "x <- m ;; k" := (bind m (fun x => k))
  (at level 100, m at next level, right associativity) : py_scope.
Notation "m ;;; k" := (bind m (fun _ => k))
  (at level 100, right associativity) : py_scope.
Local Open Scope py_scope.

(** ** The video API

    Requests as the code builds them.  The part, type and developer key
    arguments are constants of the call sites and are left out. *)

Inductive Call : Type :=
| ChannelsListForUsername (forUsername : string)
| SearchList (q : string) (maxResults : nat)
| ChannelsListId (id : string)
| PlaylistItemsList (playlistId : string) (maxResults : nat)
    (pageToken : option string)
| VideosList (id : string).

(** What the process has done to the outside: the requests it sent, oldest
    first, and the lines it printed. *)
Record World : Type := mkWorld {
  calls : list Call;
  printed : list string
}.

Definition no_effects : World := mkWorld [] [].

(** An entry of a playlist page: [item['snippet']['publishedAt']] and
    [item['snippet']['resourceId']['videoId']]. *)
Record PlaylistItem : Type := mkPlaylistItem {
  item_publishedAt : string;
  item_videoId : string
}.

Record PlaylistPage : Type := mkPlaylistPage {
  page_items : list PlaylistItem;
  nextPageToken : option string
}.

(** A video resource.  The statistics are the counts the API sends as
    decimal strings, read by [int]; a count the API leaves out is [None]. *)
Record VideoResource : Type := mkVideoResource {
  snippet_title : string;
  snippet_publishedAt : string;
  snippet_liveBroadcastContent : option string;
  statistics_viewCount : option Z;
  statistics_likeCount : option Z;
  statistics_commentCount : option Z;
  contentDetails_duration : string;
  liveStreamingDetails : option Dict
}.

(** What [execute()] does with a request: it returns the response or it
    raises. *)
Inductive Answer (A : Type) : Type :=
| Got (a : A)
| Failed (e : string).

Arguments Got {A} a.
Arguments Failed {A} e.

(** The service.  A response may depend on the request and on how many
    requests were sent before it.
    Each function gives the part of the response the code reads:
    the [id] of each item, the [snippet.channelId] of each item, the
    [contentDetails.relatedPlaylists.uploads] of each item, a page, and
    the video resources. *)
Record YouTube : Type := mkYouTube {
  channels_list_forUsername : nat -> string -> Answer (list string);
  search_list : nat -> string -> nat -> Answer (list string);
  channels_list_id : nat -> string -> Answer (list string);
  playlistItems_list :
    nat -> string -> nat -> option string -> Answer PlaylistPage;
  videos_list : nat -> string -> Answer (list VideoResource)
}.

(** [request.execute()]: the request is logged and answered. *)
Definition execute {A : Type} (c : Call) (answer : nat -> Answer A)
  : St World A :=
  fun w =>
    (match answer (List.length (calls w)) with
     | Got a => Ok a
     | Failed e => Raise e
     end,
     mkWorld (calls w ++ [c]) (printed w)).

Definition print (line : string) : St World unit :=
  fun w => (Ok tt, mkWorld (calls w) (printed w ++ [line])).

(** ** Identifier resolver *)

Definition _get_channel_id_from_username (yt : YouTube) (username : string)
  : St World (option string) :=
  try_except
    (items <- execute (ChannelsListForUsername username)
                (fun t => channels_list_forUsername yt t username) ;;
     match items with
     | id :: _ => ret (Some id)
     | [] => ret None
     end)
    (fun e =>
       print ("Error getting channel ID from username: " ++ e) ;;;
       ret None).

Definition _get_channel_id_from_handle (yt : YouTube) (handle : string)
  : St World (option string) :=
  try_except
    (items <- execute (SearchList ("@" ++ handle) 1)
                (fun t => search_list yt t ("@" ++ handle) 1) ;;
     match items with
     | channelId :: _ => ret (Some channelId)
     | [] => ret None
     end)
    (fun e =>
       print ("Error getting channel ID from handle: " ++ e) ;;;
       ret None).

Definition get_channel_id (yt : YouTube) (identifier : string)
  : St World (option string) :=
  if PyStr.contains "youtube.com" identifier then
    if PyStr.contains "/channel/" identifier then
      after <- subscript (PyStr.split identifier "/channel/") 1 ;;
      id <- subscript (PyStr.split after "/") 0 ;;
      ret (Some id)
    else if PyStr.contains "/c/" identifier
            || PyStr.contains "/user/" identifier then
      _get_channel_id_from_username yt
        (last (PyStr.split identifier "/") "")
    else if PyStr.contains "/@" identifier then
      after <- subscript (PyStr.split identifier "/@") 1 ;;
      handle <- subscript (PyStr.split after "/") 0 ;;
      _get_channel_id_from_handle yt handle
    else ret None
  else if PyStr.startswith identifier "@" then
    _get_channel_id_from_handle yt (PyStr.drop 1 identifier)
  else _get_channel_id_from_username yt identifier.

(** The path segment that follows the first [/channel/]: the text after
    that occurrence, up to the next [/] or to the end. *)
Fixpoint after_first (sep s : string) : option string :=
  if PyStr.startswith s sep then Some (PyStr.drop (String.length sep) s)
  else match s with
       | "" => None
       | String _ s' => after_first sep s'
       end.

Fixpoint before_slash (s : string) : string :=
  match s with
  | "" => ""
  | String c s' => if Ascii.eqb c "/" then "" else String c (before_slash s')
  end.

Definition channel_segment (identifier : string) : option string :=
  option_map before_slash (after_first "/channel/" identifier).

(** ** Video records *)

(** The dictionary [get_video_details] returns when the video exists. *)
Record VideoDetails : Type := mkVideoDetails {
  d_title : string;
  d_published_at : string;
  d_views : Z;
  d_likes : Z;
  d_comments : Z;
  d_duration : string;
  d_type : string;
  d_url : string
}.

(** A video as [analyze_channel] reads it.  The keys it reads with
    [.get(key, default)] may be absent. *)
Record Video : Type := mkVideo {
  video_id : string;
  title : string;
  published_at : string;
  views : option Z;
  likes : option Z;
  comments : option Z;
  duration : string;
  type : option string;
  url : string
}.

(** [{'video_id': video_id, **video_details}] *)
Definition video_of (video_id : string) (d : VideoDetails) : Video :=
  mkVideo video_id (d_title d) (d_published_at d) (Some (d_views d))
    (Some (d_likes d)) (Some (d_comments d)) (d_duration d)
    (Some (d_type d)) (d_url d).

Definition get_or {A : Type} (o : option A) (default : A) : A :=
  match o with Some a => a | None => default end.

(** ** Video classifier: fetching the details

    [None] stands for the empty dictionary. *)
Definition get_video_details (yt : YouTube) (video_id : string)
  : St World (option VideoDetails) :=
  try_except
    (items <- execute (VideosList video_id)
                (fun t => videos_list yt t video_id) ;;
     match items with
     | video :: _ =>
         let duration := contentDetails_duration video in
         let video_type :=
           _determine_video_type duration (liveStreamingDetails video)
             (snippet_liveBroadcastContent video) in
         ret (Some (mkVideoDetails
                (snippet_title video)
                (snippet_publishedAt video)
                (get_or (statistics_viewCount video) 0%Z)
                (get_or (statistics_likeCount video) 0%Z)
                (get_or (statistics_commentCount video) 0%Z)
                duration
                video_type
                ("https://youtube.com/watch?v=" ++ video_id)))
     | [] => ret None
     end)
    (fun e => print ("Error getting video details: " ++ e) ;;; ret None).

(** ** Video lister *)

(** The local list [videos] sits next to the world in the state, so that
    what was appended before an exception is still there after it. *)
Definition Listing : Type := list Video * World.

Definition in_world {A : Type} (m : St World A) : St Listing A :=
  fun '(videos, w) => let '(r, w') := m w in (r, (videos, w')).

Definition append_video (v : Video) : St Listing unit :=
  fun '(videos, w) => (Ok tt, ((videos ++ [v])%list, w)).

(** [bool(token)] for [token : Optional[str]] *)
Definition truthy_token (token : option string) : bool :=
  match token with Some s => PyStr.truthy s | None => false end.

(** The body of [for item in playlist_response['items']]. *)
Definition collect_item (yt : YouTube) (published_after : string)
  (item : PlaylistItem) : St Listing unit :=
  if PyStr.ltb (item_publishedAt item) published_after then ret tt
  else
    video_details <- in_world (get_video_details yt (item_videoId item)) ;;
    match video_details with
    | Some d => append_video (video_of (item_videoId item) d)
    | None => ret tt
    end.

(** [while True:], bounded by [fuel] iterations. *)
Fixpoint page_loop (fuel : nat) (yt : YouTube) (published_after : string)
  (uploads_playlist_id : string) (next_page_token : option string)
  : St Listing unit :=
  match fuel with
  | O => out_of_fuel
  | S fuel' =>
      playlist_response <-
        in_world (execute
          (PlaylistItemsList uploads_playlist_id 50 next_page_token)
          (fun t => playlistItems_list yt t uploads_playlist_id 50
                      next_page_token)) ;;
      for_each (page_items playlist_response)
        (collect_item yt published_after) ;;;
      let next_page_token := nextPageToken playlist_response in
      if negb (truthy_token next_page_token) then ret tt
      else page_loop fuel' yt published_after uploads_playlist_id
             next_page_token
  end.

(** The clock, as the two places that read it see it:
    [(datetime.utcnow() - timedelta(days=days)).isoformat()] in
    [get_channel_videos] and [datetime.utcnow().isoformat()] at the end
    of [analyze_channel].  The first raises [OverflowError] when [days]
    is beyond what [timedelta] takes or when the date is out of range. *)
Record Clock : Type := mkClock {
  days_ago_isoformat : Z -> Answer string;
  utcnow_isoformat : string
}.

(** [(datetime.utcnow() - timedelta(days=days)).isoformat()] *)
Definition utc_days_ago (clock : Clock) (days : Z) : St World string :=
  fun w =>
    (match days_ago_isoformat clock days with
     | Got s => Ok s
     | Failed e => Raise e
     end,
     w).

(** The list [videos], the [try] statement that fills it, and
    [return videos], for the cutoff [published_after]. *)
Definition collect_videos (fuel : nat) (yt : YouTube)
  (published_after : string) (channel_id : string)
  : St World (list Video) :=
  fun w =>
    let body : St Listing unit :=
      try_except
        (items <- in_world (execute (ChannelsListId channel_id)
                              (fun t => channels_list_id yt t channel_id)) ;;
         match items with
         | [] => ret tt
         | uploads_playlist_id :: _ =>
             page_loop fuel yt published_after uploads_playlist_id None
         end)
        (fun e => in_world (print ("Error fetching channel videos: " ++ e)))
    in
    match body ([], w) with
    | (Ok _, (videos, w')) => (Ok videos, w')
    | (Raise e, (_, w')) => (Raise e, w')
    | (OutOfFuel, (_, w')) => (OutOfFuel, w')
    end.

(** The cutoff is computed before the [try] statement: what that line
    raises is raised to the caller. *)
Definition get_channel_videos (fuel : nat) (yt : YouTube) (clock : Clock)
  (channel_id : string) (days : Z) : St World (list Video) :=
  cutoff <- utc_days_ago clock days ;;
  let published_after := cutoff ++ "Z" in
  collect_videos fuel yt published_after channel_id.

(** *** Describing a listing

    The page requests among the calls, the requests a sequence of pages
    gives rise to, and the entries of those pages that are not older than
    the cutoff. *)

Definition is_page_request (c : Call) : bool :=
  match c with PlaylistItemsList _ _ _ => true | _ => false end.

Definition page_requests_of (cs : list Call) : list Call :=
  filter is_page_request cs.

Fixpoint page_requests (playlist : string) (token : option string)
  (pages : list PlaylistPage) : list Call :=
  match pages with
  | [] => []
  | p :: rest =>
      PlaylistItemsList playlist 50 token
      :: page_requests playlist (nextPageToken p) rest
  end.

(** The service answers the request for [token] with the first page, the
    request for that page's continuation token with the second, and so
    on; only the last page has no continuation token. *)
Fixpoint serves (yt : YouTube) (playlist : string) (token : option string)
  (pages : list PlaylistPage) : Prop :=
  match pages with
  | [] => False
  | p :: rest =>
      (forall t, playlistItems_list yt t playlist 50 token = Got p)
      /\ match rest with
         | [] => truthy_token (nextPageToken p) = false
         | _ :: _ =>
             truthy_token (nextPageToken p) = true
             /\ serves yt playlist (nextPageToken p) rest
         end
  end.

Definition in_window (published_after : string) (item : PlaylistItem) : bool :=
  negb (PyStr.ltb (item_publishedAt item) published_after).

Definition in_window_ids (published_after : string) (items : list PlaylistItem)
  : list string :=
  map item_videoId (filter (in_window published_after) items).

(** [l1] is [l2] with some elements left out. *)
Inductive subseq {A : Type} : list A -> list A -> Prop :=
| subseq_nil : subseq [] []
| subseq_skip x l1 l2 : subseq l1 l2 -> subseq l1 (x :: l2)
| subseq_keep x l1 l2 : subseq l1 l2 -> subseq (x :: l1) (x :: l2).

(** *** Services used in the examples *)

Definition sample_resource (title : string) (duration : string)
  : VideoResource :=
  mkVideoResource title "2024-06-01T10:00:00Z" (Some "none")
    (Some 100%Z) (Some 10%Z) (Some 1%Z) duration None.

Definition offline : YouTube :=
  mkYouTube (fun _ _ => Failed "offline") (fun _ _ _ => Failed "offline")
    (fun _ _ => Failed "offline") (fun _ _ _ _ => Failed "offline")
    (fun _ _ => Failed "offline").

(** No channel is known under any name. *)
Definition no_channels : YouTube :=
  mkYouTube (fun _ _ => Got []) (fun _ _ _ => Got []) (fun _ _ => Got [])
    (fun _ _ _ _ => Failed "playlistNotFound") (fun _ _ => Got []).

(** One recent upload on the first page; the request for the second page
    fails. *)
Definition second_page_fails : YouTube :=
  mkYouTube (fun _ _ => Got []) (fun _ _ _ => Got [])
    (fun _ _ => Got ["UU1"])
    (fun _ _ _ token =>
       match token with
       | None =>
           Got (mkPlaylistPage [mkPlaylistItem "2024-06-01T10:00:00Z" "v1"]
                 (Some "p2"))
       | Some _ => Failed "quotaExceeded"
       end)
    (fun _ id => Got [sample_resource id "PT5M"]).

(** Two recent uploads on a single page; the details of the first cannot
    be fetched. *)
Definition first_details_fail : YouTube :=
  mkYouTube (fun _ _ => Got []) (fun _ _ _ => Got [])
    (fun _ _ => Got ["UU1"])
    (fun _ _ _ _ =>
       Got (mkPlaylistPage [mkPlaylistItem "2024-06-02T10:00:00Z" "v0";
                           mkPlaylistItem "2024-06-01T10:00:00Z" "v1"]
             None))
    (fun _ id => if String.eqb id "v0" then Failed "backendError"
                 else Got [sample_resource id "PT5M"]).

(** Uploads served newest first in three pages.  With the cutoff of the
    examples, [2024-05-01], the first page holds one recent entry and one
    older entry: the cutoff is passed on the first page. *)
Definition first_page : PlaylistPage :=
  mkPlaylistPage [mkPlaylistItem "2024-06-01T10:00:00Z" "a";
                  mkPlaylistItem "2019-01-01T10:00:00Z" "b"]
    (Some "p2").

Definition second_page : PlaylistPage :=
  mkPlaylistPage [mkPlaylistItem "2018-01-01T10:00:00Z" "c"] (Some "p3").

Definition third_page : PlaylistPage :=
  mkPlaylistPage [mkPlaylistItem "2017-01-01T10:00:00Z" "d"] None.

Definition three_pages : YouTube :=
  mkYouTube (fun _ _ => Got []) (fun _ _ _ => Got [])
    (fun _ _ => Got ["UU1"])
    (fun _ _ _ token =>
       match token with
       | None => Got first_page
       | Some "p2" => Got second_page
       | Some _ => Got third_page
       end)
    (fun _ id => Got [sample_resource id "PT5M"]).

(** ** Aggregator ([analyze_channel])

    Python's [float] arithmetic is an interface: true division of two
    integers, the product of a float and an integer, and [round(x, n)].
    The aggregator only combines them.  The quotients are taken to be
    within the range of [float]: beyond it [int / int] raises
    [OverflowError], for totals of more than three hundred digits. *)

Class PyFloat : Type := {
  float : Type;
  truediv : Z -> Z -> float;
  fmul : float -> Z -> float;
  round : float -> Z -> float
}.

(** The free implementation: a float is the expression that computes it.
    It is used to run the aggregator in the examples. *)
Inductive FloatExpr : Type :=
| Div (a b : Z)
| Mul (x : FloatExpr) (z : Z)
| Round (x : FloatExpr) (ndigits : Z).

Definition symbolic_floats : PyFloat :=
  {| float := FloatExpr; truediv := Div; fmul := Mul; round := Round |}.

(** [sorted(l, key=key, reverse=True)]: the stable sort in descending
    order of the key.  Among elements of equal key the one that comes
    first in [l] comes first in the result. *)
Fixpoint insert_desc {A : Type} (key : A -> Z) (x : A) (l : list A) : list A :=
  match l with
  | [] => [x]
  | y :: l' =>
      if (key y <=? key x)%Z then x :: l else y :: insert_desc key x l'
  end.

Definition sorted {A : Type} (key : A -> Z) (l : list A) : list A :=
  fold_right (insert_desc key) [] l.

Section Aggregator.

Context {F : PyFloat}.

(** A number in the result: the [0] of the initial dictionaries is an
    [int], the rounded values are [float]s. *)
Inductive Number : Type :=
| Int (z : Z)
| Float (x : float).

Record TypeStats : Type := mkTypeStats {
  count : Z;
  total_views : Z;
  total_likes : Z;
  total_comments : Z;
  average_views : Number;
  average_likes : Number;
  average_comments : Number;
  engagement_rate : Number;
  top_videos : list Video
}.

Definition get_empty_type_stats : TypeStats :=
  mkTypeStats 0 0 0 0 (Int 0) (Int 0) (Int 0) (Int 0) [].

(** A dictionary with string keys, in insertion order. *)
Definition StatsDict : Type := list (string * TypeStats).

Fixpoint lookup (key : string) (d : StatsDict) : option TypeStats :=
  match d with
  | [] => None
  | (k, v) :: d' => if String.eqb k key then Some v else lookup key d'
  end.

(** Assignment to the fields of [d[key]], for a key of [d]. *)
Fixpoint update (key : string) (v : TypeStats) (d : StatsDict) : StatsDict :=
  match d with
  | [] => []
  | (k, v0) :: d' =>
      if String.eqb k key then (k, v) :: d' else (k, v0) :: update key v d'
  end.

Definition initial_content_type_stats : StatsDict :=
  [("Video", mkTypeStats 0 0 0 0 (Int 0) (Int 0) (Int 0) (Int 0) []);
   ("Short", mkTypeStats 0 0 0 0 (Int 0) (Int 0) (Int 0) (Int 0) []);
   ("Live", mkTypeStats 0 0 0 0 (Int 0) (Int 0) (Int 0) (Int 0) [])].

Definition views_key (x : Video) : Z := get_or (views x) 0%Z.

(** The body of [for video in videos], once [stats] is found. *)
Definition add_video (stats : TypeStats) (video : Video) : TypeStats :=
  mkTypeStats
    (count stats + 1)
    (total_views stats + get_or (views video) 0%Z)
    (total_likes stats + get_or (likes video) 0%Z)
    (total_comments stats + get_or (comments video) 0%Z)
    (average_views stats)
    (average_likes stats)
    (average_comments stats)
    (engagement_rate stats)
    (firstn 5 (sorted views_key (top_videos stats ++ [video]))).

(** [for video in videos]; [content_type_stats[video_type]] raises
    [KeyError] on a type that is not a key. *)
Fixpoint group_videos (videos : list Video) (content_type_stats : StatsDict)
  : Result StatsDict :=
  match videos with
  | [] => Ok content_type_stats
  | video :: rest =>
      let video_type := get_or (type video) "Video" in
      match lookup video_type content_type_stats with
      | None => Raise ("'" ++ video_type ++ "'")
      | Some stats =>
          group_videos rest
            (update video_type (add_video stats video) content_type_stats)
      end
  end.

(** The body of [for stats in content_type_stats.values()]. *)
Definition finish_stats (stats : TypeStats) : TypeStats :=
  if (count stats >? 0)%Z then
    let total_engagements := (total_likes stats + total_comments stats)%Z in
    mkTypeStats
      (count stats) (total_views stats) (total_likes stats)
      (total_comments stats)
      (Float (round (truediv (total_views stats) (count stats)) 2))
      (Float (round (truediv (total_likes stats) (count stats)) 2))
      (Float (round (truediv (total_comments stats) (count stats)) 2))
      (if (total_views stats >? 0)%Z
       then Float (round (fmul (truediv total_engagements (total_views stats))
                            100) 2)
       else Int 0)
      (top_videos stats)
  else stats.

Definition content_type_stats (videos : list Video) : Result StatsDict :=
  match group_videos videos initial_content_type_stats with
  | Ok d => Ok (map (fun '(k, stats) => (k, finish_stats stats)) d)
  | Raise e => Raise e
  | OutOfFuel => OutOfFuel
  end.

(** [sum(v.get(key, 0) for v in videos)] *)
Definition sum_of (field : Video -> option Z) (videos : list Video) : Z :=
  fold_left (fun acc v => (acc + get_or (field v) 0)%Z) videos 0%Z.

Record TotalStats : Type := mkTotalStats {
  total_videos : Z;
  overall_views : Z;
  overall_likes : Z;
  overall_comments : Z
}.

Definition total_stats (videos : list Video) : TotalStats :=
  mkTotalStats (Z.of_nat (List.length videos)) (sum_of views videos)
    (sum_of likes videos) (sum_of comments videos).

Record AnalysisResults : Type := mkAnalysisResults {
  channel_id : string;
  analysis_period_days : Z;
  analysis_date : string;
  overall_stats : TotalStats;
  content_type_analysis : StatsDict;
  all_videos : list Video
}.

(** What [analyze_channel] returns: the error dictionary or the results. *)
Inductive Analysis : Type :=
| AnalysisError (error : string)
| AnalysisOk (results : AnalysisResults).

Definition lift_result {S A : Type} (r : Result A) : St S A :=
  fun s => (r, s).

Definition analyze_channel (fuel : nat) (yt : YouTube) (clock : Clock)
  (channel_url : string) (days : Z) : St World Analysis :=
  found <- get_channel_id yt channel_url ;;
  match found with
  | None => ret (AnalysisError "Could not find channel ID")
  | Some channel_id =>
      if negb (PyStr.truthy channel_id)
      then ret (AnalysisError "Could not find channel ID")
      else
        videos <- get_channel_videos fuel yt clock channel_id days ;;
        let total_stats := total_stats videos in
        content_type_stats <- lift_result (content_type_stats videos) ;;
        ret (AnalysisOk
               (mkAnalysisResults channel_id days (utcnow_isoformat clock)
                  total_stats content_type_stats videos))
  end.

End Aggregator.

(** *** Describing the aggregation *)

(** Appending to a top list, sorting it and keeping five entries. *)
Definition top_insert {A : Type} (key : A -> Z) (top : list A) (x : A)
  : list A :=
  firstn 5 (sorted key (top ++ [x])).

(** The videos of a content type, in discovery order. *)
Definition has_type (t : string) (v : Video) : bool :=
  String.eqb (get_or (type v) "Video") t.

Definition bucket (t : string) (videos : list Video) : list Video :=
  filter (has_type t) videos.

(** The [type] field is absent or one of the three content types. *)
Definition valid_type (v : Video) : Prop :=
  type v = None \/ type v = Some "Video" \/ type v = Some "Short"
  \/ type v = Some "Live".







(** *** Channels used in the examples of the aggregator *)

(** The clock of the examples: the cutoff of the examples for every
    period within the range of dates, and no date beyond. *)
Definition sample_clock : Clock :=
  mkClock
    (fun days =>
       if (Z.abs days <=? 700000)%Z then Got "2024-05-01T00:00:00"
       else Failed "date value out of range")
    "2024-06-30T12:00:00".

Definition single_page (items : list PlaylistItem)
  (resource : string -> Answer (list VideoResource)) : YouTube :=
  mkYouTube (fun _ _ => Got []) (fun _ _ _ => Got [])
    (fun _ _ => Got ["UU1"])
    (fun _ _ _ _ => Got (mkPlaylistPage items None))
    (fun _ id => resource id).

(** The scenario of the spec: a 45 second upload, a 9000 second upload
    and an upload with live-streaming details. *)
Definition three_uploads : YouTube :=
  single_page
    [mkPlaylistItem "2024-06-03T10:00:00Z" "v45";
     mkPlaylistItem "2024-06-02T10:00:00Z" "v9000";
     mkPlaylistItem "2024-06-01T10:00:00Z" "vlive"]
    (fun id =>
       if String.eqb id "v45" then
         Got [mkVideoResource "clip" "2024-06-03T10:00:00Z" (Some "none")
                (Some 100%Z) (Some 10%Z) (Some 1%Z) "PT45S" None]
       else if String.eqb id "v9000" then
         Got [mkVideoResource "talk" "2024-06-02T10:00:00Z" (Some "none")
                (Some 2000%Z) (Some 30%Z) None "PT2H30M" None]
       else
         Got [mkVideoResource "stream" "2024-06-01T10:00:00Z" (Some "none")
                (Some 0%Z) (Some 7%Z) (Some 3%Z) "PT30S"
                (Some [("actualStartTime", "2024-06-01T09:00:00Z")])]).

(** A list of videos as the aggregator may be given: one without a type,
    one without a view count, several with the same number of views. *)
Definition upload (id : string) (views : option Z) (type : option string)
  : Video :=
  mkVideo id id "2024-06-01T10:00:00Z" views (Some 1%Z) (Some 0%Z) "PT10M"
    type ("https://youtube.com/watch?v=" ++ id).

Definition sample_videos : list Video :=
  [upload "a" (Some 5%Z) (Some "Video");
   upload "b" (Some 9%Z) None;
   upload "s" (Some 3%Z) (Some "Short");
   upload "c" (Some 5%Z) (Some "Video");
   upload "d" (Some 7%Z) (Some "Video");
   upload "e" (Some 9%Z) (Some "Video");
   upload "f" None (Some "Video");
   upload "g" (Some 5%Z) (Some "Video")].

(** ** Document lookup service ([api.py], [DB_data_api.py])

    The two variants answer [GET /get_data].  The request is its
    [channel_id] query parameter, [None] when it is missing.  A response
    is a status and a JSON body.  The database is an oracle, as the
    video API is; the calls made on it are logged. *)

Inductive Body : Type :=
| ErrorBody (error : string)
| DataBody (data : list Dict)
| DocumentBody (document : Dict).

Record Response : Type := mkResponse {
  status : nat;
  body : Body
}.

Inductive DbCall : Type :=
| Connect
| SessionExecute (query : string) (parameters : list string)
| Shutdown
| GetCollection (name : string)
| Find (channel_id : string).

(** [try: m finally: fin], for a [fin] that returns normally. *)
Definition try_finally {S A : Type} (m : St S A) (fin : St S unit)
  : St S A :=
  fun s =>
    let '(r, s1) := m s in
    let '(_, s2) := fin s1 in
    (r, s2).

(** *** [api.py]: a session and a query *)

Module Api.

(** [db.connect()], [session.execute(query, parameters)] and [dict(row)];
    each may raise. *)
Record Database : Type := mkDatabase {
  connect : nat -> Answer unit;
  session_execute : nat -> string -> list string -> Answer (list Dict);
  dict : Dict -> Answer Dict
}.

(** The local variable [session] and the log of the calls. *)
Record State : Type := mkState {
  session : option unit;
  db_calls : list DbCall
}.

Definition call {A : Type} (c : DbCall) (answer : nat -> Answer A)
  : St State A :=
  fun s =>
    (match answer (List.length (db_calls s)) with
     | Got a => Ok a
     | Failed e => Raise e
     end,
     mkState (session s) (db_calls s ++ [c])).

Definition set_session (x : unit) : St State unit :=
  fun s => (Ok tt, mkState (Some x) (db_calls s)).

(** [for row in rows: results.append(dict(row))] *)
Fixpoint dict_rows (db : Database) (rows : list Dict) (results : list Dict)
  : St State (list Dict) :=
  match rows with
  | [] => ret results
  | row :: rows' =>
      match dict db row with
      | Got d => dict_rows db rows' (results ++ [d])
      | Failed e => raise e
      end
  end.

(** The body of [try]. *)
Definition lookup (db : Database) (channel_id : string)
  : St State Response :=
  let table_name := "data" in
  let query := "SELECT * FROM " ++ table_name ++ " WHERE channel_id = %s" in
  connected <- call Connect (connect db) ;;
  set_session connected ;;;
  rows <- call (SessionExecute query [channel_id])
            (fun t => session_execute db t query [channel_id]) ;;
  results <- dict_rows db rows [] ;;
  ret (mkResponse 200 (DataBody results)).

(** [if session: session.shutdown()] *)
Definition release : St State unit :=
  fun s =>
    match session s with
    | Some _ => (Ok tt, mkState (session s) (db_calls s ++ [Shutdown]))
    | None => (Ok tt, s)
    end.

Definition get_data (db : Database) (channel_id : option string)
  : St (list DbCall) Response :=
  fun log =>
    if negb (truthy_token channel_id)
    then (Ok (mkResponse 400 (ErrorBody "channel_id parameter is required")),
          log)
    else
      let '(r, s) :=
        try_finally
          (try_except (lookup db (get_or channel_id ""))
             (fun e => ret (mkResponse 500 (ErrorBody e))))
          release
          (mkState None log) in
      (r, db_calls s).

End Api.

(** *** [DB_data_api.py]: a collection and a filter *)

Module DbDataApi.

(** What [collection.find] returns, as far as
    [results["data"]["documents"][0]] reads it: a missing key is
    [None]. *)
Record FindResults : Type := mkFindResults {
  data_documents : option (option (list Dict))
}.

Record Database : Type := mkDatabase {
  collection : nat -> string -> Answer unit;
  find : nat -> string -> Answer FindResults
}.

Definition call {A : Type} (c : DbCall) (answer : nat -> Answer A)
  : St (list DbCall) A :=
  fun log =>
    (match answer (List.length log) with
     | Got a => Ok a
     | Failed e => Raise e
     end,
     (log ++ [c])%list).

(** [results["data"]["documents"][0]]; [str] of a [KeyError] is the key
    in quotes. *)
Definition first_document (results : FindResults)
  : St (list DbCall) Dict :=
  match data_documents results with
  | None => raise "'data'"
  | Some None => raise "'documents'"
  | Some (Some documents) => subscript documents 0
  end.

(** The body of [try]. *)
Definition lookup (db : Database) (channel_id : string)
  : St (list DbCall) Response :=
  let collection_name := "data" in
  call (GetCollection collection_name)
    (fun t => collection db t collection_name) ;;;
  results <- call (Find channel_id) (fun t => find db t channel_id) ;;
  document <- first_document results ;;
  ret (mkResponse 200 (DocumentBody document)).

Definition get_data (db : Database) (channel_id : option string)
  : St (list DbCall) Response :=
  if negb (truthy_token channel_id)
  then ret (mkResponse 400 (ErrorBody "channel_id parameter is required"))
  else
    try_except (lookup db (get_or channel_id ""))
      (fun e => ret (mkResponse 500 (ErrorBody e))).

End DbDataApi.

(** Databases used in the examples. *)
Definition unreachable_cluster : Api.Database :=
  Api.mkDatabase (fun _ => Failed "NoHostAvailable")
    (fun _ _ _ => Got []) (fun row => Got row).

Definition failing_query : Api.Database :=
  Api.mkDatabase (fun _ => Got tt)
    (fun _ _ _ => Failed "InvalidRequest") (fun row => Got row).

Definition empty_collection : DbDataApi.Database :=
  DbDataApi.mkDatabase (fun _ _ => Got tt)
    (fun _ _ => Got (DbDataApi.mkFindResults (Some (Some [])))).

Definition unreachable_store : DbDataApi.Database :=
  DbDataApi.mkDatabase (fun _ _ => Got tt) (fun _ _ => Failed "timeout").

(** A cluster that holds two rows for every channel, and a collection
    that holds two documents. *)
Definition two_rows : Api.Database :=
  Api.mkDatabase (fun _ => Got tt)
    (fun _ _ parameters =>
       Got [[("channel_id", "UC1"); ("title", "first")];
            [("channel_id", "UC1"); ("title", "second")]])
    (fun row => Got row).

Definition two_documents : DbDataApi.Database :=
  DbDataApi.mkDatabase (fun _ _ => Got tt)
    (fun _ _ =>
       Got (DbDataApi.mkFindResults
              (Some (Some [[("channel_id", "UC1"); ("title", "first")];
                           [("channel_id", "UC1"); ("title", "second")]])))).

(** A service that hands out a continuation token with every page; the
    entries of its pages are all old. *)
Definition endless_pages : YouTube :=
  mkYouTube (fun _ _ => Got []) (fun _ _ _ => Got [])
    (fun _ _ => Got ["UU1"])
    (fun _ _ _ _ =>
       Got (mkPlaylistPage [mkPlaylistItem "2010-01-01T10:00:00Z" "old"]
              (Some "more")))
    (fun _ id => Got [sample_resource id "PT5M"]).

(** ** Descriptions used by the further properties *)

(** The handle of a handle URL: the text after the first [/@], up to the
    next [/] or to the end. *)
Definition handle_segment (identifier : string) : option string :=
  option_map before_slash (after_first "/@" identifier).

(** What the two lookups make of an answer: the first item, if there is
    one, and a printed line when the request raised. *)
Definition first_item (a : Answer (list string)) : option string :=
  match a with
  | Got (x :: _) => Some x
  | _ => None
  end.

Definition error_lines {A : Type} (label : string) (a : Answer A)
  : list string :=
  match a with
  | Failed e => [label ++ e]
  | Got _ => []
  end.

(** A service that knows one channel under a username and under a
    handle. *)
Definition one_channel : YouTube :=
  mkYouTube
    (fun _ username =>
       if String.eqb username "creator" then Got ["UCbyname"] else Got [])
    (fun _ q _ =>
       if String.eqb q "@creator" then Got ["UCbyhandle"; "UCsecond"]
       else Failed "quotaExceeded")
    (fun _ _ => Got []) (fun _ _ _ _ => Failed "playlistNotFound")
    (fun _ _ => Got []).

(** The requests of a listing: for each page the request for the page,
    then one request for the details of each entry that is not older
    than the cutoff. *)
Definition page_calls (published_after playlist : string)
  (token : option string) (p : PlaylistPage) : list Call :=
  PlaylistItemsList playlist 50 token
  :: map VideosList (in_window_ids published_after (page_items p)).

Fixpoint listing_calls (published_after playlist : string)
  (token : option string) (pages : list PlaylistPage) : list Call :=
  match pages with
  | [] => []
  | p :: rest =>
      page_calls published_after playlist token p
      ++ listing_calls published_after playlist (nextPageToken p) rest
  end.

(** A record as [get_channel_videos] builds it: a known type, the three
    counts, and the watch URL of its identifier. *)
Definition complete_record (v : Video) : Prop :=
  (exists t, type v = Some t /\ In t ["Video"; "Short"; "Live"])
  /\ views v <> None /\ likes v <> None /\ comments v <> None
  /\ url v = "https://youtube.com/watch?v=" ++ video_id v.

(** Insertion of an element behind the elements that do not have a
    smaller key: where the stable descending sort puts the last element
    of a list. *)
Fixpoint insert_back {A : Type} (key : A -> Z) (x : A) (l : list A) : list A :=
  match l with
  | [] => [x]
  | y :: l' =>
      if (key y <? key x)%Z then x :: l else y :: insert_back key x l'
  end.

(** * Properties *)

(** ** The duration pattern *)

Section DurationPattern.

Lemma take_drop_digits s : take_digits s ++ drop_digits s = s.
Proof.
  induction s as [|c s IH]; simpl; [reflexivity|].
  destruct (PyStr.is_digit c); simpl; [now rewrite IH | reflexivity].
Qed.

Lemma take_app_length a b : PyStr.take (String.length a) (a ++ b) = a.
Proof. induction a as [|c a IH]; simpl; [now destruct b | now rewrite IH]. Qed.

Lemma string_length_app (a b : string) :
  String.length (a ++ b) = (String.length a + String.length b)%nat.
Proof. induction a as [|c a IH]; simpl; [reflexivity | now rewrite IH]. Qed.

Lemma consumed_app a b : consumed (a ++ b) b = a.
Proof.
  unfold consumed. rewrite string_length_app.
  replace (String.length a + String.length b - String.length b)%nat
    with (String.length a) by lia.
  apply take_app_length.
Qed.

(** A continuation that cannot start on a digit sees [\d+] only at the end
    of the maximal run: the shorter repetitions all fail. *)
Lemma plus_digit (k : cont) :
  (forall c s caps, PyStr.is_digit c = true -> k (String c s) caps = None) ->
  forall s fuel caps,
    (String.length s < fuel)%nat ->
    plus_loop (bt Digit) fuel s caps k =
    match take_digits s with
    | "" => None
    | _ => k (drop_digits s) caps
    end.
Proof.
  intros Hk. induction s as [|c s IH]; intros fuel caps Hf.
  - destruct fuel; reflexivity.
  - destruct fuel as [|fuel]; [simpl in Hf; lia|].
    simpl. destruct (PyStr.is_digit c) eqn:Hc; [|reflexivity].
    replace (String.length s <? S (String.length s))%nat with true
      by (symmetry; apply Nat.ltb_lt; lia).
    rewrite IH by (simpl in Hf; lia).
    destruct s as [|c' s']; simpl; [reflexivity|].
    destruct (PyStr.is_digit c') eqn:Hc'; simpl.
    + destruct (k (drop_digits s') caps) eqn:E; simpl; [reflexivity|].
      now apply Hk.
    + reflexivity.
Qed.

Lemma lit_after_digits (u : ascii) (K : cont) :
  PyStr.is_digit u = false ->
  forall c s caps, PyStr.is_digit c = true ->
    bt (Lit u) (String c s) caps K = None.
Proof.
  intros Hu c s caps Hc. simpl.
  destruct (Ascii.eqb u c) eqn:E; [|reflexivity].
  apply Ascii.eqb_eq in E. congruence.
Qed.

(** A unit group on any continuation: when the unit can be read the
    continuation is tried after it, and, should that fail, without it. *)
Lemma bt_unit_group_any n u (k : cont) s caps :
  PyStr.is_digit u = false ->
  bt (unit_group n u) s caps k =
  match read_unit u s with
  | Some (ds, rest) =>
      or_else (k rest ((n, ds ++ String u "") :: caps)) (k s caps)
  | None => k s caps
  end.
Proof.
  intros Hu. unfold unit_group, read_unit.
  cbn [bt].
  rewrite plus_digit; [| intros; now apply lit_after_digits | lia].
  pose proof (take_drop_digits s) as Hs.
  destruct (take_digits s) as [|d ds] eqn:Ht; [reflexivity|].
  destruct (drop_digits s) as [|c rest] eqn:Hd; [reflexivity|].
  cbn [bt]. destruct (Ascii.eqb u c) eqn:E; [|reflexivity].
  apply Ascii.eqb_eq in E. subst c.
  replace (consumed s rest) with (String d ds ++ String u ""); [reflexivity|].
  rewrite <- Hs at 1.
  change (String u rest) with (String u "" ++ rest).
  rewrite <- (consumed_app ((String d ds) ++ String u "") rest) at 1.
  f_equal. generalize (String d ds). intros a.
  induction a as [|x a IH]; simpl; [reflexivity | now rewrite IH].
Qed.

(** On a continuation that always succeeds nothing is tried twice. *)
Lemma bt_unit_group n u (k : cont) s caps :
  PyStr.is_digit u = false ->
  (forall s' caps', k s' caps' <> None) ->
  bt (unit_group n u) s caps k =
  let '(s', caps') := unit_step n u s caps in k s' caps'.
Proof.
  intros Hu Hk. rewrite bt_unit_group_any by exact Hu. unfold unit_step.
  destruct (read_unit u s) as [[ds rest]|]; [|reflexivity].
  destruct (k rest _) eqn:Ek; [reflexivity | now apply Hk in Ek].
Qed.

Lemma re_match_duration s :
  re_match duration_pattern s = match_duration s.
Proof.
  unfold re_match, duration_pattern, match_duration.
  destruct s as [|p s]; [reflexivity|].
  cbn [bt]. destruct (Ascii.eqb "P" p) eqn:Ep.
  2:{ destruct p as [[] [] [] [] [] [] [] []]; try discriminate; reflexivity. }
  apply Ascii.eqb_eq in Ep. subst p.
  destruct s as [|t s]; [reflexivity|].
  destruct (Ascii.eqb "T" t) eqn:Et.
  2:{ destruct t as [[] [] [] [] [] [] [] []]; try discriminate; reflexivity. }
  apply Ascii.eqb_eq in Et. subst t.
  rewrite bt_unit_group; [| reflexivity |].
  2:{ intros s' caps'. rewrite bt_unit_group; [| reflexivity |].
      - destruct (unit_step 2 "M" s' caps') as [r2 c2].
        rewrite bt_unit_group; [| reflexivity | discriminate].
        now destruct (unit_step 3 "S" r2 c2).
      - intros s2 c2. rewrite bt_unit_group; [| reflexivity | discriminate].
        now destruct (unit_step 3 "S" s2 c2). }
  destruct (unit_step 1 "H" s []) as [r1 c1].
  rewrite bt_unit_group; [| reflexivity |].
  2:{ intros s2 c2. rewrite bt_unit_group; [| reflexivity | discriminate].
      now destruct (unit_step 3 "S" s2 c2). }
  destruct (unit_step 2 "M" r1 c1) as [r2 c2].
  rewrite bt_unit_group; [| reflexivity | discriminate].
  now destruct (unit_step 3 "S" r2 c2).
Qed.

Lemma truthy_app_unit ds u : PyStr.truthy (ds ++ String u "") = true.
Proof. now destruct ds. Qed.

Lemma drop_last_app_unit ds u : PyStr.drop_last (ds ++ String u "") = ds.
Proof.
  induction ds as [|c ds IH]; [reflexivity|].
  simpl. rewrite IH. now destruct ds.
Qed.

(** The seconds computed from the groups are the seconds read directly. *)
Lemma total_seconds_read r :
  match match_duration (String "P" (String "T" r)) with
  | Some m => total_seconds m = read_seconds r
  | None => False
  end.
Proof.
  unfold match_duration, read_seconds, read_value, unit_step, total_seconds.
  destruct (read_unit "H" r) as [[dh r1]|];
    [destruct (read_unit "M" r1) as [[dm r2]|]
    |destruct (read_unit "M" r) as [[dm r2]|]];
    (destruct (read_unit "S" _) as [[ds r3]|]);
    unfold component; cbn [group Nat.eqb];
    rewrite ?truthy_app_unit, ?drop_last_app_unit; reflexivity.
Qed.

Lemma is_short_PT r :
  _is_short_duration ("PT" ++ r) = (read_seconds r <=? 60)%Z.
Proof.
  unfold _is_short_duration. rewrite re_match_duration.
  pose proof (total_seconds_read r) as H. cbn [append].
  destruct (match_duration _); [now rewrite H | contradiction].
Qed.

Lemma is_short_not_PT s :
  PyStr.startswith s "PT" = false -> _is_short_duration s = false.
Proof.
  intros H. unfold _is_short_duration. rewrite re_match_duration.
  destruct (match_duration s) eqn:E; [|reflexivity].
  assert (PyStr.startswith s "PT" = true); [|congruence].
  unfold match_duration in E.
  destruct s as [|a [|b r]]; try discriminate.
  - destruct a as [[] [] [] [] [] [] [] []]; discriminate.
  - destruct a as [[] [] [] [] [] [] [] []]; try discriminate.
    destruct b as [[] [] [] [] [] [] [] []]; discriminate.
Qed.

Lemma append_unit d u rest : (d ++ String u "") ++ rest = d ++ String u rest.
Proof. induction d as [|c d IH]; simpl; [reflexivity | now rewrite IH]. Qed.

Lemma is_number_inv d :
  is_number d = true -> PyStr.truthy d = true /\ drop_digits d = "".
Proof.
  unfold is_number. intros H. apply andb_prop in H as [H1 H2].
  now apply String.eqb_eq in H2.
Qed.

Lemma digits_then d c rest :
  drop_digits d = "" -> PyStr.is_digit c = false ->
  take_digits (d ++ String c rest) = d
  /\ drop_digits (d ++ String c rest) = String c rest.
Proof.
  intros Hd Hc. induction d as [|x d IH]; simpl in *.
  - now rewrite Hc.
  - destruct (PyStr.is_digit x); [|discriminate].
    destruct (IH Hd) as [-> ->]. now split.
Qed.

Lemma read_unit_present u d rest :
  is_number d = true -> PyStr.is_digit u = false ->
  read_unit u (d ++ String u rest) = Some (d, rest).
Proof.
  intros Hd Hu. apply is_number_inv in Hd as [Ht Hd].
  unfold read_unit. destruct (digits_then d u rest Hd Hu) as [-> ->].
  destruct d; [discriminate|]. now rewrite Ascii.eqb_refl.
Qed.

Lemma read_unit_other u u' d rest :
  is_number d = true -> PyStr.is_digit u' = false -> Ascii.eqb u u' = false ->
  read_unit u (d ++ String u' rest) = None.
Proof.
  intros Hd Hu Hne. apply is_number_inv in Hd as [Ht Hd].
  unfold read_unit. destruct (digits_then d u' rest Hd Hu) as [-> ->].
  destruct d; [discriminate|]. now rewrite Hne.
Qed.

(** On a duration of the restricted form the seconds read are
    [hours * 3600 + minutes * 60 + seconds], absent units counting zero. *)
Lemma read_seconds_of h m s :
  number_opt h = true -> number_opt m = true -> number_opt s = true ->
  read_seconds (render_unit h "H" ++ render_unit m "M" ++ render_unit s "S")
  = seconds_of h m s.
Proof.
  intros Hh Hm Hs. unfold read_seconds, read_value, seconds_of.
  destruct h as [dh|], m as [dm|], s as [ds|]; cbn [render_unit value_of] in *;
    cbn [append];
    rewrite ?append_unit;
    repeat first
      [ rewrite read_unit_present by (assumption || reflexivity)
      | rewrite read_unit_other by (assumption || reflexivity)
      | progress cbn [read_unit take_digits drop_digits] ];
    reflexivity.
Qed.

(** *** The restricted form is what the pattern matches in full *)

Lemma drop_take_digits s : drop_digits (take_digits s) = "".
Proof.
  induction s as [|c s IH]; [reflexivity|].
  cbn [take_digits]. destruct (PyStr.is_digit c) eqn:E; [|reflexivity].
  cbn [drop_digits]. now rewrite E.
Qed.

Lemma read_unit_inv u s ds rest :
  read_unit u s = Some (ds, rest) ->
  s = ds ++ String u rest /\ is_number ds = true.
Proof.
  unfold read_unit. pose proof (take_drop_digits s) as Hs.
  pose proof (drop_take_digits s) as Hd.
  destruct (take_digits s) as [|d ds'] eqn:Ht; [discriminate|].
  destruct (drop_digits s) as [|c rest'] eqn:Hr; [discriminate|].
  destruct (Ascii.eqb u c) eqn:E; [|discriminate].
  apply Ascii.eqb_eq in E. subst c. intros [= <- <-]. split; [now symmetry|].
  unfold is_number. rewrite Hd. reflexivity.
Qed.

Lemma unit_group_skip n u (k : cont) s caps :
  PyStr.is_digit u = false ->
  k s caps <> None -> bt (unit_group n u) s caps k <> None.
Proof.
  intros Hu Hk. rewrite bt_unit_group_any by exact Hu.
  destruct (read_unit u s) as [[ds rest]|]; [|exact Hk].
  now destruct (k rest _).
Qed.

Lemma unit_group_take n u (k : cont) d rest caps :
  PyStr.is_digit u = false -> is_number d = true ->
  k rest ((n, d ++ String u "") :: caps) <> None ->
  bt (unit_group n u) (d ++ String u rest) caps k <> None.
Proof.
  intros Hu Hd Hk. rewrite bt_unit_group_any by exact Hu.
  rewrite read_unit_present by assumption.
  now destruct (k rest _).
Qed.

Lemma unit_group_inv n u (k : cont) s caps :
  PyStr.is_digit u = false ->
  bt (unit_group n u) s caps k <> None ->
  (exists d rest caps',
      is_number d = true /\ s = d ++ String u rest /\ k rest caps' <> None)
  \/ k s caps <> None.
Proof.
  intros Hu. rewrite bt_unit_group_any by exact Hu.
  destruct (read_unit u s) as [[ds rest]|] eqn:Hr; [|now right].
  apply read_unit_inv in Hr as [-> Hd].
  destruct (k rest _) eqn:Hk; [|now right].
  intros _. left. exists ds, rest. eexists. repeat split; try assumption.
  rewrite Hk. discriminate.
Qed.

Lemma seconds_form s caps :
  bt (unit_group 3 "S") s caps at_end <> None <->
  exists so, number_opt so = true /\ s = render_unit so "S".
Proof.
  split.
  - intros H. apply unit_group_inv in H as [(d & rest & c & Hd & -> & Hk)|Hk];
      [| |reflexivity].
    + exists (Some d). split; [exact Hd|].
      destruct rest; [reflexivity | now elim Hk].
    + exists None. split; [reflexivity|]. destruct s; [reflexivity | now elim Hk].
  - intros ([d|] & Hd & ->); cbn [render_unit number_opt] in *.
    + apply unit_group_take; [reflexivity | exact Hd | discriminate].
    + apply unit_group_skip; [reflexivity | discriminate].
Qed.

Lemma minutes_form s caps :
  bt (unit_group 2 "M") s caps
    (fun s' caps' => bt (unit_group 3 "S") s' caps' at_end) <> None <->
  exists mo so,
    number_opt mo = true /\ number_opt so = true
    /\ s = render_unit mo "M" ++ render_unit so "S".
Proof.
  split.
  - intros H. apply unit_group_inv in H as [(d & rest & c & Hd & -> & Hk)|Hk];
      [| |reflexivity].
    + apply seconds_form in Hk as (so & Hso & ->).
      exists (Some d), so. cbn [render_unit]. now rewrite append_unit.
    + apply seconds_form in Hk as (so & Hso & ->). now exists None, so.
  - intros ([d|] & so & Hd & Hso & ->); cbn [render_unit number_opt] in *.
    + rewrite append_unit.
      apply unit_group_take; [reflexivity | exact Hd |].
      apply seconds_form. now exists so.
    + apply unit_group_skip; [reflexivity|].
      apply seconds_form. now exists so.
Qed.

Lemma hours_form s caps :
  bt (unit_group 1 "H") s caps
    (fun s1 caps1 =>
       bt (unit_group 2 "M") s1 caps1
         (fun s2 caps2 => bt (unit_group 3 "S") s2 caps2 at_end)) <> None <->
  exists ho mo so,
    number_opt ho = true /\ number_opt mo = true /\ number_opt so = true
    /\ s = render_unit ho "H" ++ render_unit mo "M" ++ render_unit so "S".
Proof.
  split.
  - intros H. apply unit_group_inv in H as [(d & rest & c & Hd & -> & Hk)|Hk];
      [| |reflexivity].
    + apply minutes_form in Hk as (mo & so & Hmo & Hso & ->).
      exists (Some d), mo, so. cbn [render_unit]. now rewrite append_unit.
    + apply minutes_form in Hk as (mo & so & Hmo & Hso & ->).
      now exists None, mo, so.
  - intros ([d|] & mo & so & Hd & Hmo & Hso & ->);
      cbn [render_unit number_opt] in *.
    + rewrite append_unit.
      apply unit_group_take; [reflexivity | exact Hd |].
      apply minutes_form. now exists mo, so.
    + apply unit_group_skip; [reflexivity|].
      apply minutes_form. now exists mo, so.
Qed.

(** [re.fullmatch] accepts exactly the strings [PT[nH][nM][nS]]. *)
Lemma restricted_form_iff duration :
  restricted_form duration = true <-> well_formed_duration duration.
Proof.
  unfold restricted_form, re_fullmatch, duration_pattern, well_formed_duration,
    duration_of.
  assert (forall o : option captures,
             (match o with Some _ => true | None => false end) = true
             <-> o <> None) as Hopt.
  { intros [m|]; split; (discriminate || reflexivity || now intros []). }
  rewrite Hopt. cbn [bt]. split.
  - intros H.
    destruct duration as [|p [|q r]]; try (now elim H).
    + destruct (Ascii.eqb "P" p); now elim H.
    + destruct (Ascii.eqb "P" p) eqn:Ep; [|now elim H].
      destruct (Ascii.eqb "T" q) eqn:Eq; [|now elim H].
      apply Ascii.eqb_eq in Ep, Eq. subst p q.
      apply hours_form in H as (ho & mo & so & Hh & Hm & Hs & ->).
      now exists ho, mo, so.
  - intros (ho & mo & so & Hh & Hm & Hs & ->).
    cbn [append]. rewrite !Ascii.eqb_refl.
    apply hours_form. now exists ho, mo, so.
Qed.

Lemma live_rule_true ld bc :
  live_rule ld bc ->
  truthy_dict ld || in_strings bc ["live"; "upcoming"] = true.
Proof.
  intros [(kv & rest & ->) | [-> | ->]]; [reflexivity | |];
    apply orb_true_r.
Qed.

Lemma live_rule_false ld bc :
  ~ live_rule ld bc ->
  truthy_dict ld || in_strings bc ["live"; "upcoming"] = false.
Proof.
  intros H. apply not_true_is_false. intros E. apply H.
  apply orb_prop in E as [E|E].
  - left. destruct ld as [[|kv rest]|]; try discriminate. now exists kv, rest.
  - right. destruct bc as [b|]; [|discriminate]. simpl in E.
    rewrite orb_false_r in E. apply orb_prop in E as [E|E];
      apply String.eqb_eq in E; subst; auto.
Qed.

End DurationPattern.

(** ** Classification *)

Example short_45s : _determine_video_type "PT45S" None (Some "none") = "Short".
Proof. reflexivity. Qed.

Example short_60s : _determine_video_type "PT1M" None (Some "none") = "Short".
Proof. reflexivity. Qed.

Example video_61s : _determine_video_type "PT1M1S" None (Some "none") = "Video".
Proof. reflexivity. Qed.

Example video_9000s :
  _determine_video_type "PT2H30M" None (Some "none") = "Video".
Proof. reflexivity. Qed.

Example live_any :
  _determine_video_type "PT2H" (Some [("actualStartTime", "t")]) None = "Live".
Proof. reflexivity. Qed.

Example restricted_form_examples :
  map restricted_form ["PT1H2M3S"; "PT"; "PT15M"; "PT5X"; "P1DT2H"; "abc"; ""]
  = [true; true; true; false; false; false; false].
Proof. reflexivity. Qed.

(** C1, as the spec states it, fails.  A day-long upload has the duration
    [P1DT2H], which is not of the restricted form; it is not taken as zero
    seconds and, with no live indicator, it is classified [Video], not
    [Short]. *)
Lemma malformed_duration_not_short :
  restricted_form "P1DT2H" = false
  /\ _is_short_duration "P1DT2H" = false
  /\ _determine_video_type "P1DT2H" None (Some "none") = "Video"
  /\ _determine_video_type "P1DT2H" None (Some "none") <> "Short".
Proof. repeat split; try reflexivity. discriminate. Qed.

(** Digits that no unit letter follows are read as nothing. *)
Lemma read_seconds_no_letter digits c tail :
  is_number digits = true ->
  PyStr.is_digit c = false ->
  Ascii.eqb "H" c = false -> Ascii.eqb "M" c = false ->
  Ascii.eqb "S" c = false ->
  read_seconds (digits ++ String c tail) = 0%Z.
Proof.
  intros Hd Hc HH HM HS. unfold read_seconds, read_value.
  now rewrite !(read_unit_other _ c digits tail) by assumption.
Qed.

Lemma read_seconds_digits digits :
  is_number digits = true -> read_seconds digits = 0%Z.
Proof.
  intros Hd. apply is_number_inv in Hd as [_ Hdrop].
  assert (forall u, read_unit u digits = None) as Hnone.
  { intros u. unfold read_unit. rewrite Hdrop.
    now destruct (take_digits digits). }
  unfold read_seconds, read_value. now rewrite !Hnone.
Qed.

(** C1, amended.  With no live indicator: a duration that does not begin
    with [PT] is not matched at all, [_is_short_duration] answers [False]
    and the video is a [Video].  A duration that begins with [PT] is
    always matched, and it is judged on the units that can be read after
    [PT]: the video is a [Short] when they add up to at most 60 seconds
    and a [Video] otherwise.  Nothing is read, so that the total is zero
    seconds and the video is a [Short], when what follows [PT] does not
    begin with a digit, and when it is a run of digits that is followed
    by something other than a unit letter, or by nothing. *)
Theorem unmatched_duration_classification
  (live_details : option Dict) (broadcast_content : option string) :
  ~ live_rule live_details broadcast_content ->
  (forall duration,
      PyStr.startswith duration "PT" = false ->
      _is_short_duration duration = false
      /\ _determine_video_type duration live_details broadcast_content
         = "Video")
  /\ (forall rest,
      _is_short_duration ("PT" ++ rest) = (read_seconds rest <=? 60)%Z
      /\ _determine_video_type ("PT" ++ rest) live_details broadcast_content
         = if (read_seconds rest <=? 60)%Z then "Short" else "Video")
  /\ (forall rest,
      take_digits rest = "" ->
      read_seconds rest = 0%Z
      /\ _determine_video_type ("PT" ++ rest) live_details broadcast_content
         = "Short")
  /\ (forall digits c tail,
      is_number digits = true ->
      PyStr.is_digit c = false ->
      Ascii.eqb "H" c = false -> Ascii.eqb "M" c = false ->
      Ascii.eqb "S" c = false ->
      read_seconds (digits ++ String c tail) = 0%Z
      /\ _determine_video_type ("PT" ++ digits ++ String c tail) live_details
           broadcast_content
         = "Short")
  /\ (forall digits,
      is_number digits = true ->
      read_seconds digits = 0%Z
      /\ _determine_video_type ("PT" ++ digits) live_details
           broadcast_content
         = "Short").
Proof.
  intros Hlive. apply live_rule_false in Hlive.
  unfold _determine_video_type. rewrite Hlive.
  split; [|split; [|split; [|split]]].
  - intros duration Hd. apply is_short_not_PT in Hd. now rewrite Hd.
  - intros rest. rewrite is_short_PT. split; [reflexivity|].
    now destruct (read_seconds rest <=? 60)%Z.
  - intros rest Hrest.
    assert (read_seconds rest = 0%Z) as Hz.
    { unfold read_seconds, read_value, read_unit. now rewrite !Hrest. }
    rewrite is_short_PT, Hz. now split.
  - intros digits c tail Hd Hc HH HM HS.
    rewrite is_short_PT, (read_seconds_no_letter _ _ _ Hd Hc HH HM HS).
    now split.
  - intros digits Hd. rewrite is_short_PT, (read_seconds_digits _ Hd).
    now split.
Qed.

Lemma unmatched_duration_classification_witness :
  _determine_video_type "P1DT2H" None (Some "none") = "Video"
  /\ _determine_video_type "PT45S" None (Some "none") = "Short"
  /\ _determine_video_type "PT1H5X" None (Some "none") = "Video"
  /\ _determine_video_type "PT-5S" None (Some "none") = "Short"
  /\ _determine_video_type "PT5X" None (Some "none") = "Short"
  /\ _determine_video_type "PT1.5S" None (Some "none") = "Short"
  /\ _determine_video_type "PT90" None (Some "none") = "Short".
Proof.
  assert (~ live_rule None (Some "none")) as H.
  { intros [(kv & rest & E) | [E | E]]; discriminate. }
  destruct (unmatched_duration_classification None (Some "none") H)
    as (A & B & C & D & E).
  split; [|split; [|split; [|split; [|split; [|split]]]]].
  - apply (A "P1DT2H"). reflexivity.
  - apply (B "45S").
  - apply (B "1H5X").
  - apply (C "-5S"). reflexivity.
  - apply (D "5" "X"%char ""); reflexivity.
  - apply (D "1" "."%char "5S"); reflexivity.
  - apply (E "90"). reflexivity.
Defined.

(** C2, as the spec states it, fails.  Live-streaming details that are
    present but empty do not make a video [Live]: [if live_details]
    tests the truth value, and an empty object is falsy, as [None] is.
    The video is classified on its duration. *)
Lemma present_but_empty_details_are_not_live :
  _determine_video_type "PT2H" (Some []) (Some "none") = "Video"
  /\ _determine_video_type "PT30S" (Some []) None = "Short"
  /\ _determine_video_type "PT2H" (Some []) (Some "none") <> "Live".
Proof. repeat split; try reflexivity. discriminate. Qed.

(** C2, amended.  The policy is ordered and the first match wins.  When
    live-streaming details are present and not empty (which is what
    [if live_details] tests) or the broadcast-content status is [live] or
    [upcoming], the type is [Live] whatever the duration.  Otherwise,
    which includes details that are absent or empty, for a duration
    [PT[nH][nM][nS]] with total [hours * 3600 + minutes * 60 + seconds],
    absent units counting zero, the type is [Short] when the total is at
    most 60 and [Video] when it is more. *)
Theorem determine_video_type_policy :
  (forall duration live_details broadcast_content,
      live_rule live_details broadcast_content ->
      _determine_video_type duration live_details broadcast_content = "Live")
  /\ (forall h m s live_details broadcast_content,
      number_opt h = true -> number_opt m = true -> number_opt s = true ->
      ~ live_rule live_details broadcast_content ->
      _determine_video_type (duration_of h m s) live_details broadcast_content
      = if (seconds_of h m s <=? 60)%Z then "Short" else "Video").
Proof.
  split.
  - intros duration ld bc H. unfold _determine_video_type.
    now rewrite (live_rule_true _ _ H).
  - intros h m s ld bc Hh Hm Hs H. unfold _determine_video_type, duration_of.
    rewrite (live_rule_false _ _ H), is_short_PT, read_seconds_of by assumption.
    now destruct (seconds_of h m s <=? 60)%Z.
Qed.

Lemma determine_video_type_policy_witness :
  _determine_video_type "PT10S" (Some [("actualStartTime", "2024")]) None
  = "Live"
  /\ _determine_video_type "PT3H" None (Some "upcoming") = "Live"
  /\ _determine_video_type "PT1M" None (Some "none") = "Short"
  /\ _determine_video_type "PT1M1S" None None = "Video".
Proof.
  destruct determine_video_type_policy as [A B].
  assert (forall bc, bc <> Some "live" -> bc <> Some "upcoming" ->
                     ~ live_rule None bc) as H.
  { intros bc H1 H2 [(kv & rest & E) | [E | E]]; [discriminate | auto | auto]. }
  split; [|split; [|split]].
  - apply A. left. now exists ("actualStartTime", "2024"), [].
  - apply A. right. now right.
  - apply (B None (Some "1") None None (Some "none")); try reflexivity.
    apply H; discriminate.
  - apply (B None (Some "1") (Some "1") None None); try reflexivity.
    apply H; discriminate.
Defined.

(** ** Splitting strings *)

Section Split.

Lemma split_go_skip sep s : forall k,
  PyStr.split_go sep k s = PyStr.split_go sep 0 (PyStr.drop k s).
Proof.
  induction s as [|c s IH]; intros [|k]; try reflexivity.
  cbn [PyStr.split_go PyStr.drop]. apply IH.
Qed.

Lemma split_go_cons sep s : exists p ps, PyStr.split_go sep 0 s = p :: ps.
Proof.
  induction s as [|c s (p & ps & IH)]; [now exists "", []|].
  cbn [PyStr.split_go]. destruct (PyStr.startswith (String c s) sep).
  - now eexists _, _.
  - rewrite IH. now eexists _, _.
Qed.

(** The first piece of a split ends where the first occurrence of the
    separator starts; the other pieces are the split of what follows. *)
Lemma split_after_first a sep' s r :
  after_first (String a sep') s = Some r ->
  exists pre,
    PyStr.split_go (String a sep') 0 s
    = pre :: PyStr.split_go (String a sep') 0 r.
Proof.
  set (sep := String a sep').
  induction s as [|c s IH]; [discriminate|].
  cbn [after_first PyStr.split_go].
  destruct (PyStr.startswith (String c s) sep) eqn:E.
  - intros [= <-]. exists "". f_equal.
    rewrite split_go_skip. subst sep. cbn [String.length PyStr.drop].
    now replace (S (String.length sep') - 1) with (String.length sep') by lia.
  - intros H. destruct (IH H) as (pre & ->). now exists (String c pre).
Qed.

Lemma contains_after_first sep s :
  PyStr.contains sep s = true -> exists r, after_first sep s = Some r.
Proof.
  induction s as [|c s IH]; cbn [PyStr.contains after_first].
  - rewrite orb_false_r. intros ->. now eexists.
  - destruct (PyStr.startswith (String c s) sep); [now eexists | apply IH].
Qed.

Lemma split_slash_head s :
  exists ps, PyStr.split_go "/" 0 s = before_slash s :: ps.
Proof.
  induction s as [|c s (ps & IH)]; [now exists []|].
  cbn [PyStr.split_go PyStr.startswith before_slash].
  rewrite andb_true_r, (Ascii.eqb_sym "/" c).
  destruct (Ascii.eqb c "/"); [now eexists|].
  rewrite IH. now eexists.
Qed.

Lemma split_head_before_slash sep' s :
  exists p ps,
    PyStr.split_go (String "/" sep') 0 s = p :: ps
    /\ before_slash p = before_slash s.
Proof.
  induction s as [|c s (p & ps & IH & Hp)]; [now exists "", []|].
  cbn [PyStr.split_go].
  destruct (PyStr.startswith (String c s) (String "/" sep')) eqn:E.
  - eexists "", _. split; [reflexivity|].
    cbn [PyStr.startswith] in E. apply andb_prop in E as [E _].
    apply Ascii.eqb_eq in E. now subst c.
  - rewrite IH. exists (String c p), ps. split; [reflexivity|].
    cbn [before_slash]. now rewrite Hp.
Qed.

Lemma startswith_app p : forall a b,
  String.length p <= String.length a ->
  PyStr.startswith (a ++ b) p = PyStr.startswith a p.
Proof.
  induction p as [|c p IH]; intros a b Hlen; [reflexivity|].
  destruct a as [|x a]; cbn [String.length] in Hlen; [lia|].
  cbn [append PyStr.startswith]. rewrite IH by lia. reflexivity.
Qed.

Lemma startswith_refl_app p b : PyStr.startswith (p ++ b) p = true.
Proof.
  induction p as [|c p IH]; [reflexivity|].
  cbn [append PyStr.startswith]. now rewrite Ascii.eqb_refl, IH.
Qed.

Lemma drop_length_app p b : PyStr.drop (String.length p) (p ++ b) = b.
Proof. induction p as [|c p IH]; [now destruct b | exact IH]. Qed.

Lemma string_app_assoc (a b c : string) : (a ++ b) ++ c = a ++ b ++ c.
Proof. induction a as [|x a IH]; cbn [append]; [reflexivity | now rewrite IH]. Qed.

Lemma length_drop_last s :
  String.length (PyStr.drop_last s) = String.length s - 1.
Proof.
  induction s as [|x s IH]; [reflexivity|].
  destruct s as [|y s']; [reflexivity|].
  cbn [PyStr.drop_last String.length] in *. lia.
Qed.

Lemma drop_last_then_last s :
  s = PyStr.drop_last s ++ PyStr.drop (String.length s - 1) s.
Proof.
  induction s as [|x s IH]; [reflexivity|].
  destruct s as [|y s']; [reflexivity|].
  cbn [PyStr.drop_last append]. f_equal.
  cbn [String.length PyStr.drop Nat.sub] in *.
  rewrite Nat.sub_0_r in *. exact IH.
Qed.

(** The text after the first occurrence, on a string cut at that
    occurrence: [sep] does not occur in [pre] followed by all but the
    last character of [sep]. *)
Lemma after_first_app sep pre tail :
  PyStr.contains sep (pre ++ PyStr.drop_last sep) = false ->
  sep <> "" ->
  after_first sep (pre ++ sep ++ tail) = Some tail.
Proof.
  intros Hfirst Hsep. induction pre as [|c pre IH].
  - cbn [append].
    assert (forall s, after_first sep s
                      = if PyStr.startswith s sep
                        then Some (PyStr.drop (String.length sep) s)
                        else match s with
                             | "" => None
                             | String _ s' => after_first sep s'
                             end) as Hunfold by (now intros []).
    now rewrite Hunfold, startswith_refl_app, drop_length_app.
  - cbn [append PyStr.contains] in Hfirst.
    apply orb_false_elim in Hfirst as [Hhere Hlater].
    cbn [append after_first].
    assert (PyStr.startswith (String c (pre ++ sep ++ tail)) sep = false)
      as ->; [|now apply IH].
    rewrite <- Hhere.
    rewrite (drop_last_then_last sep) at 1.
    rewrite string_app_assoc, <- (string_app_assoc pre).
    change (String c ((pre ++ PyStr.drop_last sep) ++ ?x))
      with (String c (pre ++ PyStr.drop_last sep) ++ x).
    apply startswith_app.
    cbn [String.length]. rewrite string_length_app, length_drop_last.
    destruct sep; [contradiction | cbn [String.length]; lia].
Qed.

Lemma before_slash_app seg tail :
  PyStr.contains "/" seg = false ->
  tail = "" \/ PyStr.startswith tail "/" = true ->
  before_slash (seg ++ tail) = seg.
Proof.
  intros Hseg Htail. induction seg as [|c seg IH].
  - destruct Htail as [->|Htail]; [reflexivity|].
    destruct tail as [|x tail]; [reflexivity|].
    cbn [PyStr.startswith] in Htail. apply andb_prop in Htail as [Hx _].
    apply Ascii.eqb_eq in Hx. subst x. reflexivity.
  - cbn [PyStr.contains PyStr.startswith] in Hseg.
    apply orb_false_elim in Hseg as [Hc Hseg].
    rewrite andb_true_r, Ascii.eqb_sym in Hc.
    cbn [append before_slash]. rewrite Hc. now rewrite IH.
Qed.

(** The segment, on a channel URL taken apart: what stands between the
    first [/channel/] and the next [/]. *)
Lemma channel_segment_of_url pre segment tail :
  PyStr.contains "/channel/" (pre ++ "/channel") = false ->
  PyStr.contains "/" segment = false ->
  tail = "" \/ PyStr.startswith tail "/" = true ->
  channel_segment (pre ++ "/channel/" ++ segment ++ tail) = Some segment.
Proof.
  intros Hfirst Hseg Htail. unfold channel_segment.
  rewrite after_first_app; [|exact Hfirst|discriminate].
  cbn [option_map]. now rewrite before_slash_app.
Qed.

End Split.

(** ** Identifier resolver *)

Example channel_segment_plain :
  channel_segment "https://www.youtube.com/channel/UC123" = Some "UC123".
Proof. reflexivity. Qed.

Example channel_segment_path :
  channel_segment "https://www.youtube.com/channel/UCabc/videos/channel/x"
  = Some "UCabc".
Proof. reflexivity. Qed.

(** C5, as the spec states it, fails: the [/channel/] rule is tried only
    on a string that contains [youtube.com].  Without it the whole string
    is looked up as a username, which is a network call, and the segment
    is not returned. *)
Lemma channel_path_without_host_is_looked_up :
  PyStr.contains "/channel/" "/channel/UC123" = true
  /\ get_channel_id no_channels "/channel/UC123" no_effects
     = (Ok None, mkWorld [ChannelsListForUsername "/channel/UC123"] []).
Proof. split; reflexivity. Qed.

Section Resolver.

Variable yt : YouTube.

(** C5, amended.  For every input that contains [youtube.com] and
    [/channel/], [get_channel_id] returns the path segment that follows
    the first [/channel/], verbatim, and sends no request and prints
    nothing: the world is left as it was. *)
Theorem get_channel_id_channel_path (identifier : string) (w : World) :
  PyStr.contains "youtube.com" identifier = true ->
  PyStr.contains "/channel/" identifier = true ->
  exists segment,
    channel_segment identifier = Some segment
    /\ get_channel_id yt identifier w = (Ok (Some segment), w).
Proof.
  intros Hhost Hpath. unfold get_channel_id, channel_segment.
  rewrite Hhost, Hpath.
  destruct (contains_after_first _ _ Hpath) as (r & Hr). rewrite Hr.
  exists (before_slash r). split; [reflexivity|].
  unfold PyStr.split.
  destruct (split_after_first _ _ _ _ Hr) as (pre & ->).
  destruct (split_head_before_slash "channel/" r) as (p & ps & -> & Hp).
  unfold bind, subscript. cbn [nth_error ret].
  destruct (split_slash_head p) as (qs & ->). cbn [nth_error ret].
  now rewrite Hp.
Qed.

End Resolver.

Lemma get_channel_id_channel_path_witness :
  channel_segment "https://www.youtube.com/channel/UC123/about"
  = Some "UC123"
  /\ get_channel_id offline "https://www.youtube.com/channel/UC123/about"
       no_effects
     = (Ok (Some "UC123"), no_effects).
Proof.
  destruct (get_channel_id_channel_path offline
              "https://www.youtube.com/channel/UC123/about" no_effects
              eq_refl eq_refl) as (segment & Hsegment & Hrun).
  assert (segment = "UC123") as Heq
      by (vm_compute in Hsegment; now injection Hsegment).
  rewrite Heq in Hrun. split; [reflexivity | exact Hrun].
Defined.

(** ** Video lister *)

Section Lister.

Variable yt : YouTube.
Variable published_after : string.

Lemma subseq_refl {A : Type} (l : list A) : subseq l l.
Proof. induction l; constructor; assumption. Qed.

Lemma subseq_nil_l {A : Type} (l : list A) : subseq [] l.
Proof. induction l; constructor; assumption. Qed.

Lemma subseq_app {A : Type} (a b c d : list A) :
  subseq a b -> subseq c d -> subseq (a ++ c)%list (b ++ d)%list.
Proof.
  intros Hab Hcd. induction Hab; simpl; try constructor; assumption.
Qed.

Lemma page_requests_of_app cs ds :
  page_requests_of (cs ++ ds)
  = (page_requests_of cs ++ page_requests_of ds)%list.
Proof. apply filter_app. Qed.

(** [get_video_details] catches whatever the request raises: it always
    returns, and it sends exactly one request. *)
Lemma get_video_details_returns video_id w :
  exists r lines,
    get_video_details yt video_id w
    = (Ok r, mkWorld (calls w ++ [VideosList video_id]) lines).
Proof.
  unfold get_video_details, try_except, bind, execute, print, ret.
  destruct (videos_list yt (List.length (calls w)) video_id) as [[|v vs]|e];
    cbn; eauto.
Qed.

(** When the request for the details raises, the exception is caught
    where it is raised: a line is printed and the empty dictionary is
    returned. *)
Lemma get_video_details_failure video_id w e :
  videos_list yt (List.length (calls w)) video_id = Failed e ->
  get_video_details yt video_id w
  = (Ok None,
     mkWorld (calls w ++ [VideosList video_id])
       (printed w ++ ["Error getting video details: " ++ e])).
Proof.
  intros H. unfold get_video_details, try_except, bind, execute, print, ret.
  now rewrite H.
Qed.

(** The classifier answers with one of the three content types. *)
Lemma determine_video_type_values duration live_details broadcast_content :
  In (_determine_video_type duration live_details broadcast_content)
    ["Video"; "Short"; "Live"].
Proof.
  unfold _determine_video_type.
  destruct (truthy_dict live_details || in_strings broadcast_content _);
    [cbn; auto|].
  destruct (_is_short_duration duration); cbn; auto.
Qed.

Lemma get_video_details_type video_id w d w' :
  get_video_details yt video_id w = (Ok (Some d), w') ->
  valid_type (video_of video_id d).
Proof.
  unfold get_video_details, try_except, bind, execute, print, ret.
  destruct (videos_list yt (List.length (calls w)) video_id) as [[|v vs]|e];
    cbn; try discriminate.
  intros [= <- _]. unfold valid_type. cbn [video_of type d_type].
  destruct (determine_video_type_values (contentDetails_duration v)
              (liveStreamingDetails v) (snippet_liveBroadcastContent v))
    as [<-|[<-|[<-|[]]]]; auto.
Qed.

(** One entry: nothing is raised, no page is requested, and at most the
    entry itself is appended, with a known type, and only if it is not
    older than the cutoff. *)
Lemma collect_item_spec item videos w :
  exists new w',
    collect_item yt published_after item (videos, w)
    = (Ok tt, ((videos ++ new)%list, w'))
    /\ page_requests_of (calls w') = page_requests_of (calls w)
    /\ subseq (map video_id new) (in_window_ids published_after [item])
    /\ Forall valid_type new.
Proof.
  unfold collect_item, in_window_ids, in_window. cbn [filter].
  destruct (PyStr.ltb (item_publishedAt item) published_after).
  - exists [], w. rewrite app_nil_r. repeat split; constructor.
  - destruct (get_video_details_returns (item_videoId item) w)
      as (r & lines & Hd).
    unfold bind, in_world. rewrite Hd.
    assert (page_requests_of (calls w ++ [VideosList (item_videoId item)])
            = page_requests_of (calls w)) as Hreq.
    { rewrite page_requests_of_app. cbn. apply app_nil_r. }
    destruct r as [d|].
    + exists [video_of (item_videoId item) d]. eexists.
      split; [reflexivity|]. split; [exact Hreq|]. split.
      * cbn. apply subseq_refl.
      * constructor; [|constructor].
        eapply get_video_details_type. exact Hd.
    + exists []. eexists. rewrite app_nil_r.
      split; [reflexivity|]. split; [exact Hreq|]. split; [|constructor].
      cbn. apply subseq_nil_l.
Qed.

Lemma in_window_ids_cons item items :
  in_window_ids published_after (item :: items)
  = (in_window_ids published_after [item]
     ++ in_window_ids published_after items)%list.
Proof.
  unfold in_window_ids. cbn [filter].
  now destruct (in_window published_after item).
Qed.

Lemma in_window_ids_app items items' :
  in_window_ids published_after (items ++ items')
  = (in_window_ids published_after items
     ++ in_window_ids published_after items')%list.
Proof. unfold in_window_ids. now rewrite filter_app, map_app. Qed.

(** The [for] loop over a page. *)
Lemma for_each_collect items : forall videos w,
  exists new w',
    for_each items (collect_item yt published_after) (videos, w)
    = (Ok tt, ((videos ++ new)%list, w'))
    /\ page_requests_of (calls w') = page_requests_of (calls w)
    /\ subseq (map video_id new) (in_window_ids published_after items)
    /\ Forall valid_type new.
Proof.
  induction items as [|item items IH]; intros videos w.
  - exists [], w. rewrite app_nil_r. repeat split; constructor.
  - destruct (collect_item_spec item videos w)
      as (n1 & w1 & H1 & R1 & S1 & V1).
    destruct (IH (videos ++ n1)%list w1) as (n2 & w2 & H2 & R2 & S2 & V2).
    exists (n1 ++ n2)%list, w2. cbn [for_each]. unfold bind at 1.
    rewrite H1, H2, app_assoc. split; [reflexivity|].
    split; [congruence|]. split.
    + rewrite in_window_ids_cons, map_app. now apply subseq_app.
    + apply Forall_app. now split.
Qed.

(** The [while] loop on a playlist that is served in [pages]: every page
    is requested, whatever the dates of its entries, and the loop ends
    after the page that has no continuation token. *)
Lemma page_loop_serves playlist pages : forall fuel token videos w,
  serves yt playlist token pages ->
  List.length pages <= fuel ->
  exists new w',
    page_loop fuel yt published_after playlist token (videos, w)
    = (Ok tt, ((videos ++ new)%list, w'))
    /\ page_requests_of (calls w')
       = (page_requests_of (calls w)
          ++ page_requests playlist token pages)%list
    /\ subseq (map video_id new)
         (in_window_ids published_after (flat_map page_items pages)).
Proof.
  induction pages as [|p rest IH]; intros fuel token videos w Hs Hf;
    [contradiction|].
  destruct fuel as [|fuel]; [simpl in Hf; lia|].
  destruct Hs as [Hp Hrest].
  cbn [page_loop]. unfold bind at 1. unfold in_world at 1, execute.
  rewrite Hp. cbn [calls printed].
  set (w1 := mkWorld _ _).
  destruct (for_each_collect (page_items p) videos w1)
    as (n1 & w2 & H1 & R1 & S1 & _).
  unfold bind at 1. rewrite H1.
  assert (page_requests_of (calls w2)
          = (page_requests_of (calls w)
             ++ [PlaylistItemsList playlist 50 token])%list) as Rq.
  { rewrite R1. unfold w1. cbn [calls]. now rewrite page_requests_of_app. }
  destruct rest as [|p' rest'].
  - rewrite Hrest. cbn [negb]. exists n1, w2.
    split; [reflexivity|]. split; [exact Rq|].
    cbn [flat_map]. now rewrite app_nil_r.
  - destruct Hrest as [Ht Hrest]. rewrite Ht. cbn [negb].
    destruct (IH fuel (nextPageToken p) (videos ++ n1)%list w2 Hrest)
      as (n2 & w3 & H2 & R2 & S2); [simpl in Hf |- *; lia|].
    exists (n1 ++ n2)%list, w3. rewrite H2, app_assoc.
    split; [reflexivity|]. split.
    + rewrite R2, Rq, <- app_assoc. reflexivity.
    + change (flat_map page_items (p :: p' :: rest'))
        with (page_items p ++ flat_map page_items (p' :: rest'))%list.
      rewrite in_window_ids_app, map_app. now apply subseq_app.
Qed.

(** A request for a page that raises ends the loop at once; the list of
    videos is as it was before the request. *)
Lemma page_loop_page_failure fuel playlist token videos w e :
  playlistItems_list yt (List.length (calls w)) playlist 50 token = Failed e ->
  page_loop (S fuel) yt published_after playlist token (videos, w)
  = (Raise e,
     (videos,
      mkWorld (calls w ++ [PlaylistItemsList playlist 50 token])
        (printed w))).
Proof.
  intros H. cbn [page_loop]. unfold bind, in_world, execute. now rewrite H.
Qed.

(** A page with a continuation token: its entries are collected and the
    loop goes on with the request for the next page. *)
Lemma page_loop_next_page fuel playlist token videos w p :
  playlistItems_list yt (List.length (calls w)) playlist 50 token = Got p ->
  truthy_token (nextPageToken p) = true ->
  exists new w',
    page_loop (S fuel) yt published_after playlist token (videos, w)
    = page_loop fuel yt published_after playlist (nextPageToken p)
        ((videos ++ new)%list, w')
    /\ subseq (map video_id new)
         (in_window_ids published_after (page_items p)).
Proof.
  intros Hp Ht. cbn [page_loop]. unfold bind at 1.
  unfold in_world at 1, execute. rewrite Hp.
  destruct (for_each_collect (page_items p) videos
              (mkWorld (calls w ++ [PlaylistItemsList playlist 50 token])
                 (printed w)))
    as (new & w' & H1 & _ & S1 & _).
  unfold bind at 1. rewrite H1, Ht. cbn [negb]. now exists new, w'.
Qed.

(** However the loop ends, the videos in the list have a known type. *)
Lemma page_loop_valid fuel playlist : forall token videos w,
  Forall valid_type videos ->
  Forall valid_type
    (fst (snd (page_loop fuel yt published_after playlist token
                 (videos, w)))).
Proof.
  induction fuel as [|fuel IH]; intros token videos w Hv; [exact Hv|].
  cbn [page_loop]. unfold bind at 1. unfold in_world at 1, execute.
  destruct (playlistItems_list yt (List.length (calls w)) playlist 50 token)
    as [p|e]; [|exact Hv].
  destruct (for_each_collect (page_items p) videos
              (mkWorld (calls w ++ [PlaylistItemsList playlist 50 token])
                 (printed w)))
    as (new & w' & H1 & _ & _ & V1).
  unfold bind at 1. rewrite H1.
  assert (Forall valid_type (videos ++ new)) as Hv'
      by (apply Forall_app; now split).
  destruct (negb (truthy_token (nextPageToken p))); [exact Hv'|].
  now apply IH.
Qed.

Lemma collect_videos_valid fuel channel_id w videos w' :
  collect_videos fuel yt published_after channel_id w = (Ok videos, w') ->
  Forall valid_type videos.
Proof.
  unfold collect_videos, try_except. unfold bind at 1.
  unfold in_world at 1, execute at 1.
  destruct (channels_list_id yt (List.length (calls w)) channel_id)
    as [[|playlist others]|e].
  - cbn. intros [= <- _]. constructor.
  - pose proof (page_loop_valid fuel playlist None []
                  (mkWorld (calls w ++ [ChannelsListId channel_id])
                     (printed w)) (Forall_nil _)) as Hv.
    destruct (page_loop fuel yt published_after playlist None _)
      as [[[]|e|] [vs w1]]; cbn [fst snd] in Hv.
    + intros [= <- _]. exact Hv.
    + unfold in_world, print. intros [= <- _]. exact Hv.
    + discriminate.
  - cbn. intros [= <- _]. constructor.
Qed.

(** What a failed request makes of the listing, for a given cutoff. *)
Lemma collect_item_details_failure item videos w1 e :
  videos_list yt (List.length (calls w1)) (item_videoId item) = Failed e ->
  collect_item yt published_after item (videos, w1)
  = (Ok tt,
     (videos,
      if PyStr.ltb (item_publishedAt item) published_after then w1
      else mkWorld (calls w1 ++ [VideosList (item_videoId item)])
             (printed w1 ++ ["Error getting video details: " ++ e]))).
Proof.
  intros H. unfold collect_item.
  destruct (PyStr.ltb (item_publishedAt item) published_after);
    [reflexivity|].
  unfold bind, in_world. now rewrite (get_video_details_failure _ _ _ H).
Qed.

Lemma collect_videos_lookup_failure fuel channel_id w e :
  channels_list_id yt (List.length (calls w)) channel_id = Failed e ->
  collect_videos fuel yt published_after channel_id w
  = (Ok [],
     mkWorld (calls w ++ [ChannelsListId channel_id])
       (printed w ++ ["Error fetching channel videos: " ++ e])).
Proof.
  intros H.
  unfold collect_videos, try_except, bind, in_world, execute, print.
  now rewrite H.
Qed.

Lemma collect_videos_page_failure fuel channel_id w playlist others fuel'
  token videos w1 e :
  channels_list_id yt (List.length (calls w)) channel_id
  = Got (playlist :: others) ->
  page_loop fuel yt published_after playlist None
    ([], mkWorld (calls w ++ [ChannelsListId channel_id]) (printed w))
  = page_loop (S fuel') yt published_after playlist token (videos, w1) ->
  playlistItems_list yt (List.length (calls w1)) playlist 50 token
  = Failed e ->
  collect_videos fuel yt published_after channel_id w
  = (Ok videos,
     mkWorld (calls w1 ++ [PlaylistItemsList playlist 50 token])
       (printed w1 ++ ["Error fetching channel videos: " ++ e])).
Proof.
  intros Hc Hreach Hp.
  unfold collect_videos, try_except. unfold bind at 1.
  unfold in_world at 1, execute at 1. rewrite Hc, Hreach.
  rewrite (page_loop_page_failure _ _ _ _ _ e) by exact Hp.
  reflexivity.
Qed.

Lemma collect_videos_paging fuel channel_id w playlist others pages :
  channels_list_id yt (List.length (calls w)) channel_id
  = Got (playlist :: others) ->
  serves yt playlist None pages ->
  List.length pages <= fuel ->
  exists videos w',
    collect_videos fuel yt published_after channel_id w = (Ok videos, w')
    /\ page_requests_of (calls w')
       = (page_requests_of (calls w)
          ++ page_requests playlist None pages)%list
    /\ subseq (map video_id videos)
         (in_window_ids published_after (flat_map page_items pages)).
Proof.
  intros Hc Hs Hf.
  unfold collect_videos, try_except. unfold bind at 1.
  unfold in_world at 1, execute at 1. rewrite Hc.
  set (w0 := mkWorld _ _).
  destruct (page_loop_serves playlist pages fuel None [] w0 Hs Hf)
    as (new & w' & Hrun & Hreq & Hsub).
  rewrite Hrun. exists new, w'. split; [reflexivity|]. split; [|exact Hsub].
  rewrite Hreq. unfold w0. cbn [calls].
  rewrite page_requests_of_app. cbn. now rewrite app_nil_r.
Qed.

End Lister.

(** *** The listing for a period of [days] *)

(** Once the cutoff is computed, [get_channel_videos] is the listing for
    that cutoff; when the computation raises, it raises with nothing
    done. *)
Lemma get_channel_videos_cutoff fuel yt clock channel_id days cutoff w :
  days_ago_isoformat clock days = Got cutoff ->
  get_channel_videos fuel yt clock channel_id days w
  = collect_videos fuel yt (cutoff ++ "Z") channel_id w.
Proof.
  intros H. unfold get_channel_videos, bind, utc_days_ago. now rewrite H.
Qed.

Lemma get_channel_videos_overflow fuel yt clock channel_id days e w :
  days_ago_isoformat clock days = Failed e ->
  get_channel_videos fuel yt clock channel_id days w = (Raise e, w).
Proof.
  intros H. unfold get_channel_videos, bind, utc_days_ago. now rewrite H.
Qed.

Lemma get_channel_videos_valid fuel yt clock channel_id days w videos w' :
  get_channel_videos fuel yt clock channel_id days w = (Ok videos, w') ->
  Forall valid_type videos.
Proof.
  destruct (days_ago_isoformat clock days) as [cutoff|e] eqn:H.
  - rewrite (get_channel_videos_cutoff _ _ _ _ _ _ _ H).
    apply collect_videos_valid.
  - rewrite (get_channel_videos_overflow _ _ _ _ _ _ _ H). discriminate.
Qed.

(** C3, amended.  For a period whose cutoff can be computed: a failure
    of the channel lookup or of the request for the first page gives the
    empty list.  A failure of the request for a later page ends the
    listing with the videos collected before it: if the loop has come to
    the point of requesting [token] with [videos] collected and that
    request raises, [videos] is returned.  A failure of a request for
    the details of a video is caught inside [get_video_details]: the
    entry is left out and the listing goes on.  In each case a line is
    printed, the line of the request that failed, and nothing is raised
    to the caller. *)
Theorem get_channel_videos_failures (yt : YouTube) (clock : Clock)
  (days : Z) (cutoff : string) (fuel : nat) (channel_id : string)
  (w : World) :
  days_ago_isoformat clock days = Got cutoff ->
  (forall e,
      channels_list_id yt (List.length (calls w)) channel_id = Failed e ->
      get_channel_videos fuel yt clock channel_id days w
      = (Ok [],
         mkWorld (calls w ++ [ChannelsListId channel_id])
           (printed w ++ ["Error fetching channel videos: " ++ e])))
  /\ (forall playlist others e,
      channels_list_id yt (List.length (calls w)) channel_id
      = Got (playlist :: others) ->
      playlistItems_list yt (S (List.length (calls w))) playlist 50 None
      = Failed e ->
      get_channel_videos (S fuel) yt clock channel_id days w
      = (Ok [],
         mkWorld (calls w ++ [ChannelsListId channel_id;
                              PlaylistItemsList playlist 50 None])
           (printed w ++ ["Error fetching channel videos: " ++ e])))
  /\ (forall playlist others fuel' token videos w1 e,
      channels_list_id yt (List.length (calls w)) channel_id
      = Got (playlist :: others) ->
      page_loop fuel yt (cutoff ++ "Z") playlist None
        ([], mkWorld (calls w ++ [ChannelsListId channel_id]) (printed w))
      = page_loop (S fuel') yt (cutoff ++ "Z") playlist token (videos, w1) ->
      playlistItems_list yt (List.length (calls w1)) playlist 50 token
      = Failed e ->
      get_channel_videos fuel yt clock channel_id days w
      = (Ok videos,
         mkWorld (calls w1 ++ [PlaylistItemsList playlist 50 token])
           (printed w1 ++ ["Error fetching channel videos: " ++ e])))
  /\ (forall item videos w1 e,
      videos_list yt (List.length (calls w1)) (item_videoId item)
      = Failed e ->
      collect_item yt (cutoff ++ "Z") item (videos, w1)
      = (Ok tt,
         (videos,
          if PyStr.ltb (item_publishedAt item) (cutoff ++ "Z") then w1
          else mkWorld (calls w1 ++ [VideosList (item_videoId item)])
                 (printed w1 ++ ["Error getting video details: " ++ e])))).
Proof.
  intros Hcutoff. split; [|split; [|split]].
  - intros e H. rewrite (get_channel_videos_cutoff _ _ _ _ _ _ _ Hcutoff).
    now apply collect_videos_lookup_failure.
  - intros playlist others e Hc Hp.
    rewrite (get_channel_videos_cutoff _ _ _ _ _ _ _ Hcutoff).
    rewrite (collect_videos_page_failure yt (cutoff ++ "Z") (S fuel)
               channel_id w playlist others fuel None []
               (mkWorld (calls w ++ [ChannelsListId channel_id]) (printed w))
               e Hc eq_refl).
    + cbn [calls printed]. now rewrite <- app_assoc.
    + cbn [calls]. rewrite List.length_app, Nat.add_comm. exact Hp.
  - intros playlist others fuel' token videos w1 e Hc Hreach Hp.
    rewrite (get_channel_videos_cutoff _ _ _ _ _ _ _ Hcutoff).
    eapply collect_videos_page_failure; eassumption.
  - intros item videos w1 e H. now apply collect_item_details_failure.
Qed.

(** C4, amended.  For a period whose cutoff can be computed, on a
    playlist that the service serves in [pages], the last of which is
    the only one without a continuation token, [get_channel_videos]
    returns, and the page requests it has sent are exactly one request
    of page size 50 for each page, in order: paging stops at the page
    without continuation token and nowhere else, whatever the dates of
    the entries.  The videos returned are, in order, among the entries
    that are not older than the cutoff. *)
Theorem get_channel_videos_paging (yt : YouTube) (clock : Clock) (days : Z)
  (cutoff : string) (fuel : nat) (channel_id : string) (w : World)
  (playlist : string) (others : list string) (pages : list PlaylistPage) :
  days_ago_isoformat clock days = Got cutoff ->
  channels_list_id yt (List.length (calls w)) channel_id
  = Got (playlist :: others) ->
  serves yt playlist None pages ->
  List.length pages <= fuel ->
  exists videos w',
    get_channel_videos fuel yt clock channel_id days w = (Ok videos, w')
    /\ page_requests_of (calls w')
       = (page_requests_of (calls w)
          ++ page_requests playlist None pages)%list
    /\ subseq (map video_id videos)
         (in_window_ids (cutoff ++ "Z") (flat_map page_items pages)).
Proof.
  intros Hcutoff Hc Hs Hf.
  rewrite (get_channel_videos_cutoff _ _ _ _ _ _ _ Hcutoff).
  now apply collect_videos_paging with (others := others).
Qed.


(** ** Video lister *)

Example listing_second_page_fails :
  get_channel_videos 10 second_page_fails sample_clock "UC1" 30 no_effects
  = (Ok [video_of "v1"
           (mkVideoDetails "v1" "2024-06-01T10:00:00Z" 100 10 1 "PT5M"
              "Video" "https://youtube.com/watch?v=v1")],
     mkWorld [ChannelsListId "UC1"; PlaylistItemsList "UU1" 50 None;
              VideosList "v1"; PlaylistItemsList "UU1" 50 (Some "p2")]
       ["Error fetching channel videos: quotaExceeded"]).
Proof. reflexivity. Qed.

Example listing_three_pages :
  get_channel_videos 10 three_pages sample_clock "UC1" 30 no_effects
  = (Ok [video_of "a"
           (mkVideoDetails "a" "2024-06-01T10:00:00Z" 100 10 1 "PT5M"
              "Video" "https://youtube.com/watch?v=a")],
     mkWorld [ChannelsListId "UC1"; PlaylistItemsList "UU1" 50 None;
              VideosList "a"; PlaylistItemsList "UU1" 50 (Some "p2");
              PlaylistItemsList "UU1" 50 (Some "p3")]
       []).
Proof. reflexivity. Qed.

(** C3, as the spec states it, fails.  The request for the second page
    raises after one video was collected from the first, and the video
    is returned; the request for the details of one video raises, and the
    other video of the page is returned. *)
Lemma lookup_failure_keeps_collected_videos :
  playlistItems_list second_page_fails 3 "UU1" 50 (Some "p2")
  = Failed "quotaExceeded"
  /\ fst (get_channel_videos 10 second_page_fails
            sample_clock "UC1" 30 no_effects)
     = Ok [video_of "v1"
             (mkVideoDetails "v1" "2024-06-01T10:00:00Z" 100 10 1 "PT5M"
                "Video" "https://youtube.com/watch?v=v1")]
  /\ videos_list first_details_fail 2 "v0" = Failed "backendError"
  /\ fst (get_channel_videos 10 first_details_fail
            sample_clock "UC1" 30 no_effects)
     = Ok [video_of "v1"
             (mkVideoDetails "v1" "2024-06-01T10:00:00Z" 100 10 1 "PT5M"
                "Video" "https://youtube.com/watch?v=v1")].
Proof. repeat split. Qed.

Lemma get_channel_videos_failures_witness :
  get_channel_videos 10 offline sample_clock "UC1" 30 no_effects
  = (Ok [], mkWorld [ChannelsListId "UC1"]
              ["Error fetching channel videos: offline"])
  /\ get_channel_videos 10 second_page_fails sample_clock "UC1" 30 no_effects
     = (Ok [video_of "v1"
              (mkVideoDetails "v1" "2024-06-01T10:00:00Z" 100 10 1 "PT5M"
                 "Video" "https://youtube.com/watch?v=v1")],
        mkWorld [ChannelsListId "UC1"; PlaylistItemsList "UU1" 50 None;
                 VideosList "v1"; PlaylistItemsList "UU1" 50 (Some "p2")]
          ["Error fetching channel videos: quotaExceeded"])
  /\ collect_item first_details_fail "2024-05-01T00:00:00Z"
       (mkPlaylistItem "2024-06-02T10:00:00Z" "v0") ([], no_effects)
     = (Ok tt,
        ([], mkWorld [VideosList "v0"]
               ["Error getting video details: backendError"])).
Proof.
  split; [|split].
  - destruct (get_channel_videos_failures offline sample_clock 30
                "2024-05-01T00:00:00" 10 "UC1" no_effects eq_refl)
      as (A & _).
    apply (A "offline"). reflexivity.
  - destruct (get_channel_videos_failures second_page_fails sample_clock 30
                "2024-05-01T00:00:00" 10 "UC1" no_effects eq_refl)
      as (_ & _ & C & _).
    apply (C "UU1" [] 8
             (Some "p2")
             [video_of "v1"
                (mkVideoDetails "v1" "2024-06-01T10:00:00Z" 100 10 1 "PT5M"
                   "Video" "https://youtube.com/watch?v=v1")]
             (mkWorld [ChannelsListId "UC1"; PlaylistItemsList "UU1" 50 None;
                       VideosList "v1"] [])
             "quotaExceeded"); reflexivity.
  - destruct (get_channel_videos_failures first_details_fail sample_clock 30
                "2024-05-01T00:00:00" 10 "UC1" no_effects eq_refl)
      as (_ & _ & _ & D).
    apply (D (mkPlaylistItem "2024-06-02T10:00:00Z" "v0") [] no_effects
             "backendError").
    reflexivity.
Defined.

(** C4, as the spec states it, fails.  The second entry of the first
    page is older than the cutoff, so the cutoff is passed on the first
    page; the second and the third page, whose entries are all older, are
    requested all the same. *)
Lemma paging_goes_on_past_the_cutoff :
  playlistItems_list three_pages 1 "UU1" 50 None = Got first_page
  /\ map (fun item =>
            PyStr.ltb (item_publishedAt item) "2024-05-01T00:00:00Z")
       (page_items first_page ++ page_items second_page
        ++ page_items third_page)
     = [false; true; true; true]
  /\ page_requests_of
       (calls (snd (get_channel_videos 10 three_pages
                      sample_clock "UC1" 30 no_effects)))
     = [PlaylistItemsList "UU1" 50 None;
        PlaylistItemsList "UU1" 50 (Some "p2");
        PlaylistItemsList "UU1" 50 (Some "p3")].
Proof. repeat split. Qed.

Lemma get_channel_videos_paging_witness :
  exists videos w',
    get_channel_videos 3 three_pages sample_clock "UC1" 30 no_effects
    = (Ok videos, w')
    /\ page_requests_of (calls w')
       = [PlaylistItemsList "UU1" 50 None;
          PlaylistItemsList "UU1" 50 (Some "p2");
          PlaylistItemsList "UU1" 50 (Some "p3")]
    /\ subseq (map video_id videos) ["a"].
Proof.
  apply (get_channel_videos_paging three_pages sample_clock 30
           "2024-05-01T00:00:00" 3 "UC1" no_effects "UU1" []
           [first_page; second_page; third_page]).
  - reflexivity.
  - reflexivity.
  - cbn. repeat split.
  - cbn. lia.
Defined.

(** ** Stable sorting and bounded leaderboards *)

Section StableSort.

Context {A : Type}.
Variable key : A -> Z.

Lemma Forall_insert_desc (P : A -> Prop) x l :
  P x -> Forall P l -> Forall P (insert_desc key x l).
Proof.
  intros Hx Hl. induction Hl as [|y l Hy Hl IH]; cbn [insert_desc].
  - now constructor.
  - destruct (key y <=? key x)%Z; repeat constructor; assumption.
Qed.


Lemma In_firstn_of n : forall (l : list A) y, In y (firstn n l) -> In y l.
Proof.
  induction n as [|n IH]; intros [|x l] y H; cbn in H; try contradiction.
  destruct H as [->|H]; [now left | right; now apply IH].
Qed.

Lemma StronglySorted_firstn (R : A -> A -> Prop) n : forall l,
  StronglySorted R l -> StronglySorted R (firstn n l).
Proof.
  induction n as [|n IH]; intros l Hl; [constructor|].
  destruct Hl as [|x l Hl Hx]; cbn [firstn]; constructor.
  - now apply IH.
  - apply Forall_forall. intros y Hy.
    eapply Forall_forall in Hx; [exact Hx|].
    eapply In_firstn_of; eassumption.
Qed.


(** [sorted] puts the keys in descending order. *)
Lemma insert_desc_sorted x l :
  StronglySorted (fun a b => (key a >= key b)%Z) l ->
  StronglySorted (fun a b => (key a >= key b)%Z) (insert_desc key x l).
Proof.
  induction 1 as [|y l Hl IH Hy]; cbn [insert_desc].
  - repeat constructor.
  - destruct (key y <=? key x)%Z eqn:E.
    + apply Z.leb_le in E. constructor; [now constructor|].
      constructor; [lia|].
      eapply Forall_impl; [|exact Hy]. cbn. intros; lia.
    + apply Z.leb_gt in E. constructor; [exact IH|].
      apply Forall_insert_desc; [lia | exact Hy].
Qed.

Lemma sorted_descending l :
  StronglySorted (fun a b => (key a >= key b)%Z) (sorted key l).
Proof.
  induction l as [|x l IH]; cbn; [constructor|].
  now apply insert_desc_sorted.
Qed.

End StableSort.

(** *** Stability, on elements tagged with their position *)

Section Stability.

Context {A : Type}.
Variable key : A -> Z.














End Stability.

Section Leaderboard.

Context {A : Type}.
Variable key : A -> Z.







End Leaderboard.

(** ** Aggregator *)

Section AggregatorFacts.

Context {F : PyFloat}.

Lemma lookup_update k v d t :
  lookup t (update k v d)
  = if String.eqb k t
    then match lookup k d with Some _ => Some v | None => None end
    else lookup t d.
Proof.
  induction d as [|[k0 v0] d IH]; cbn [update lookup].
  - now destruct (String.eqb k t).
  - destruct (String.eqb k0 k) eqn:E0; cbn [lookup].
    + apply String.eqb_eq in E0. subst k0.
      now destruct (String.eqb k t).
    + rewrite IH. destruct (String.eqb k t) eqn:Et; [|reflexivity].
      apply String.eqb_eq in Et. subst t. now rewrite E0.
Qed.

(** After the first loop, the statistics of a type are those of its
    videos, added in discovery order to what the dictionary held. *)
Lemma group_videos_lookup videos : forall d d',
  group_videos videos d = Ok d' ->
  forall t,
    lookup t d' = option_map (fold_left add_video (bucket t videos))
                    (lookup t d).
Proof.
  induction videos as [|video rest IH]; intros d d' H t.
  - injection H as <-. now destruct (lookup t d).
  - cbn [group_videos] in H.
    destruct (lookup (get_or (type video) "Video") d) as [stats|] eqn:Hs;
      [|discriminate].
    rewrite (IH _ _ H t), lookup_update, Hs.
    unfold bucket. cbn [filter]. unfold has_type at 2.
    destruct (String.eqb (get_or (type video) "Video") t) eqn:Et.
    + apply String.eqb_eq in Et. subst t. now rewrite Hs.
    + reflexivity.
Qed.

Lemma group_videos_returns videos : forall d,
  Forall valid_type videos ->
  (forall t, In t ["Video"; "Short"; "Live"] -> lookup t d <> None) ->
  exists d', group_videos videos d = Ok d'.
Proof.
  induction videos as [|video rest IH]; intros d Hv Hd; [now exists d|].
  apply Forall_cons_iff in Hv as [Hvideo Hrest].
  cbn [group_videos].
  assert (In (get_or (type video) "Video") ["Video"; "Short"; "Live"]) as Hin.
  { destruct Hvideo as [E|[E|[E|E]]]; rewrite E; cbn; auto. }
  destruct (lookup (get_or (type video) "Video") d) as [stats|] eqn:Hs;
    [|now apply Hd in Hin].
  apply IH; [exact Hrest|].
  intros t Ht. rewrite lookup_update, Hs.
  destruct (String.eqb _ t); [discriminate | now apply Hd].
Qed.

Lemma lookup_finish t d :
  lookup t (map (fun '(k, stats) => (k, finish_stats stats)) d)
  = option_map finish_stats (lookup t d).
Proof.
  induction d as [|[k v] d IH]; cbn [map lookup option_map]; [reflexivity|].
  now destruct (String.eqb k t).
Qed.

Lemma content_type_stats_lookup videos d :
  content_type_stats videos = Ok d ->
  forall t,
    lookup t d
    = option_map
        (fun stats =>
           finish_stats (fold_left add_video (bucket t videos) stats))
        (lookup t initial_content_type_stats).
Proof.
  unfold content_type_stats. intros H t.
  destruct (group_videos videos initial_content_type_stats) as [d0| |] eqn:Hg;
    try discriminate.
  injection H as <-.
  rewrite lookup_finish, (group_videos_lookup _ _ _ Hg t).
  now destruct (lookup t initial_content_type_stats).
Qed.

Lemma sum_of_cons field v videos :
  sum_of field (v :: videos)
  = (get_or (field v) 0 + sum_of field videos)%Z.
Proof.
  unfold sum_of. cbn [fold_left].
  assert (forall l a b,
             fold_left (fun acc x => (acc + get_or (field x) 0)%Z) l (a + b)%Z
             = (a + fold_left (fun acc x => (acc + get_or (field x) 0)%Z) l b)%Z)
    as Hshift.
  { induction l as [|x l IHl]; intros a b; cbn [fold_left]; [reflexivity|].
    now rewrite <- Z.add_assoc, IHl. }
  rewrite <- Hshift. f_equal. lia.
Qed.

(** What the first loop makes of the videos of one type. *)
Lemma fold_add_video b : forall stats,
  let stats' := fold_left add_video b stats in
  count stats' = (count stats + Z.of_nat (List.length b))%Z
  /\ total_views stats' = (total_views stats + sum_of views b)%Z
  /\ total_likes stats' = (total_likes stats + sum_of likes b)%Z
  /\ total_comments stats' = (total_comments stats + sum_of comments b)%Z
  /\ engagement_rate stats' = engagement_rate stats
  /\ top_videos stats'
     = fold_left (top_insert views_key) b (top_videos stats).
Proof.
  induction b as [|v b IH]; intros stats; cbn zeta.
  - cbn. repeat split; lia.
  - cbn [fold_left]. destruct (IH (add_video stats v))
      as (Hc & Hv & Hl & Hm & He & Ht).
    rewrite Hc, Hv, Hl, Hm, He, Ht, !sum_of_cons.
    cbn [add_video count total_views total_likes total_comments
         engagement_rate top_videos List.length].
    repeat split; lia.
Qed.

Lemma initial_lookup t stats :
  lookup t initial_content_type_stats = Some stats ->
  stats = get_empty_type_stats.
Proof.
  unfold initial_content_type_stats. cbn [lookup].
  repeat (destruct (String.eqb _ t); [now intros [= <-]|]).
  discriminate.
Qed.

Lemma finish_stats_keeps stats :
  count (finish_stats stats) = count stats
  /\ total_views (finish_stats stats) = total_views stats
  /\ total_likes (finish_stats stats) = total_likes stats
  /\ total_comments (finish_stats stats) = total_comments stats
  /\ top_videos (finish_stats stats) = top_videos stats.
Proof.
  unfold finish_stats. destruct (count stats >? 0)%Z; repeat split.
Qed.

(** The statistics of a type in the result: the videos of the type added
    to the empty statistics, then the averages and the rate. *)
Lemma bucket_of_result videos d t stats :
  content_type_stats videos = Ok d ->
  lookup t d = Some stats ->
  stats = finish_stats
            (fold_left add_video (bucket t videos) get_empty_type_stats).
Proof.
  intros Hd Hlookup.
  rewrite (content_type_stats_lookup _ _ Hd t) in Hlookup.
  destruct (lookup t initial_content_type_stats) as [stats0|] eqn:H0;
    [|discriminate].
  apply initial_lookup in H0. subst stats0. now injection Hlookup as <-.
Qed.






Lemma content_type_stats_returns videos :
  Forall valid_type videos -> exists d, content_type_stats videos = Ok d.
Proof.
  intros Hvalid.
  destruct (group_videos_returns videos initial_content_type_stats Hvalid)
    as (d0 & Hd0).
  { intros t [<-|[<-|[<-|[]]]]; discriminate. }
  unfold content_type_stats. rewrite Hd0. now eexists.
Qed.


(** *** From the aggregation to [analyze_channel] *)

(** What [analyze_channel] returns, when it returns results, is the
    aggregation of the videos it lists. *)
Lemma analyze_channel_results fuel yt clock channel_url days w results w' :
  analyze_channel fuel yt clock channel_url days w
  = (Ok (AnalysisOk results), w') ->
  content_type_stats (all_videos results)
  = Ok (content_type_analysis results)
  /\ overall_stats results = total_stats (all_videos results).
Proof.
  unfold analyze_channel. unfold bind at 1.
  destruct (get_channel_id yt channel_url w) as [[[id|]|e|] w1];
    try discriminate.
  destruct (negb (PyStr.truthy id)); [discriminate|].
  unfold bind at 1.
  destruct (get_channel_videos fuel yt clock id days w1)
    as [[videos|e|] w2]; try discriminate.
  unfold bind, lift_result, ret.
  destruct (content_type_stats videos) as [d|e|] eqn:Hd; try discriminate.
  intros [= <- <-]. cbn. split; [exact Hd | reflexivity].
Qed.

(** When the channel is found and its videos are listed,
    [analyze_channel] returns their aggregation: the videos that
    [get_channel_videos] builds all have a known type. *)
Lemma analyze_channel_returns fuel yt clock channel_url days w id w1
  videos w2 :
  get_channel_id yt channel_url w = (Ok (Some id), w1) ->
  PyStr.truthy id = true ->
  get_channel_videos fuel yt clock id days w1 = (Ok videos, w2) ->
  exists d,
    content_type_stats videos = Ok d
    /\ analyze_channel fuel yt clock channel_url days w
       = (Ok (AnalysisOk
                (mkAnalysisResults id days (utcnow_isoformat clock)
                   (total_stats videos) d videos)),
          w2).
Proof.
  intros Hid Hne Hvideos.
  pose proof (get_channel_videos_valid _ _ _ _ _ _ _ _ Hvideos) as Hvalid.
  destruct (content_type_stats_returns videos Hvalid) as (d & Hd).
  exists d. split; [exact Hd|].
  unfold analyze_channel. unfold bind at 1. rewrite Hid, Hne. cbn [negb].
  unfold bind at 1. rewrite Hvideos.
  unfold bind, lift_result, ret. now rewrite Hd.
Qed.

(** C8.  When the channel is found and the list of its videos is empty,
    [analyze_channel] returns results whose overall totals are all [0]
    and which hold the three content types [Video], [Short] and [Live],
    each with count, sums, averages and engagement rate [0] and an empty
    list of top videos. *)
Theorem analyze_channel_no_videos fuel yt clock channel_url days w id w1 w2 :
  get_channel_id yt channel_url w = (Ok (Some id), w1) ->
  PyStr.truthy id = true ->
  get_channel_videos fuel yt clock id days w1 = (Ok [], w2) ->
  analyze_channel fuel yt clock channel_url days w
  = (Ok (AnalysisOk
           (mkAnalysisResults id days (utcnow_isoformat clock)
              (mkTotalStats 0 0 0 0)
              [("Video", mkTypeStats 0 0 0 0 (Int 0) (Int 0) (Int 0) (Int 0) []);
               ("Short", mkTypeStats 0 0 0 0 (Int 0) (Int 0) (Int 0) (Int 0) []);
               ("Live", mkTypeStats 0 0 0 0 (Int 0) (Int 0) (Int 0) (Int 0) [])]
              [])),
     w2).
Proof.
  intros Hid Hne Hvideos.
  unfold analyze_channel. unfold bind at 1. rewrite Hid, Hne. cbn [negb].
  unfold bind at 1. rewrite Hvideos. reflexivity.
Qed.

End AggregatorFacts.

(** ** The aggregator on sample channels *)

Example three_uploads_counts :
  match analyze_channel (F := symbolic_floats) 10 three_uploads sample_clock
          "https://www.youtube.com/channel/UC1" 30 no_effects with
  | (Ok (AnalysisOk results), _) =>
      map (fun '(k, stats) =>
             (k, count stats, total_views stats, total_likes stats,
              total_comments stats, map video_id (top_videos stats)))
        (content_type_analysis results)
      = [("Video", 1%Z, 2000%Z, 30%Z, 0%Z, ["v9000"]);
         ("Short", 1%Z, 100%Z, 10%Z, 1%Z, ["v45"]);
         ("Live", 1%Z, 0%Z, 7%Z, 3%Z, ["vlive"])]
  | _ => False
  end.
Proof. vm_compute. reflexivity. Qed.



Lemma analyze_channel_no_videos_witness :
  analyze_channel (F := symbolic_floats) 10 no_channels sample_clock
    "https://www.youtube.com/channel/UC1" 30 no_effects
  = (Ok (AnalysisOk
           (mkAnalysisResults "UC1" 30 "2024-06-30T12:00:00"
              (mkTotalStats 0 0 0 0)
              [("Video", mkTypeStats 0 0 0 0 (Int 0) (Int 0) (Int 0) (Int 0) []);
               ("Short", mkTypeStats 0 0 0 0 (Int 0) (Int 0) (Int 0) (Int 0) []);
               ("Live", mkTypeStats 0 0 0 0 (Int 0) (Int 0) (Int 0) (Int 0) [])]
              [])),
     mkWorld [ChannelsListId "UC1"] []).
Proof.
  apply (analyze_channel_no_videos (F := symbolic_floats) 10 no_channels
           sample_clock "https://www.youtube.com/channel/UC1" 30 no_effects
           "UC1" no_effects (mkWorld [ChannelsListId "UC1"] []));
    reflexivity.
Defined.


(** ** Document lookup service *)

Example api_missing_parameter :
  Api.get_data unreachable_cluster None []
  = (Ok (mkResponse 400 (ErrorBody "channel_id parameter is required")), []).
Proof. reflexivity. Qed.

Example api_connect_fails :
  Api.get_data unreachable_cluster (Some "UC1") []
  = (Ok (mkResponse 500 (ErrorBody "NoHostAvailable")), [Connect]).
Proof. reflexivity. Qed.

Example api_query_fails :
  Api.get_data failing_query (Some "UC1") []
  = (Ok (mkResponse 500 (ErrorBody "InvalidRequest")),
     [Connect;
      SessionExecute "SELECT * FROM data WHERE channel_id = %s" ["UC1"];
      Shutdown]).
Proof. reflexivity. Qed.

Example documents_none_found :
  DbDataApi.get_data empty_collection (Some "UC1") []
  = (Ok (mkResponse 500 (ErrorBody "list index out of range")),
     [GetCollection "data"; Find "UC1"]).
Proof. reflexivity. Qed.

(** The causes of a failed lookup in [api.py]: the connection, then the
    query. *)
Lemma api_lookup_connect_raises db id log e :
  Api.connect db (List.length log) = Failed e ->
  Api.lookup db id (Api.mkState None log)
  = (Raise e, Api.mkState None (log ++ [Connect])).
Proof.
  intros H. unfold Api.lookup, bind, Api.call. cbn [Api.db_calls Api.session].
  now rewrite H.
Qed.

Lemma api_lookup_query_raises db id log e :
  Api.connect db (List.length log) = Got tt ->
  Api.session_execute db (S (List.length log))
    "SELECT * FROM data WHERE channel_id = %s" [id] = Failed e ->
  Api.lookup db id (Api.mkState None log)
  = (Raise e,
     Api.mkState (Some tt)
       (log ++ [Connect;
                SessionExecute "SELECT * FROM data WHERE channel_id = %s"
                  [id]])).
Proof.
  intros Hc Hq. unfold Api.lookup, bind, Api.call, Api.set_session.
  cbn [Api.db_calls Api.session]. rewrite Hc.
  cbn [Api.db_calls Api.session].
  rewrite List.length_app, Nat.add_comm. cbn [List.length Nat.add].
  cbn [append]. rewrite Hq. now rewrite <- app_assoc.
Qed.

(** The causes of a failed lookup in [DB_data_api.py]: the query, or a
    result without a first document. *)
Lemma documents_lookup_find_raises db id log e :
  DbDataApi.collection db (List.length log) "data" = Got tt ->
  DbDataApi.find db (S (List.length log)) id = Failed e ->
  DbDataApi.lookup db id log
  = (Raise e, (log ++ [GetCollection "data"; Find id])%list).
Proof.
  intros Hc Hf. unfold DbDataApi.lookup, bind, DbDataApi.call.
  rewrite Hc, List.length_app, Nat.add_comm. cbn [List.length Nat.add].
  rewrite Hf. now rewrite <- app_assoc.
Qed.

(** C9.  In both variants, a request without the [channel_id] parameter
    is answered with status 400 and an error body, and no call is made on
    the database; and whenever the lookup of a given [channel_id] raises
    an exception with message [e], the answer is status 500 with the body
    [{"error": e}]. *)
Theorem get_data_error_responses :
  (forall db log,
      Api.get_data db None log
      = (Ok (mkResponse 400 (ErrorBody "channel_id parameter is required")),
         log))
  /\ (forall db log,
      DbDataApi.get_data db None log
      = (Ok (mkResponse 400 (ErrorBody "channel_id parameter is required")),
         log))
  /\ (forall db id log e s,
      PyStr.truthy id = true ->
      Api.lookup db id (Api.mkState None log) = (Raise e, s) ->
      exists log',
        Api.get_data db (Some id) log
        = (Ok (mkResponse 500 (ErrorBody e)), log'))
  /\ (forall db id log e log',
      PyStr.truthy id = true ->
      DbDataApi.lookup db id log = (Raise e, log') ->
      DbDataApi.get_data db (Some id) log
      = (Ok (mkResponse 500 (ErrorBody e)), log')).
Proof.
  split; [|split; [|split]].
  - reflexivity.
  - reflexivity.
  - intros db id log e s Hid Hraise.
    unfold Api.get_data, try_finally, try_except.
    cbn [truthy_token get_or]. rewrite Hid. cbn [negb]. rewrite Hraise.
    cbn [ret]. destruct (Api.release s) as [r s2]. now eexists.
  - intros db id log e log' Hid Hraise.
    unfold DbDataApi.get_data, try_except.
    cbn [truthy_token get_or]. rewrite Hid. cbn [negb]. now rewrite Hraise.
Qed.

Lemma get_data_error_responses_witness :
  Api.get_data unreachable_cluster None [] 
  = (Ok (mkResponse 400 (ErrorBody "channel_id parameter is required")), [])
  /\ DbDataApi.get_data unreachable_store None []
     = (Ok (mkResponse 400 (ErrorBody "channel_id parameter is required")),
        [])
  /\ (exists log',
        Api.get_data failing_query (Some "UC1") []
        = (Ok (mkResponse 500 (ErrorBody "InvalidRequest")), log'))
  /\ DbDataApi.get_data unreachable_store (Some "UC1") []
     = (Ok (mkResponse 500 (ErrorBody "timeout")),
        [GetCollection "data"; Find "UC1"]).
Proof.
  destruct get_data_error_responses as (A & B & C & D).
  split; [apply A|]. split; [apply B|]. split.
  - eapply (C failing_query "UC1" [] "InvalidRequest"); [reflexivity|].
    now apply api_lookup_query_raises.
  - apply (D unreachable_store "UC1" [] "timeout"); [reflexivity|].
    now apply documents_lookup_find_raises.
Defined.

(** * Further properties *)

(** ** Classifier: what follows the units *)

Section AfterTheUnits.

Lemma read_unit_no_digit u tail :
  take_digits tail = "" -> read_unit u tail = None.
Proof. intros H. unfold read_unit. now rewrite H. Qed.

Lemma read_seconds_tail h m s tail :
  number_opt h = true -> number_opt m = true -> number_opt s = true ->
  (s = None -> take_digits tail = "") ->
  read_seconds
    (render_unit h "H" ++ render_unit m "M" ++ render_unit s "S" ++ tail)
  = seconds_of h m s.
Proof.
  intros Hh Hm Hs Htail. unfold read_seconds, read_value, seconds_of.
  destruct s as [ds|].
  - clear Htail.
    destruct h as [dh|], m as [dm|]; cbn [render_unit value_of] in *;
      cbn [append];
      rewrite ?string_app_assoc; cbn [append];
      repeat first
        [ rewrite read_unit_present by (assumption || reflexivity)
        | rewrite read_unit_other by (assumption || reflexivity) ];
      reflexivity.
  - specialize (Htail eq_refl).
    destruct h as [dh|], m as [dm|]; cbn [render_unit value_of] in *;
      cbn [append];
      rewrite ?string_app_assoc; cbn [append];
      repeat first
        [ rewrite read_unit_present by (assumption || reflexivity)
        | rewrite read_unit_other by (assumption || reflexivity)
        | rewrite (read_unit_no_digit _ tail) by assumption ];
      reflexivity.
Qed.

(** X1.  The pattern is anchored at the start of the string only.  After a
    duration [PT[nH][nM][nS]], whatever follows the seconds is ignored,
    and so is, when there are no seconds, whatever does not begin with a
    digit: the duration is judged on the units read. *)
Theorem text_after_units_is_ignored h m s tail :
  number_opt h = true -> number_opt m = true -> number_opt s = true ->
  (s = None -> take_digits tail = "") ->
  _is_short_duration (duration_of h m s ++ tail)
  = (seconds_of h m s <=? 60)%Z.
Proof.
  intros Hh Hm Hs Htail. unfold duration_of.
  change (("PT" ++ render_unit h "H" ++ render_unit m "M"
           ++ render_unit s "S") ++ tail)
    with ("PT" ++ ((render_unit h "H" ++ render_unit m "M"
                    ++ render_unit s "S") ++ tail)).
  rewrite is_short_PT. f_equal.
  rewrite !string_app_assoc. now apply read_seconds_tail.
Qed.

End AfterTheUnits.

Lemma text_after_units_is_ignored_witness :
  _is_short_duration "PT30S5M" = true
  /\ _is_short_duration "PT2M and more" = false.
Proof.
  split.
  - apply (text_after_units_is_ignored None None (Some "30") "5M");
      try reflexivity. discriminate.
  - apply (text_after_units_is_ignored None (Some "2") None " and more");
      reflexivity.
Defined.

(** ** Identifier resolver: the other rules *)

Section ResolverRules.

Variable yt : YouTube.

(** The two lookups: one request, no exception, the first item or
    nothing. *)
Lemma from_username_run username w :
  _get_channel_id_from_username yt username w
  = (Ok (first_item
           (channels_list_forUsername yt (List.length (calls w)) username)),
     mkWorld (calls w ++ [ChannelsListForUsername username])
       (printed w
        ++ error_lines "Error getting channel ID from username: "
             (channels_list_forUsername yt (List.length (calls w))
                username))).
Proof.
  unfold _get_channel_id_from_username, try_except, bind, execute, print, ret.
  destruct (channels_list_forUsername yt (List.length (calls w)) username)
    as [[|id ids]|e]; cbn; now rewrite ?app_nil_r.
Qed.

Lemma from_handle_run handle w :
  _get_channel_id_from_handle yt handle w
  = (Ok (first_item
           (search_list yt (List.length (calls w)) ("@" ++ handle) 1)),
     mkWorld (calls w ++ [SearchList ("@" ++ handle) 1])
       (printed w
        ++ error_lines "Error getting channel ID from handle: "
             (search_list yt (List.length (calls w)) ("@" ++ handle) 1))).
Proof.
  unfold _get_channel_id_from_handle, try_except, bind, execute, print, ret.
  destruct (search_list yt (List.length (calls w)) ("@" ++ handle) 1)
    as [[|id ids]|e]; cbn; now rewrite ?app_nil_r.
Qed.

(** [identifier.split(sep)[1].split('/')[0]], for a separator that
    begins with [/] and occurs in the identifier. *)
Lemma segment_after sep' identifier (w : World) :
  PyStr.contains (String "/" sep') identifier = true ->
  exists r,
    after_first (String "/" sep') identifier = Some r
    /\ bind (subscript (PyStr.split identifier (String "/" sep')) 1)
         (fun after => subscript (PyStr.split after "/") 0) w
       = (Ok (before_slash r), w).
Proof.
  intros Hc. destruct (contains_after_first _ _ Hc) as (r & Hr).
  exists r. split; [exact Hr|]. unfold PyStr.split.
  destruct (split_after_first _ _ _ _ Hr) as (pre & ->).
  destruct (split_head_before_slash sep' r) as (p & ps & -> & Hp).
  unfold bind, subscript. cbn [nth_error ret].
  destruct (split_slash_head p) as (qs & ->). cbn [nth_error ret].
  now rewrite Hp.
Qed.

Lemma startswith_at identifier :
  PyStr.startswith identifier "@" = true ->
  "@" ++ PyStr.drop 1 identifier = identifier.
Proof.
  destruct identifier as [|c s]; cbn [PyStr.startswith]; [discriminate|].
  rewrite andb_true_r. intros H. apply Ascii.eqb_eq in H. now subst c.
Qed.

(** X2.  Outside channel URLs the identifier is looked up as it stands.  A
    string that does not contain [youtube.com] costs exactly one request:
    a channel search for the string itself when it begins with [@], a
    username lookup of the whole string otherwise.  The answer is the
    first item; there is none when the result is empty or when the
    request raises, and then a line is printed and nothing is raised. *)
Theorem get_channel_id_plain_name (identifier : string) (w : World) :
  PyStr.contains "youtube.com" identifier = false ->
  get_channel_id yt identifier w
  = if PyStr.startswith identifier "@"
    then
      (Ok (first_item (search_list yt (List.length (calls w)) identifier 1)),
       mkWorld (calls w ++ [SearchList identifier 1])
         (printed w
          ++ error_lines "Error getting channel ID from handle: "
               (search_list yt (List.length (calls w)) identifier 1)))
    else
      (Ok (first_item
             (channels_list_forUsername yt (List.length (calls w))
                identifier)),
       mkWorld (calls w ++ [ChannelsListForUsername identifier])
         (printed w
          ++ error_lines "Error getting channel ID from username: "
               (channels_list_forUsername yt (List.length (calls w))
                  identifier))).
Proof.
  intros Hhost. unfold get_channel_id. rewrite Hhost.
  destruct (PyStr.startswith identifier "@") eqn:Hat.
  - rewrite from_handle_run. now rewrite (startswith_at _ Hat).
  - apply from_username_run.
Qed.

(** X3.  A handle URL: it contains [youtube.com] and [/@] and none of
    [/channel/], [/c/] and [/user/].  The handle is the text between the
    first [/@] and the next [/]; one channel search for [@handle] is
    sent. *)
Theorem get_channel_id_handle_url (identifier : string) (w : World) :
  PyStr.contains "youtube.com" identifier = true ->
  PyStr.contains "/channel/" identifier = false ->
  PyStr.contains "/c/" identifier = false ->
  PyStr.contains "/user/" identifier = false ->
  PyStr.contains "/@" identifier = true ->
  exists handle,
    handle_segment identifier = Some handle
    /\ get_channel_id yt identifier w
       = (Ok (first_item
                (search_list yt (List.length (calls w)) ("@" ++ handle) 1)),
          mkWorld (calls w ++ [SearchList ("@" ++ handle) 1])
            (printed w
             ++ error_lines "Error getting channel ID from handle: "
                  (search_list yt (List.length (calls w))
                     ("@" ++ handle) 1))).
Proof.
  intros Hhost Hchannel Hc Huser Hat.
  unfold get_channel_id, handle_segment.
  rewrite Hhost, Hchannel, Hc, Huser, Hat. cbn [orb].
  destruct (segment_after "@" identifier w Hat) as (r & Hr & Hrun).
  rewrite Hr. exists (before_slash r). split; [reflexivity|].
  rewrite <- from_handle_run.
  unfold bind in *.
  destruct (subscript (PyStr.split identifier "/@") 1 w) as [[after|e|] w1];
    try discriminate.
  destruct (subscript (PyStr.split after "/") 0 w1) as [[handle|e|] w2];
    try discriminate.
  now injection Hrun as -> ->.
Qed.

(** The last piece of a split at [/]: what follows the last [/]. *)
Lemma split_slash_none s :
  PyStr.contains "/" s = false -> PyStr.split_go "/" 0 s = [s].
Proof.
  induction s as [|c s IH]; [reflexivity|].
  cbn [PyStr.contains PyStr.split_go]. intros H.
  apply orb_false_elim in H as [Hc Hs]. rewrite Hc, (IH Hs). reflexivity.
Qed.

Lemma split_slash_last s :
  PyStr.contains "/" s = true ->
  exists pre name p q qs,
    s = pre ++ String "/" name
    /\ PyStr.contains "/" name = false
    /\ PyStr.split_go "/" 0 s = p :: q :: qs
    /\ last (p :: q :: qs) "" = name.
Proof.
  induction s as [|c s IH]; [discriminate|].
  cbn [PyStr.contains PyStr.split_go].
  change (String.length "/" - 1) with 0.
  destruct (PyStr.startswith (String c s) "/") eqn:Hc.
  - intros _. cbn [PyStr.startswith] in Hc. rewrite andb_true_r in Hc.
    apply Ascii.eqb_eq in Hc. subst c.
    destruct (PyStr.contains "/" s) eqn:Hs.
    + destruct (IH eq_refl) as (pre & name & p & q & qs & -> & Hn & -> & Hl).
      exists (String "/" pre), name, "", p, (q :: qs).
      repeat split; assumption.
    + exists "", s, "", s, []. rewrite (split_slash_none s Hs).
      repeat split; assumption.
  - cbn [orb]. intros Hs.
    destruct (IH Hs) as (pre & name & p & q & qs & -> & Hn & -> & Hl).
    exists (String c pre), name, (String c p), q, qs.
    repeat split; assumption.
Qed.

(** X4.  A legacy URL: it contains [youtube.com] and [/c/] or [/user/], and
    not [/channel/].  The name that is looked up is what follows the
    last [/] of the string, whatever stands before it; a URL that ends
    in [/] is looked up under the empty name. *)
Theorem get_channel_id_legacy_url (identifier : string) (w : World) :
  PyStr.contains "youtube.com" identifier = true ->
  PyStr.contains "/channel/" identifier = false ->
  PyStr.contains "/c/" identifier || PyStr.contains "/user/" identifier
  = true ->
  exists pre name,
    identifier = pre ++ "/" ++ name
    /\ PyStr.contains "/" name = false
    /\ get_channel_id yt identifier w
       = (Ok (first_item
                (channels_list_forUsername yt (List.length (calls w)) name)),
          mkWorld (calls w ++ [ChannelsListForUsername name])
            (printed w
             ++ error_lines "Error getting channel ID from username: "
                  (channels_list_forUsername yt (List.length (calls w))
                     name))).
Proof.
  intros Hhost Hchannel Hlegacy.
  assert (PyStr.contains "/" identifier = true) as Hslash.
  { assert (forall x s, PyStr.contains (String "/" x) s = true ->
                        PyStr.contains "/" s = true) as Hsub.
    { intros x s. induction s as [|c s IHs]; [discriminate|].
      cbn [PyStr.contains PyStr.startswith].
      rewrite andb_true_r. intros H. apply orb_prop in H as [H|H].
      - apply andb_prop in H as [H _]. now rewrite H.
      - rewrite (IHs H). apply orb_true_r. }
    apply orb_prop in Hlegacy as [H|H]; eapply Hsub; exact H. }
  destruct (split_slash_last identifier Hslash)
    as (pre & name & p & q & qs & Hid & Hname & Hsplit & Hlast).
  exists pre, name. split; [exact Hid|]. split; [exact Hname|].
  unfold get_channel_id. rewrite Hhost, Hchannel, Hlegacy.
  unfold PyStr.split. rewrite Hsplit, Hlast. apply from_username_run.
Qed.

(** X5.  [get_channel_id] never raises, and it sends at most one request. *)
Theorem get_channel_id_returns (identifier : string) (w : World) :
  exists found w',
    get_channel_id yt identifier w = (Ok found, w')
    /\ (calls w' = calls w \/ exists c, calls w' = (calls w ++ [c])%list).
Proof.
  unfold get_channel_id.
  destruct (PyStr.contains "youtube.com" identifier).
  - destruct (PyStr.contains "/channel/" identifier) eqn:Hchannel.
    + destruct (segment_after "channel/" identifier w Hchannel)
        as (r & _ & Hrun).
      unfold bind in *.
      destruct (subscript (PyStr.split identifier "/channel/") 1 w)
        as [[after|e|] w1]; try discriminate.
      destruct (subscript (PyStr.split after "/") 0 w1) as [[id|e|] w2];
        try discriminate.
      injection Hrun as -> ->. unfold ret. eexists _, _. split; eauto.
    + destruct (PyStr.contains "/c/" identifier
                || PyStr.contains "/user/" identifier).
      * rewrite from_username_run. eexists _, _. split; [reflexivity|].
        right. now eexists.
      * destruct (PyStr.contains "/@" identifier) eqn:Hat.
        -- destruct (segment_after "@" identifier w Hat) as (r & _ & Hrun).
           unfold bind in *.
           destruct (subscript (PyStr.split identifier "/@") 1 w)
             as [[after|e|] w1]; try discriminate.
           destruct (subscript (PyStr.split after "/") 0 w1)
             as [[handle|e|] w2]; try discriminate.
           injection Hrun as -> ->. rewrite from_handle_run.
           eexists _, _. split; [reflexivity|]. right. now eexists.
        -- unfold ret. eexists _, _. split; eauto.
  - destruct (PyStr.startswith identifier "@").
    + rewrite from_handle_run. eexists _, _. split; [reflexivity|].
      right. now eexists.
    + rewrite from_username_run. eexists _, _. split; [reflexivity|].
      right. now eexists.
Qed.

End ResolverRules.

Example legacy_url_trailing_slash :
  get_channel_id one_channel "https://www.youtube.com/c/creator/" no_effects
  = (Ok None, mkWorld [ChannelsListForUsername ""] []).
Proof. reflexivity. Qed.

Example handle_search_fails :
  get_channel_id one_channel "@someone" no_effects
  = (Ok None,
     mkWorld [SearchList "@someone" 1]
       ["Error getting channel ID from handle: quotaExceeded"]).
Proof. reflexivity. Qed.

Lemma get_channel_id_plain_name_witness :
  get_channel_id one_channel "@creator" no_effects
  = (Ok (Some "UCbyhandle"), mkWorld [SearchList "@creator" 1] [])
  /\ get_channel_id one_channel "creator" no_effects
     = (Ok (Some "UCbyname"), mkWorld [ChannelsListForUsername "creator"] []).
Proof.
  split.
  - rewrite (get_channel_id_plain_name one_channel "@creator" no_effects
               eq_refl). reflexivity.
  - rewrite (get_channel_id_plain_name one_channel "creator" no_effects
               eq_refl). reflexivity.
Defined.

Lemma get_channel_id_handle_url_witness :
  exists handle,
    handle_segment "https://www.youtube.com/@creator/videos" = Some handle
    /\ get_channel_id one_channel "https://www.youtube.com/@creator/videos"
         no_effects
       = (Ok (first_item
                (search_list one_channel 0 ("@" ++ handle) 1)),
          mkWorld ([] ++ [SearchList ("@" ++ handle) 1])
            ([] ++ error_lines "Error getting channel ID from handle: "
                     (search_list one_channel 0 ("@" ++ handle) 1))).
Proof.
  apply (get_channel_id_handle_url one_channel
           "https://www.youtube.com/@creator/videos" no_effects);
    reflexivity.
Defined.

Lemma get_channel_id_legacy_url_witness :
  exists pre name,
    "https://www.youtube.com/user/creator" = pre ++ "/" ++ name
    /\ PyStr.contains "/" name = false
    /\ get_channel_id one_channel "https://www.youtube.com/user/creator"
         no_effects
       = (Ok (first_item (channels_list_forUsername one_channel 0 name)),
          mkWorld ([] ++ [ChannelsListForUsername name])
            ([] ++ error_lines "Error getting channel ID from username: "
                     (channels_list_forUsername one_channel 0 name))).
Proof.
  apply (get_channel_id_legacy_url one_channel
           "https://www.youtube.com/user/creator" no_effects);
    reflexivity.
Defined.

(** ** Fetching details and listing: what is sent and what is kept *)

Section ListerRequests.

Variable yt : YouTube.
Variable published_after : string.

Lemma details_record id w d w' :
  get_video_details yt id w = (Ok (Some d), w') ->
  complete_record (video_of id d).
Proof.
  unfold get_video_details, try_except, bind, execute, print, ret.
  destruct (videos_list yt (List.length (calls w)) id) as [[|v vs]|e];
    cbn; try discriminate.
  intros [= <- _]. unfold complete_record.
  cbn [video_of type views likes comments url video_id d_type d_url].
  split; [|repeat split; discriminate].
  eexists. split; [reflexivity|]. apply determine_video_type_values.
Qed.

(** The loops keep the records complete and never raise on their own:
    the only exception is that of a request for a page. *)
Lemma collect_item_records item videos w :
  Forall complete_record videos ->
  exists videos' w',
    collect_item yt published_after item (videos, w) = (Ok tt, (videos', w'))
    /\ Forall complete_record videos'.
Proof.
  intros Hv. unfold collect_item.
  destruct (PyStr.ltb (item_publishedAt item) published_after);
    [now exists videos, w|].
  destruct (get_video_details yt (item_videoId item) w) as [r w1] eqn:Hd.
  destruct (get_video_details_returns yt (item_videoId item) w)
    as (r' & lines & Hrun).
  rewrite Hrun in Hd. injection Hd as <- <-.
  unfold bind, in_world. rewrite Hrun.
  destruct r' as [d|]; [|now eexists _, _].
  eexists _, _. split; [reflexivity|].
  apply Forall_app. split; [exact Hv|]. constructor; [|constructor].
  eapply details_record. exact Hrun.
Qed.

Lemma for_each_records items : forall videos w,
  Forall complete_record videos ->
  exists videos' w',
    for_each items (collect_item yt published_after) (videos, w)
    = (Ok tt, (videos', w'))
    /\ Forall complete_record videos'.
Proof.
  induction items as [|item items IH]; intros videos w Hv;
    [now exists videos, w|].
  destruct (collect_item_records item videos w Hv) as (v1 & w1 & H1 & Hv1).
  destruct (IH v1 w1 Hv1) as (v2 & w2 & H2 & Hv2).
  exists v2, w2. cbn [for_each]. unfold bind at 1. now rewrite H1, H2.
Qed.

Lemma page_loop_records fuel playlist : forall token videos w,
  Forall complete_record videos ->
  Forall complete_record
    (fst (snd (page_loop fuel yt published_after playlist token
                 (videos, w)))).
Proof.
  induction fuel as [|fuel IH]; intros token videos w Hv; [exact Hv|].
  cbn [page_loop]. unfold bind at 1. unfold in_world at 1, execute.
  destruct (playlistItems_list yt (List.length (calls w)) playlist 50 token)
    as [p|e]; [|exact Hv].
  destruct (for_each_records (page_items p) videos
              (mkWorld (calls w ++ [PlaylistItemsList playlist 50 token])
                 (printed w)) Hv)
    as (v1 & w1 & H1 & Hv1).
  unfold bind at 1. rewrite H1.
  destruct (negb (truthy_token (nextPageToken p))); [exact Hv1|].
  now apply IH.
Qed.

(** X6.  [get_video_details] never raises and sends exactly one request.  It
    returns the empty dictionary when the request raises, and then
    prints a line, or when the response has no item; otherwise it
    returns the details of the first item, with its type classified and
    every missing count taken as zero. *)
Theorem get_video_details_outcome (video_id : string) (w : World) :
  exists r lines,
    get_video_details yt video_id w
    = (Ok r, mkWorld (calls w ++ [VideosList video_id]) lines)
    /\ match videos_list yt (List.length (calls w)) video_id with
       | Failed e =>
           r = None
           /\ lines
              = (printed w
                 ++ [("Error getting video details: " ++ e)%string])%list
       | Got [] => r = None /\ lines = printed w
       | Got (video :: _) =>
           lines = printed w
           /\ exists d,
                r = Some d
                /\ d_type d
                   = _determine_video_type (contentDetails_duration video)
                       (liveStreamingDetails video)
                       (snippet_liveBroadcastContent video)
                /\ d_views d = get_or (statistics_viewCount video) 0%Z
                /\ d_likes d = get_or (statistics_likeCount video) 0%Z
                /\ d_comments d = get_or (statistics_commentCount video) 0%Z
                /\ d_url d = "https://youtube.com/watch?v=" ++ video_id
       end.
Proof.
  unfold get_video_details, try_except, bind, execute, print, ret.
  destruct (videos_list yt (List.length (calls w)) video_id) as [[|v vs]|e];
    cbn; eexists _, _; (split; [reflexivity|]); auto.
  split; [reflexivity|]. eexists. repeat split.
Qed.

Lemma collect_videos_result fuel channel_id w :
  match collect_videos fuel yt published_after channel_id w with
  | (Ok videos, _) => Forall complete_record videos
  | (Raise _, _) => False
  | (OutOfFuel, _) => True
  end.
Proof.
  unfold collect_videos, try_except. unfold bind at 1.
  unfold in_world at 1, execute at 1.
  destruct (channels_list_id yt (List.length (calls w)) channel_id)
    as [[|playlist others]|e].
  - cbn. constructor.
  - pose proof (page_loop_records fuel playlist None []
                  (mkWorld (calls w ++ [ChannelsListId channel_id])
                     (printed w)) (Forall_nil _)) as Hv.
    destruct (page_loop fuel yt published_after playlist None _)
      as [[[]|e|] [vs w1]]; cbn [fst snd] in Hv |- *; auto.
  - cbn. constructor.
Qed.

End ListerRequests.

(** X7.  The only exception [get_channel_videos] raises is that of the
    computation of the cutoff, which stands before the [try] statement;
    it is raised with nothing requested and nothing printed.  Whatever
    the service does raises nothing.  Every record of the list that
    [get_channel_videos] returns is complete: a known content type, the
    three counts, and the watch URL of its identifier. *)
Theorem get_channel_videos_records (yt : YouTube) (clock : Clock)
  (fuel : nat) (channel_id : string) (days : Z) (w : World) :
  (forall e,
      fst (get_channel_videos fuel yt clock channel_id days w) = Raise e
      <-> days_ago_isoformat clock days = Failed e)
  /\ (forall e,
      days_ago_isoformat clock days = Failed e ->
      snd (get_channel_videos fuel yt clock channel_id days w) = w)
  /\ (forall videos,
      fst (get_channel_videos fuel yt clock channel_id days w) = Ok videos ->
      Forall complete_record videos).
Proof.
  destruct (days_ago_isoformat clock days) as [cutoff|e0] eqn:Hclock.
  - rewrite (get_channel_videos_cutoff _ _ _ _ _ _ _ Hclock).
    pose proof (collect_videos_result yt (cutoff ++ "Z") fuel channel_id w)
      as H.
    destruct (collect_videos fuel yt (cutoff ++ "Z") channel_id w)
      as [[videos|e|] w']; cbn [fst]; try contradiction;
      (split; [split; discriminate|]); (split; [discriminate|]);
      [now intros videos' [= <-] | discriminate].
  - rewrite (get_channel_videos_overflow _ _ _ _ _ _ _ Hclock). cbn [fst snd].
    split; [|split; [reflexivity | discriminate]].
    intros e. split; intros [= ->]; reflexivity.
Qed.

Example period_out_of_range :
  get_channel_videos 10 three_pages sample_clock "UC1" 999999999 no_effects
  = (Raise "date value out of range", no_effects).
Proof. reflexivity. Qed.

Lemma get_channel_videos_records_witness :
  fst (get_channel_videos 10 three_pages sample_clock "UC1" 999999999
         no_effects)
  = Raise "date value out of range"
  /\ Forall complete_record
       [video_of "a"
          (mkVideoDetails "a" "2024-06-01T10:00:00Z" 100 10 1 "PT5M"
             "Video" "https://youtube.com/watch?v=a")].
Proof.
  split.
  - destruct (get_channel_videos_records three_pages sample_clock 10 "UC1"
                999999999 no_effects) as (A & _ & _).
    apply A. reflexivity.
  - destruct (get_channel_videos_records three_pages sample_clock 10 "UC1"
                30 no_effects) as (_ & _ & C).
    apply C. reflexivity.
Defined.

(** ** Listing: the requests sent and the videos returned *)

Section ListingTrace.

Variable yt : YouTube.
Variable published_after : string.

(** The details service answers every request with at least one item. *)
Let answers : Prop :=
  forall t id, exists video others, videos_list yt t id = Got (video :: others).

(** One entry: an old entry costs no request; an entry that is not older
    than the cutoff costs exactly one request for its details, and is
    appended when that request is answered with an item. *)
Lemma collect_item_trace item videos w :
  exists new w',
    collect_item yt published_after item (videos, w)
    = (Ok tt, ((videos ++ new)%list, w'))
    /\ calls w'
       = (calls w
          ++ map VideosList (in_window_ids published_after [item]))%list
    /\ (answers ->
        map video_id new = in_window_ids published_after [item]
        /\ printed w' = printed w).
Proof.
  unfold collect_item, in_window_ids, in_window. cbn [filter].
  destruct (PyStr.ltb (item_publishedAt item) published_after);
    cbn [negb map].
  - exists [], w. rewrite !app_nil_r. repeat split.
  - unfold bind, in_world, get_video_details, try_except, bind, execute,
      print, ret.
    destruct (videos_list yt (List.length (calls w)) (item_videoId item))
      as [[|v vs]|e] eqn:Hd; cbn.
    + exists []. eexists. rewrite app_nil_r. split; [reflexivity|].
      split; [reflexivity|]. intros Ha.
      destruct (Ha (List.length (calls w)) (item_videoId item))
        as (v & vs & Hv). congruence.
    + eexists [_], _. split; [reflexivity|]. split; [reflexivity|].
      intros _. split; reflexivity.
    + exists []. eexists. rewrite app_nil_r. split; [reflexivity|].
      split; [reflexivity|]. intros Ha.
      destruct (Ha (List.length (calls w)) (item_videoId item))
        as (v & vs & Hv). congruence.
Qed.

Lemma for_each_trace items : forall videos w,
  exists new w',
    for_each items (collect_item yt published_after) (videos, w)
    = (Ok tt, ((videos ++ new)%list, w'))
    /\ calls w'
       = (calls w ++ map VideosList (in_window_ids published_after items))%list
    /\ (answers ->
        map video_id new = in_window_ids published_after items
        /\ printed w' = printed w).
Proof.
  induction items as [|item items IH]; intros videos w.
  - exists [], w. rewrite !app_nil_r. repeat split.
  - destruct (collect_item_trace item videos w) as (n1 & w1 & H1 & C1 & A1).
    destruct (IH (videos ++ n1)%list w1) as (n2 & w2 & H2 & C2 & A2).
    exists (n1 ++ n2)%list, w2. cbn [for_each]. unfold bind at 1.
    rewrite H1, H2, app_assoc. split; [reflexivity|]. split.
    + rewrite C2, C1, (in_window_ids_cons published_after item items),
        map_app, app_assoc. reflexivity.
    + intros Ha. destruct (A1 Ha) as [I1 P1]. destruct (A2 Ha) as [I2 P2].
      rewrite (in_window_ids_cons published_after item items), map_app.
      split; congruence.
Qed.

Lemma page_loop_trace playlist pages : forall fuel token videos w,
  serves yt playlist token pages ->
  List.length pages <= fuel ->
  exists new w',
    page_loop fuel yt published_after playlist token (videos, w)
    = (Ok tt, ((videos ++ new)%list, w'))
    /\ calls w'
       = (calls w ++ listing_calls published_after playlist token pages)%list
    /\ (answers ->
        map video_id new
        = in_window_ids published_after (flat_map page_items pages)
        /\ printed w' = printed w).
Proof.
  induction pages as [|p rest IH]; intros fuel token videos w Hs Hf;
    [contradiction|].
  destruct fuel as [|fuel]; [simpl in Hf; lia|].
  destruct Hs as [Hp Hrest].
  cbn [page_loop]. unfold bind at 1. unfold in_world at 1, execute.
  rewrite Hp. cbn [calls printed].
  destruct (for_each_trace (page_items p) videos
              (mkWorld (calls w ++ [PlaylistItemsList playlist 50 token])
                 (printed w)))
    as (n1 & w2 & H1 & C1 & A1).
  cbn [calls printed] in C1, A1.
  unfold bind at 1. rewrite H1.
  assert (calls w2
          = (calls w ++ page_calls published_after playlist token p)%list)
    as Cp.
  { rewrite C1, <- app_assoc. reflexivity. }
  destruct rest as [|p' rest'].
  - rewrite Hrest. cbn [negb]. exists n1, w2.
    split; [reflexivity|]. cbn [listing_calls flat_map].
    rewrite !app_nil_r. split; [exact Cp | exact A1].
  - destruct Hrest as [Ht Hrest]. rewrite Ht. cbn [negb].
    destruct (IH fuel (nextPageToken p) (videos ++ n1)%list w2 Hrest)
      as (n2 & w3 & H2 & C2 & A2); [simpl in Hf |- *; lia|].
    exists (n1 ++ n2)%list, w3. rewrite H2, app_assoc.
    split; [reflexivity|]. split.
    + rewrite C2, Cp, <- app_assoc. reflexivity.
    + intros Ha. destruct (A1 Ha) as [I1 P1]. destruct (A2 Ha) as [I2 P2].
      change (flat_map page_items (p :: p' :: rest'))
        with (page_items p ++ flat_map page_items (p' :: rest'))%list.
      rewrite (in_window_ids_app published_after), map_app.
      split; congruence.
Qed.

Lemma collect_videos_trace fuel channel_id w playlist others pages :
  channels_list_id yt (List.length (calls w)) channel_id
  = Got (playlist :: others) ->
  serves yt playlist None pages ->
  List.length pages <= fuel ->
  exists videos w',
    collect_videos fuel yt published_after channel_id w = (Ok videos, w')
    /\ calls w'
       = (calls w
          ++ ChannelsListId channel_id
             :: listing_calls published_after playlist None pages)%list
    /\ (answers ->
        map video_id videos
        = in_window_ids published_after (flat_map page_items pages)
        /\ printed w' = printed w).
Proof.
  intros Hc Hs Hf.
  unfold collect_videos, try_except. unfold bind at 1.
  unfold in_world at 1, execute at 1. rewrite Hc.
  destruct (page_loop_trace playlist pages fuel None []
              (mkWorld (calls w ++ [ChannelsListId channel_id]) (printed w))
              Hs Hf)
    as (new & w' & Hrun & Hcalls & Hall).
  rewrite Hrun. exists new, w'. split; [reflexivity|]. split; [|exact Hall].
  rewrite Hcalls. cbn [calls]. rewrite <- app_assoc. reflexivity.
Qed.

End ListingTrace.

(** X8.  For a period whose cutoff can be computed, on a playlist that
    the service serves in [pages], the requests that
    [get_channel_videos] sends are, in order: the channel lookup, then
    for each page the request for the page followed by one request for
    the details of each entry of the page that is not older than the
    cutoff.  No request is sent for an older entry, and none is sent
    twice, whether or not the details are obtained. *)
Theorem get_channel_videos_requests (yt : YouTube) (clock : Clock)
  (days : Z) (cutoff : string) (fuel : nat) (channel_id : string)
  (w : World) (playlist : string) (others : list string)
  (pages : list PlaylistPage) :
  days_ago_isoformat clock days = Got cutoff ->
  channels_list_id yt (List.length (calls w)) channel_id
  = Got (playlist :: others) ->
  serves yt playlist None pages ->
  List.length pages <= fuel ->
  calls (snd (get_channel_videos fuel yt clock channel_id days w))
  = (calls w
     ++ ChannelsListId channel_id
        :: listing_calls (cutoff ++ "Z") playlist None pages)%list.
Proof.
  intros Hcutoff Hc Hs Hf.
  rewrite (get_channel_videos_cutoff _ _ _ _ _ _ _ Hcutoff).
  destruct (collect_videos_trace yt (cutoff ++ "Z") fuel channel_id w
              playlist others pages Hc Hs Hf)
    as (videos & w' & Hrun & Hcalls & _).
  now rewrite Hrun.
Qed.

(** X9.  When, in addition, every request for details is answered with
    an item, the videos returned are exactly the entries that are not
    older than the cutoff, in the order of the playlist, and nothing is
    printed. *)
Theorem get_channel_videos_complete (yt : YouTube) (clock : Clock)
  (days : Z) (cutoff : string) (fuel : nat) (channel_id : string)
  (w : World) (playlist : string) (others : list string)
  (pages : list PlaylistPage) :
  days_ago_isoformat clock days = Got cutoff ->
  channels_list_id yt (List.length (calls w)) channel_id
  = Got (playlist :: others) ->
  serves yt playlist None pages ->
  List.length pages <= fuel ->
  (forall t id, exists video rest, videos_list yt t id = Got (video :: rest)) ->
  exists videos w',
    get_channel_videos fuel yt clock channel_id days w = (Ok videos, w')
    /\ map video_id videos
       = in_window_ids (cutoff ++ "Z") (flat_map page_items pages)
    /\ printed w' = printed w.
Proof.
  intros Hcutoff Hc Hs Hf Ha.
  rewrite (get_channel_videos_cutoff _ _ _ _ _ _ _ Hcutoff).
  destruct (collect_videos_trace yt (cutoff ++ "Z") fuel channel_id w
              playlist others pages Hc Hs Hf)
    as (videos & w' & Hrun & _ & Hall).
  destruct (Hall Ha) as [Hids Hprinted].
  now exists videos, w'.
Qed.

Lemma get_channel_videos_requests_witness :
  calls (snd (get_channel_videos 3 three_pages
                sample_clock "UC1" 30 no_effects))
  = [ChannelsListId "UC1";
     PlaylistItemsList "UU1" 50 None; VideosList "a";
     PlaylistItemsList "UU1" 50 (Some "p2");
     PlaylistItemsList "UU1" 50 (Some "p3")].
Proof.
  apply (get_channel_videos_requests three_pages sample_clock 30
           "2024-05-01T00:00:00" 3 "UC1" no_effects "UU1" []
           [first_page; second_page; third_page]).
  - reflexivity.
  - reflexivity.
  - cbn. repeat split.
  - cbn. lia.
Defined.

Lemma get_channel_videos_complete_witness :
  exists videos w',
    get_channel_videos 3 three_pages sample_clock "UC1" 30 no_effects
    = (Ok videos, w')
    /\ map video_id videos = ["a"]
    /\ printed w' = [].
Proof.
  apply (get_channel_videos_complete three_pages sample_clock 30
           "2024-05-01T00:00:00" 3 "UC1" no_effects "UU1" []
           [first_page; second_page; third_page]).
  - reflexivity.
  - reflexivity.
  - cbn. repeat split.
  - cbn. lia.
  - intros t id. now eexists _, _.
Defined.

(** ** Leaderboards: re-sorting after each insertion loses nothing *)

Section TopFive.

Context {A : Type}.
Variable key : A -> Z.

Ltac compare_keys :=
  repeat match goal with
         | |- context [(?a <=? ?b)%Z] => destruct (Z.leb_spec a b)
         | |- context [(?a <? ?b)%Z] => destruct (Z.ltb_spec a b)
         end.

Lemma insert_desc_insert_back a x (l : list A) :
  insert_desc key a (insert_back key x l)
  = insert_back key x (insert_desc key a l).
Proof.
  induction l as [|y l IH]; cbn [insert_desc insert_back].
  - compare_keys; try lia; reflexivity.
  - destruct (Z.ltb_spec (key y) (key x)), (Z.leb_spec (key y) (key a));
      cbn [insert_desc insert_back]; compare_keys; try lia;
      try reflexivity.
    now rewrite IH.
Qed.

(** The stable descending sort puts the last element behind the elements
    of the same key. *)
Lemma sorted_snoc (l : list A) x :
  sorted key (l ++ [x]) = insert_back key x (sorted key l).
Proof.
  unfold sorted. induction l as [|a l IH]; cbn [app fold_right];
    [reflexivity|].
  now rewrite IH, insert_desc_insert_back.
Qed.

(** What lies beyond the first [n] elements has no part in the first [n]
    elements after an insertion. *)
Lemma firstn_insert_back x n : forall l : list A,
  firstn n (insert_back key x (firstn n l)) = firstn n (insert_back key x l).
Proof.
  induction n as [|n IH]; intros l; [reflexivity|].
  destruct l as [|y l]; [reflexivity|].
  cbn [firstn insert_back]. destruct (key y <? key x)%Z; cbn [firstn].
  - f_equal. change (y :: firstn n l) with (firstn (S n) (y :: l)).
    rewrite firstn_firstn. f_equal. lia.
  - now rewrite IH.
Qed.

(** Sorting a list that is in descending order changes nothing. *)
Lemma sorted_of_descending (l : list A) :
  StronglySorted (fun a b => (key a >= key b)%Z) l -> sorted key l = l.
Proof.
  unfold sorted. induction 1 as [|a l Hl IH Ha]; cbn [fold_right];
    [reflexivity|].
  rewrite IH. destruct Ha as [|y l' Hy _]; cbn [insert_desc]; [reflexivity|].
  destruct (Z.leb_spec (key y) (key a)); [reflexivity | lia].
Qed.

Lemma top_insert_firstn (l : list A) x :
  top_insert key (firstn 5 (sorted key l)) x
  = firstn 5 (sorted key (l ++ [x])).
Proof.
  unfold top_insert.
  rewrite !sorted_snoc, sorted_of_descending
    by apply StronglySorted_firstn, sorted_descending.
  apply firstn_insert_back.
Qed.

Lemma fold_top_sorted (l : list A) :
  fold_left (top_insert key) l [] = firstn 5 (sorted key l).
Proof.
  induction l as [|x l IH] using rev_ind; [reflexivity|].
  rewrite fold_left_app. cbn [fold_left]. rewrite IH.
  apply top_insert_firstn.
Qed.

End TopFive.

(** ** Aggregation: the statistics of a content type *)

Section BucketStatistics.

Context {F : PyFloat}.

(** The first loop leaves the averages as they are. *)
Lemma fold_add_video_averages b : forall stats,
  average_views (fold_left add_video b stats) = average_views stats
  /\ average_likes (fold_left add_video b stats) = average_likes stats
  /\ average_comments (fold_left add_video b stats) = average_comments stats.
Proof.
  induction b as [|v b IH]; intros stats; cbn [fold_left]; [repeat split|].
  destruct (IH (add_video stats v)) as (-> & -> & ->). repeat split.
Qed.

Lemma bucket_sums b :
  let stats := fold_left add_video b get_empty_type_stats in
  count stats = Z.of_nat (List.length b)
  /\ total_views stats = sum_of views b
  /\ total_likes stats = sum_of likes b
  /\ total_comments stats = sum_of comments b.
Proof.
  cbn zeta.
  destruct (fold_add_video b get_empty_type_stats) as (-> & -> & -> & -> & _).
  cbn [get_empty_type_stats count total_views total_likes total_comments].
  repeat split; lia.
Qed.

(** X11.  In the result, the statistics of a content type count the videos of
    that type and add up their views, likes and comments; a video
    without a type counts as a [Video], a missing number as [0]. *)
Theorem bucket_statistics videos d t stats :
  content_type_stats videos = Ok d ->
  lookup t d = Some stats ->
  count stats = Z.of_nat (List.length (bucket t videos))
  /\ total_views stats = sum_of views (bucket t videos)
  /\ total_likes stats = sum_of likes (bucket t videos)
  /\ total_comments stats = sum_of comments (bucket t videos).
Proof.
  intros Hd Hlookup.
  rewrite (bucket_of_result _ _ _ _ Hd Hlookup).
  destruct (finish_stats_keeps
              (fold_left add_video (bucket t videos) get_empty_type_stats))
    as (-> & -> & -> & -> & _).
  apply bucket_sums.
Qed.

(** X12.  The averages of a content type are the totals divided by the count,
    rounded to two places, when the type has a video; they stay the
    integer [0] when it has none, so that no division by zero is
    made. *)
Theorem bucket_averages videos d t stats :
  content_type_stats videos = Ok d ->
  lookup t d = Some stats ->
  if (count stats >? 0)%Z
  then average_views stats
       = Float (round (truediv (total_views stats) (count stats)) 2)
       /\ average_likes stats
          = Float (round (truediv (total_likes stats) (count stats)) 2)
       /\ average_comments stats
          = Float (round (truediv (total_comments stats) (count stats)) 2)
  else bucket t videos = []
       /\ average_views stats = Int 0
       /\ average_likes stats = Int 0
       /\ average_comments stats = Int 0.
Proof.
  intros Hd Hlookup.
  rewrite (bucket_of_result _ _ _ _ Hd Hlookup).
  generalize (bucket t videos). intros b.
  destruct (bucket_sums b) as (Hc & _).
  destruct (fold_add_video_averages b get_empty_type_stats)
    as (Hv & Hl & Hm).
  cbn [get_empty_type_stats average_views average_likes average_comments]
    in Hv, Hl, Hm.
  unfold finish_stats.
  destruct (count (fold_left add_video b get_empty_type_stats) >? 0)%Z eqn:Ec.
  - cbn [count]. rewrite Ec. repeat split.
  - rewrite Ec. rewrite Z.gtb_ltb in Ec. apply Z.ltb_ge in Ec.
    rewrite Hc in Ec.
    destruct b as [|v b]; [|cbn [List.length] in Ec; lia].
    repeat split.
Qed.

(** X13.  The leaderboard of a content type is the first five of all the
    videos of that type in the stable descending order of their views:
    sorting and truncating after each insertion gives what one sort of
    the whole bucket gives. *)
Theorem top_videos_are_the_five_most_viewed videos d t stats :
  content_type_stats videos = Ok d ->
  lookup t d = Some stats ->
  top_videos stats = firstn 5 (sorted views_key (bucket t videos)).
Proof.
  intros Hd Hlookup.
  rewrite (bucket_of_result _ _ _ _ Hd Hlookup).
  destruct (finish_stats_keeps
              (fold_left add_video (bucket t videos) get_empty_type_stats))
    as (_ & _ & _ & _ & ->).
  destruct (fold_add_video (bucket t videos) get_empty_type_stats)
    as (_ & _ & _ & _ & _ & ->).
  apply fold_top_sorted.
Qed.

(** *** Types that are not content types *)

Lemma group_videos_app pre : forall rest d,
  group_videos (pre ++ rest) d
  = match group_videos pre d with
    | Ok d' => group_videos rest d'
    | Raise e => Raise e
    | OutOfFuel => OutOfFuel
    end.
Proof.
  induction pre as [|v pre IH]; intros rest d; cbn [app group_videos];
    [reflexivity|].
  destruct (lookup (get_or (type v) "Video") d); [apply IH | reflexivity].
Qed.

Lemma lookup_unknown t :
  ~ In t ["Video"; "Short"; "Live"] ->
  lookup t initial_content_type_stats = None.
Proof.
  intros Hn. unfold initial_content_type_stats. cbn [lookup].
  repeat match goal with
         | |- context [String.eqb ?k t] =>
             destruct (String.eqb_spec k t) as [E|_];
             [exfalso; apply Hn; rewrite <- E; cbn; auto|]
         end.
  reflexivity.
Qed.

(** X14.  The aggregation has no bucket for a type other than [Video], [Short]
    and [Live]: on a list that holds a video of another type it raises
    at the first such video, and gives no statistics. *)
Theorem unknown_type_raises pre v post t :
  Forall valid_type pre ->
  type v = Some t ->
  ~ In t ["Video"; "Short"; "Live"] ->
  exists e, content_type_stats (pre ++ v :: post)%list = Raise e.
Proof.
  intros Hpre Ht Hn. unfold content_type_stats.
  rewrite group_videos_app.
  destruct (group_videos_returns pre initial_content_type_stats Hpre)
    as (d' & Hd').
  { intros k [<-|[<-|[<-|[]]]]; discriminate. }
  rewrite Hd'. cbn [group_videos]. rewrite Ht. cbn [get_or].
  rewrite (group_videos_lookup _ _ _ Hd' t), (lookup_unknown t Hn).
  cbn [option_map]. now eexists.
Qed.

(** *** The keys of the result *)

Lemma keys_update k v (d : StatsDict) : map fst (update k v d) = map fst d.
Proof.
  induction d as [|[k0 v0] d IH]; cbn [update map]; [reflexivity|].
  destruct (String.eqb k0 k); cbn [map fst]; congruence.
Qed.

Lemma keys_group_videos videos : forall d d',
  group_videos videos d = Ok d' -> map fst d' = map fst d.
Proof.
  induction videos as [|v videos IH]; intros d d' H; cbn [group_videos] in H.
  - now injection H as <-.
  - destruct (lookup (get_or (type v) "Video") d) as [stats|];
      [|discriminate].
    rewrite (IH _ _ H). apply keys_update.
Qed.

Lemma keys_content_type_stats videos d :
  content_type_stats videos = Ok d -> map fst d = ["Video"; "Short"; "Live"].
Proof.
  unfold content_type_stats.
  destruct (group_videos videos initial_content_type_stats) as [d0|e|] eqn:Hg;
    try discriminate.
  intros [= <-]. rewrite map_map.
  transitivity (map fst d0); [apply map_ext; now intros [k stats]|].
  now rewrite (keys_group_videos _ _ _ Hg).
Qed.

End BucketStatistics.

Lemma bucket_statistics_witness :
  exists d stats,
    content_type_stats (F := symbolic_floats) sample_videos = Ok d
    /\ lookup "Video" d = Some stats
    /\ count stats = 7%Z
    /\ total_views stats = 40%Z
    /\ total_likes stats = 7%Z
    /\ total_comments stats = 0%Z.
Proof.
  eexists _, _.
  split; [vm_compute; reflexivity|].
  split; [vm_compute; reflexivity|].
  exact (bucket_statistics (F := symbolic_floats) sample_videos _ "Video" _
           eq_refl eq_refl).
Defined.

Lemma bucket_averages_witness :
  exists d short live,
    content_type_stats (F := symbolic_floats) sample_videos = Ok d
    /\ lookup "Short" d = Some short
    /\ lookup "Live" d = Some live
    /\ (average_views short = @Float symbolic_floats (Round (Div 3 1) 2)
        /\ average_likes short = @Float symbolic_floats (Round (Div 1 1) 2)
        /\ average_comments short
           = @Float symbolic_floats (Round (Div 0 1) 2))
    /\ (bucket "Live" sample_videos = []
        /\ average_views live = @Int symbolic_floats 0
        /\ average_likes live = @Int symbolic_floats 0
        /\ average_comments live = @Int symbolic_floats 0).
Proof.
  eexists _, _, _.
  split; [vm_compute; reflexivity|].
  split; [vm_compute; reflexivity|].
  split; [vm_compute; reflexivity|].
  split.
  - exact (bucket_averages (F := symbolic_floats) sample_videos _ "Short" _
             eq_refl eq_refl).
  - exact (bucket_averages (F := symbolic_floats) sample_videos _ "Live" _
             eq_refl eq_refl).
Defined.

Lemma top_videos_are_the_five_most_viewed_witness :
  exists d stats,
    content_type_stats (F := symbolic_floats) sample_videos = Ok d
    /\ lookup "Video" d = Some stats
    /\ map video_id (sorted views_key (bucket "Video" sample_videos))
       = ["b"; "e"; "d"; "a"; "c"; "g"; "f"]
    /\ top_videos stats
       = firstn 5 (sorted views_key (bucket "Video" sample_videos)).
Proof.
  eexists _, _.
  split; [vm_compute; reflexivity|].
  split; [vm_compute; reflexivity|].
  split; [vm_compute; reflexivity|].
  exact (top_videos_are_the_five_most_viewed (F := symbolic_floats)
           sample_videos _ "Video" _ eq_refl eq_refl).
Defined.

Lemma unknown_type_raises_witness :
  exists e,
    content_type_stats (F := symbolic_floats)
      ([upload "a" (Some 5%Z) (Some "Video")]
       ++ upload "p" (Some 1%Z) (Some "Premiere")
          :: [upload "s" (Some 3%Z) (Some "Short")])%list
    = Raise e.
Proof.
  apply (unknown_type_raises (F := symbolic_floats)
           [upload "a" (Some 5%Z) (Some "Video")]
           (upload "p" (Some 1%Z) (Some "Premiere"))
           [upload "s" (Some 3%Z) (Some "Short")] "Premiere").
  - repeat (apply Forall_cons; [unfold valid_type; cbn; auto|]).
    apply Forall_nil.
  - reflexivity.
  - cbn. intros [H|[H|[H|[]]]]; discriminate.
Defined.

(** ** The pipeline as a whole *)

Section Pipeline.

Context {F : PyFloat}.
Variable yt : YouTube.

Lemma get_channel_id_ok identifier w :
  exists found w', get_channel_id yt identifier w = (Ok found, w').
Proof.
  unfold get_channel_id.
  destruct (PyStr.contains "youtube.com" identifier).
  - destruct (PyStr.contains "/channel/" identifier) eqn:Hchannel.
    + destruct (segment_after "channel/" identifier w Hchannel)
        as (r & _ & Hrun).
      unfold bind in *.
      destruct (subscript (PyStr.split identifier "/channel/") 1 w)
        as [[after|e|] w1]; try discriminate.
      destruct (subscript (PyStr.split after "/") 0 w1) as [[id|e|] w2];
        try discriminate.
      unfold ret. now eexists _, _.
    + destruct (PyStr.contains "/c/" identifier
                || PyStr.contains "/user/" identifier).
      * rewrite from_username_run. now eexists _, _.
      * destruct (PyStr.contains "/@" identifier) eqn:Hat.
        -- destruct (segment_after "@" identifier w Hat) as (r & _ & Hrun).
           unfold bind in *.
           destruct (subscript (PyStr.split identifier "/@") 1 w)
             as [[after|e|] w1]; try discriminate.
           destruct (subscript (PyStr.split after "/") 0 w1)
             as [[handle|e|] w2]; try discriminate.
           rewrite from_handle_run. now eexists _, _.
        -- unfold ret. now eexists _, _.
  - destruct (PyStr.startswith identifier "@").
    + rewrite from_handle_run. now eexists _, _.
    + rewrite from_username_run. now eexists _, _.
Qed.

Lemma complete_record_valid v : complete_record v -> valid_type v.
Proof.
  intros ((t & Ht & [<-|[<-|[<-|[]]]]) & _); unfold valid_type; auto.
Qed.

Lemma listed_records fuel clock id days w videos w' :
  get_channel_videos fuel yt clock id days w = (Ok videos, w') ->
  Forall complete_record videos.
Proof.
  destruct (days_ago_isoformat clock days) as [cutoff|e] eqn:H.
  - rewrite (get_channel_videos_cutoff _ _ _ _ _ _ _ H).
    pose proof (collect_videos_result yt (cutoff ++ "Z") fuel id w) as Hv.
    intros Hrun. rewrite Hrun in Hv. exact Hv.
  - rewrite (get_channel_videos_overflow _ _ _ _ _ _ _ H). discriminate.
Qed.

(** X15.  The loop that groups the videos finds a bucket for every video
    that [get_channel_videos] builds: no [KeyError] is raised on a
    listing.  What [analyze_channel] returns is either the error
    dictionary, or results for a channel identifier that is not empty:
    the period and the date as given, complete records, the overall
    totals and the aggregation of those records, under the three keys
    [Video], [Short] and [Live] in that order.  An exception, if there
    is one, is raised after the channel was found: the resolver raises
    nothing. *)
Theorem analyze_channel_outcome (fuel : nat) (clock : Clock)
  (channel_url : string) (days : Z) (w : World) :
  (forall id w1 videos w2,
      get_channel_videos fuel yt clock id days w1 = (Ok videos, w2) ->
      exists d,
        group_videos videos initial_content_type_stats = Ok d
        /\ map fst d = ["Video"; "Short"; "Live"])
  /\ match fst (analyze_channel fuel yt clock channel_url days w) with
     | Ok (AnalysisError error) => error = "Could not find channel ID"
     | Ok (AnalysisOk results) =>
         channel_id results <> ""
         /\ analysis_period_days results = days
         /\ analysis_date results = utcnow_isoformat clock
         /\ Forall complete_record (all_videos results)
         /\ overall_stats results = total_stats (all_videos results)
         /\ content_type_stats (all_videos results)
            = Ok (content_type_analysis results)
         /\ map fst (content_type_analysis results)
            = ["Video"; "Short"; "Live"]
     | Raise _ =>
         exists id w1,
           get_channel_id yt channel_url w = (Ok (Some id), w1) /\ id <> ""
     | OutOfFuel => True
     end.
Proof.
  split.
  - intros id w1 videos w2 Hrun.
    destruct (group_videos_returns videos initial_content_type_stats)
      as (d & Hd).
    + eapply Forall_impl; [|exact (listed_records _ _ _ _ _ _ _ Hrun)].
      apply complete_record_valid.
    + intros t [<-|[<-|[<-|[]]]]; discriminate.
    + exists d. split; [exact Hd|].
      now rewrite (keys_group_videos _ _ _ Hd).
  - unfold analyze_channel. unfold bind at 1.
    destruct (get_channel_id_ok channel_url w) as (found & w1 & Hfound).
    rewrite Hfound.
    destruct found as [id|]; [|reflexivity].
    destruct (PyStr.truthy id) eqn:Hid; [|reflexivity]. cbn [negb].
    assert (id <> "") as Hne by now destruct id.
    unfold bind at 1.
    destruct (get_channel_videos fuel yt clock id days w1)
      as [[videos|e|] w2] eqn:Hrun; cbn [fst]; [|now exists id, w1|exact I].
    unfold bind, lift_result, ret.
    destruct (content_type_stats videos) as [d|e|] eqn:Hd; cbn [fst];
      [|now exists id, w1|exact I].
    cbn [channel_id analysis_period_days analysis_date all_videos
         overall_stats content_type_analysis].
    split; [exact Hne|].
    do 2 (split; [reflexivity|]).
    split; [exact (listed_records _ _ _ _ _ _ _ Hrun)|].
    split; [reflexivity|]. split; [exact Hd|].
    apply (keys_content_type_stats _ _ Hd).
Qed.

(** X16.  A channel URL goes through the pipeline under the path
    segment that follows [/channel/].  An empty segment is answered with
    the error dictionary and no request at all, whatever the period.
    With any other segment, a period whose cutoff cannot be computed
    makes [analyze_channel] raise with no request sent; otherwise the
    error dictionary is never returned and the segment is the channel
    identifier of the results. *)
Theorem analyze_channel_channel_url (fuel : nat) (clock : Clock)
  (channel_url : string) (days : Z) (w : World) :
  PyStr.contains "youtube.com" channel_url = true ->
  PyStr.contains "/channel/" channel_url = true ->
  exists segment,
    channel_segment channel_url = Some segment
    /\ if PyStr.truthy segment
       then match days_ago_isoformat clock days with
            | Failed e =>
                analyze_channel fuel yt clock channel_url days w
                = (Raise e, w)
            | Got _ =>
                match fst (analyze_channel fuel yt clock channel_url days w)
                with
                | Ok (AnalysisError _) => False
                | Ok (AnalysisOk results) => channel_id results = segment
                | _ => True
                end
            end
       else analyze_channel fuel yt clock channel_url days w
            = (Ok (AnalysisError "Could not find channel ID"), w).
Proof.
  intros Hhost Hpath.
  destruct (segment_after "channel/" channel_url w Hpath) as (r & Hr & Hrun).
  exists (before_slash r). unfold channel_segment. rewrite Hr.
  split; [reflexivity|].
  assert (get_channel_id yt channel_url w = (Ok (Some (before_slash r)), w))
    as Hid.
  { unfold get_channel_id. rewrite Hhost, Hpath. unfold bind in *.
    destruct (subscript (PyStr.split channel_url "/channel/") 1 w)
      as [[after|e|] w1]; try discriminate.
    destruct (subscript (PyStr.split after "/") 0 w1) as [[id|e|] w2];
      try discriminate.
    now injection Hrun as -> ->. }
  remember (analyze_channel fuel yt clock channel_url days w) as run eqn:E.
  unfold analyze_channel in E. unfold bind at 1 in E. rewrite Hid in E.
  destruct (PyStr.truthy (before_slash r)); cbn [negb] in E; [|exact E].
  unfold bind at 1 in E.
  destruct (days_ago_isoformat clock days) as [cutoff|e] eqn:Hclock.
  - destruct (get_channel_videos fuel yt clock (before_slash r) days w)
      as [[videos|e|] w2]; subst run; cbn [fst]; try exact I.
    unfold bind, lift_result, ret.
    destruct (content_type_stats videos) as [d|e|]; cbn [fst]; try exact I.
    reflexivity.
  - now rewrite (get_channel_videos_overflow _ _ _ _ _ _ _ Hclock) in E.
Qed.

End Pipeline.

Lemma analyze_channel_channel_url_witness :
  (exists segment,
      channel_segment "https://www.youtube.com/channel/" = Some segment
      /\ analyze_channel (F := symbolic_floats) 10 three_uploads sample_clock
           "https://www.youtube.com/channel/" 999999999 no_effects
         = (Ok (AnalysisError "Could not find channel ID"), no_effects))
  /\ (exists segment,
        channel_segment "https://www.youtube.com/channel/UC1/videos"
        = Some segment
        /\ match fst (analyze_channel (F := symbolic_floats) 10 three_uploads
                        sample_clock
                        "https://www.youtube.com/channel/UC1/videos" 30
                        no_effects)
           with
           | Ok (AnalysisError _) => False
           | Ok (AnalysisOk results) => channel_id results = segment
           | _ => True
           end)
  /\ (exists segment,
        channel_segment "https://www.youtube.com/channel/UC1/videos"
        = Some segment
        /\ analyze_channel (F := symbolic_floats) 10 three_uploads
             sample_clock "https://www.youtube.com/channel/UC1/videos"
             999999999 no_effects
           = (Raise "date value out of range", no_effects)).
Proof.
  split; [|split].
  - destruct (analyze_channel_channel_url (F := symbolic_floats)
                three_uploads 10 sample_clock
                "https://www.youtube.com/channel/" 999999999 no_effects
                eq_refl eq_refl) as (segment & Hseg & H).
    exists segment. split; [exact Hseg|].
    assert (segment = "") as -> by (cbv in Hseg; congruence).
    exact H.
  - destruct (analyze_channel_channel_url (F := symbolic_floats)
                three_uploads 10 sample_clock
                "https://www.youtube.com/channel/UC1/videos" 30 no_effects
                eq_refl eq_refl) as (segment & Hseg & H).
    exists segment. split; [exact Hseg|].
    assert (segment = "UC1") as -> by (cbv in Hseg; congruence).
    exact H.
  - destruct (analyze_channel_channel_url (F := symbolic_floats)
                three_uploads 10 sample_clock
                "https://www.youtube.com/channel/UC1/videos" 999999999
                no_effects eq_refl eq_refl) as (segment & Hseg & H).
    exists segment. split; [exact Hseg|].
    assert (segment = "UC1") as -> by (cbv in Hseg; congruence).
    exact H.
Defined.

(** ** Document lookup service: sessions and documents *)

Section Sessions.

Variable db : Api.Database.

(** Converting the rows makes no call on the database and leaves the
    session as it is; it returns the converted rows behind [results], or
    raises what the first failing conversion raises. *)
Lemma dict_rows_run rows : forall results s,
  snd (Api.dict_rows db rows results s) = s
  /\ (forall converted,
         Forall2 (fun row d => Api.dict db row = Got d) rows converted ->
         fst (Api.dict_rows db rows results s)
         = Ok (results ++ converted)%list)
  /\ fst (Api.dict_rows db rows results s) <> OutOfFuel.
Proof.
  induction rows as [|row rows IH]; intros results s; cbn [Api.dict_rows].
  - split; [reflexivity|]. split; [|discriminate].
    intros converted H. inversion H. now rewrite app_nil_r.
  - destruct (Api.dict db row) as [d|e] eqn:Hrow.
    + destruct (IH (results ++ [d])%list s) as (Hs & Hok & Hfuel).
      split; [exact Hs|]. split; [|exact Hfuel].
      intros converted H. inversion H as [|row' d' rows' ds Hd Hrest]; subst.
      rewrite (Hok ds Hrest), <- app_assoc.
      assert (d' = d) as -> by congruence. reflexivity.
    + split; [reflexivity|]. split; [|discriminate].
      intros converted H. inversion H; subst. congruence.
Qed.

(** What the body of [try] leaves behind once the connection is
    established: a session, and the connection and the query in the
    log. *)
Lemma api_lookup_connected id log :
  Api.connect db (List.length log) = Got tt ->
  snd (Api.lookup db id (Api.mkState None log))
  = Api.mkState (Some tt)
      (log ++ [Connect;
               SessionExecute "SELECT * FROM data WHERE channel_id = %s"
                 [id]])
  /\ fst (Api.lookup db id (Api.mkState None log)) <> OutOfFuel
  /\ (forall r, fst (Api.lookup db id (Api.mkState None log)) = Ok r ->
                status r = 200).
Proof.
  intros Hc. unfold Api.lookup, bind, Api.call, Api.set_session.
  cbn [Api.db_calls Api.session]. rewrite Hc.
  cbn [Api.db_calls Api.session].
  rewrite List.length_app, Nat.add_comm. cbn [List.length Nat.add].
  cbn [append]. rewrite <- app_assoc. cbn [app].
  destruct (Api.session_execute db (S (List.length log)) _ [id]) as [rows|e];
    [|repeat split; discriminate].
  set (s := Api.mkState _ _).
  destruct (dict_rows_run rows [] s) as (Hs & _ & Hfuel).
  destruct (Api.dict_rows db rows [] s) as [[results|e|] s'];
    cbn [fst snd] in *; subst s'; unfold ret; cbn [fst snd].
  - split; [reflexivity|]. split; [discriminate|]. now intros r [= <-].
  - repeat split; discriminate.
  - now elim Hfuel.
Qed.

(** X17.  [api.py] answers every request: with status 400 and no call on the
    database when [channel_id] is missing or empty, and otherwise with
    status 200 or 500.  The session is shut down exactly when the
    connection was established, and then as the last call, whether or
    not the query or the conversion of a row raised; when [connect]
    raises its message is the body and no shutdown is attempted. *)
Theorem api_get_data_session (channel_id : option string)
  (log : list DbCall) :
  exists response log',
    Api.get_data db channel_id log = (Ok response, log')
    /\ if truthy_token channel_id
       then match Api.connect db (List.length log) with
            | Failed e =>
                response = mkResponse 500 (ErrorBody e)
                /\ log' = (log ++ [Connect])%list
            | Got _ =>
                (status response = 200 \/ status response = 500)
                /\ log'
                   = (log
                      ++ [Connect;
                          SessionExecute
                            "SELECT * FROM data WHERE channel_id = %s"
                            [get_or channel_id ""];
                          Shutdown])%list
            end
       else response
            = mkResponse 400 (ErrorBody "channel_id parameter is required")
            /\ log' = log.
Proof.
  unfold Api.get_data.
  destruct (truthy_token channel_id) eqn:Hid; cbn [negb];
    [|now eexists _, _].
  unfold try_finally, try_except.
  destruct (Api.connect db (List.length log)) as [[]|e] eqn:Hc.
  - destruct (api_lookup_connected (get_or channel_id "") log Hc)
      as (Hs & Hfuel & Hok).
    destruct (Api.lookup db (get_or channel_id "") (Api.mkState None log))
      as [[r|e|] s]; cbn [fst snd] in *; subst s; unfold ret, Api.release;
      cbn [Api.session Api.db_calls].
    + eexists _, _. split; [reflexivity|]. split; [left; now apply Hok|].
      now rewrite <- app_assoc.
    + eexists _, _. split; [reflexivity|]. split; [right; reflexivity|].
      now rewrite <- app_assoc.
    + now elim Hfuel.
  - rewrite (api_lookup_connect_raises db _ log e Hc).
    unfold ret, Api.release. cbn [Api.session Api.db_calls].
    now eexists _, _.
Qed.

(** X18.  When the connection is established, the query returns rows and
    every row converts, [api.py] answers with status 200 and the
    converted rows, in the order of the rows. *)
Theorem api_get_data_found (id : string) (log : list DbCall)
  (rows converted : list Dict) :
  PyStr.truthy id = true ->
  Api.connect db (List.length log) = Got tt ->
  Api.session_execute db (S (List.length log))
    "SELECT * FROM data WHERE channel_id = %s" [id] = Got rows ->
  Forall2 (fun row d => Api.dict db row = Got d) rows converted ->
  Api.get_data db (Some id) log
  = (Ok (mkResponse 200 (DataBody converted)),
     (log
      ++ [Connect;
          SessionExecute "SELECT * FROM data WHERE channel_id = %s" [id];
          Shutdown])%list).
Proof.
  intros Hid Hc Hq Hrows. unfold Api.get_data.
  cbn [truthy_token get_or]. rewrite Hid. cbn [negb].
  unfold try_finally, try_except, Api.lookup, bind, Api.call,
    Api.set_session.
  cbn [Api.db_calls Api.session]. rewrite Hc.
  cbn [Api.db_calls Api.session].
  rewrite List.length_app, Nat.add_comm. cbn [List.length Nat.add].
  cbn [append]. rewrite Hq.
  set (s := Api.mkState _ _).
  destruct (dict_rows_run rows [] s) as (Hs & Hok & _).
  specialize (Hok converted Hrows).
  destruct (Api.dict_rows db rows [] s) as [r s']; cbn [fst snd] in *.
  subst r s'. unfold ret, Api.release. subst s.
  cbn [Api.session Api.db_calls app]. now rewrite <- !app_assoc.
Qed.

End Sessions.

Section Documents.

Variable db : DbDataApi.Database.

(** X19.  [DB_data_api.py], once the collection and the query have answered:
    the response is the first document of the result, with status 200,
    and the other documents are left out.  A result without documents is
    not an empty answer but a failure: status 500 with the message of the
    [IndexError], or of the [KeyError] when a key is missing. *)
Theorem documents_get_data_first_document (id : string) (log : list DbCall)
  (results : DbDataApi.FindResults) :
  PyStr.truthy id = true ->
  DbDataApi.collection db (List.length log) "data" = Got tt ->
  DbDataApi.find db (S (List.length log)) id = Got results ->
  DbDataApi.get_data db (Some id) log
  = (Ok match DbDataApi.data_documents results with
        | Some (Some (document :: _)) =>
            mkResponse 200 (DocumentBody document)
        | Some (Some []) =>
            mkResponse 500 (ErrorBody "list index out of range")
        | Some None => mkResponse 500 (ErrorBody "'documents'")
        | None => mkResponse 500 (ErrorBody "'data'")
        end,
     (log ++ [GetCollection "data"; Find id])%list).
Proof.
  intros Hid Hc Hf. unfold DbDataApi.get_data.
  cbn [truthy_token get_or]. rewrite Hid. cbn [negb].
  unfold try_except, DbDataApi.lookup, bind, DbDataApi.call.
  rewrite Hc, List.length_app, Nat.add_comm. cbn [List.length Nat.add].
  rewrite Hf, <- app_assoc. cbn [app].
  unfold DbDataApi.first_document.
  destruct (DbDataApi.data_documents results) as [[[|document others]|]|];
    reflexivity.
Qed.

(** X20.  [DB_data_api.py] answers every request, with status 200, 400 or
    500, and makes at most two calls: the collection, then the query.
    It makes none when [channel_id] is missing or empty, and no query
    when the collection cannot be obtained. *)
Theorem documents_get_data_calls (channel_id : option string)
  (log : list DbCall) :
  exists response log',
    DbDataApi.get_data db channel_id log = (Ok response, log')
    /\ (status response = 200 \/ status response = 400
        \/ status response = 500)
    /\ if truthy_token channel_id
       then match DbDataApi.collection db (List.length log) "data" with
            | Failed e =>
                response = mkResponse 500 (ErrorBody e)
                /\ log' = (log ++ [GetCollection "data"])%list
            | Got _ =>
                log'
                = (log ++ [GetCollection "data";
                           Find (get_or channel_id "")])%list
            end
       else status response = 400 /\ log' = log.
Proof.
  unfold DbDataApi.get_data.
  destruct (truthy_token channel_id) eqn:Hid; cbn [negb].
  - unfold try_except, DbDataApi.lookup, bind, DbDataApi.call.
    destruct (DbDataApi.collection db (List.length log) "data") as [[]|e].
    + rewrite List.length_app, Nat.add_comm. cbn [List.length Nat.add].
      rewrite <- app_assoc. cbn [app].
      destruct (DbDataApi.find db (S (List.length log)) (get_or channel_id ""))
        as [results|e].
      * unfold DbDataApi.first_document.
        destruct (DbDataApi.data_documents results)
          as [[[|document others]|]|]; cbn; eexists _, _;
          (split; [reflexivity|]); cbn; auto.
      * cbn. eexists _, _. split; [reflexivity|]. cbn. auto.
    + cbn. eexists _, _. split; [reflexivity|]. cbn. auto.
  - unfold ret. eexists _, _. split; [reflexivity|]. cbn. auto.
Qed.

End Documents.

Lemma api_get_data_found_witness :
  Api.get_data two_rows (Some "UC1") []
  = (Ok (mkResponse 200
           (DataBody [[("channel_id", "UC1"); ("title", "first")];
                      [("channel_id", "UC1"); ("title", "second")]])),
     [Connect;
      SessionExecute "SELECT * FROM data WHERE channel_id = %s" ["UC1"];
      Shutdown]).
Proof.
  apply (api_get_data_found two_rows "UC1" []
           [[("channel_id", "UC1"); ("title", "first")];
            [("channel_id", "UC1"); ("title", "second")]]);
    try reflexivity.
  repeat constructor.
Defined.

Lemma documents_get_data_first_document_witness :
  DbDataApi.get_data two_documents (Some "UC1") []
  = (Ok (mkResponse 200
           (DocumentBody [("channel_id", "UC1"); ("title", "first")])),
     [GetCollection "data"; Find "UC1"])
  /\ DbDataApi.get_data empty_collection (Some "UC1") []
     = (Ok (mkResponse 500 (ErrorBody "list index out of range")),
        [GetCollection "data"; Find "UC1"]).
Proof.
  split.
  - apply (documents_get_data_first_document two_documents "UC1" []
             (DbDataApi.mkFindResults
                (Some (Some [[("channel_id", "UC1"); ("title", "first")];
                             [("channel_id", "UC1"); ("title", "second")]]))));
      reflexivity.
  - apply (documents_get_data_first_document empty_collection "UC1" []
             (DbDataApi.mkFindResults (Some (Some []))));
      reflexivity.
Defined.

(** ** Listing: a playlist that does not end *)

Section EndlessListing.

Variable yt : YouTube.
Variable published_after : string.

Lemma page_loop_endless playlist :
  (forall t token, exists p,
      playlistItems_list yt t playlist 50 token = Got p
      /\ truthy_token (nextPageToken p) = true) ->
  forall fuel token videos w,
    fst (page_loop fuel yt published_after playlist token (videos, w))
    = OutOfFuel
    /\ fuel + List.length (page_requests_of (calls w))
       <= List.length
            (page_requests_of
               (calls (snd (snd (page_loop fuel yt published_after playlist
                                   token (videos, w)))))).
Proof.
  intros Hpages. induction fuel as [|fuel IH]; intros token videos w;
    [split; [reflexivity | cbn; lia]|].
  destruct (Hpages (List.length (calls w)) token) as (p & Hp & Ht).
  assert (exists new w2,
             page_loop (S fuel) yt published_after playlist token (videos, w)
             = page_loop fuel yt published_after playlist (nextPageToken p)
                 ((videos ++ new)%list, w2)
             /\ page_requests_of (calls w2)
                = (page_requests_of (calls w)
                   ++ [PlaylistItemsList playlist 50 token])%list)
    as (new & w2 & -> & R).
  { cbn [page_loop]. unfold bind at 1. unfold in_world at 1, execute.
    rewrite Hp.
    destruct (for_each_collect yt published_after (page_items p) videos
                (mkWorld (calls w ++ [PlaylistItemsList playlist 50 token])
                   (printed w)))
      as (new & w2 & H1 & R1 & _ & _).
    unfold bind at 1. rewrite H1, Ht. cbn [negb]. exists new, w2.
    split; [reflexivity|]. rewrite R1. cbn [calls].
    now rewrite page_requests_of_app. }
  destruct (IH (nextPageToken p) (videos ++ new)%list w2) as [Hrun Hcount].
  split; [exact Hrun|].
  rewrite R, List.length_app in Hcount. cbn [List.length] in Hcount. lia.
Qed.

Lemma collect_videos_endless channel_id w playlist others :
  channels_list_id yt (List.length (calls w)) channel_id
  = Got (playlist :: others) ->
  (forall t token, exists p,
      playlistItems_list yt t playlist 50 token = Got p
      /\ truthy_token (nextPageToken p) = true) ->
  forall fuel,
    fst (collect_videos fuel yt published_after channel_id w) = OutOfFuel
    /\ fuel
       <= List.length
            (page_requests_of
               (calls (snd (collect_videos fuel yt published_after
                              channel_id w)))).
Proof.
  intros Hc Hpages fuel.
  destruct (page_loop_endless playlist Hpages fuel None []
              (mkWorld (calls w ++ [ChannelsListId channel_id]) (printed w)))
    as [Hrun Hcount].
  unfold collect_videos, try_except, bind, in_world, execute.
  rewrite Hc.
  destruct (page_loop fuel yt published_after playlist None _)
    as [[[]|e|] [videos w1]]; cbn [fst snd] in *; try discriminate.
  split; [reflexivity | lia].
Qed.

End EndlessListing.

(** X10.  The loop has no bound of its own and the cutoff does not end
    it: for a period whose cutoff can be computed, as long as the
    service hands out a continuation token with every page,
    [get_channel_videos] goes on requesting pages and does not return,
    however old the entries are. *)
Theorem get_channel_videos_endless (yt : YouTube) (clock : Clock) (days : Z)
  (cutoff : string) (channel_id : string) (w : World) (playlist : string)
  (others : list string) :
  days_ago_isoformat clock days = Got cutoff ->
  channels_list_id yt (List.length (calls w)) channel_id
  = Got (playlist :: others) ->
  (forall t token, exists p,
      playlistItems_list yt t playlist 50 token = Got p
      /\ truthy_token (nextPageToken p) = true) ->
  forall fuel,
    fst (get_channel_videos fuel yt clock channel_id days w) = OutOfFuel
    /\ fuel
       <= List.length
            (page_requests_of
               (calls (snd (get_channel_videos fuel yt clock channel_id days
                              w)))).
Proof.
  intros Hcutoff Hc Hpages fuel.
  rewrite (get_channel_videos_cutoff _ _ _ _ _ _ _ Hcutoff).
  exact (collect_videos_endless yt (cutoff ++ "Z") channel_id w playlist
           others Hc Hpages fuel).
Qed.

Lemma get_channel_videos_endless_witness :
  fst (get_channel_videos 7 endless_pages sample_clock "UC1" 30 no_effects)
  = OutOfFuel
  /\ 7 <= List.length
            (page_requests_of
               (calls (snd (get_channel_videos 7 endless_pages
                              sample_clock "UC1" 30 no_effects)))).
Proof.
  apply (get_channel_videos_endless endless_pages sample_clock 30
           "2024-05-01T00:00:00" "UC1" no_effects "UU1" []).
  - reflexivity.
  - reflexivity.
  - intros t token. eexists. split; reflexivity.
Defined.
